(** * Smart-Biz web client: a shallow embedding of its handlers

    The repository holds two React front ends over one FastAPI back end:
    - the router front end ([services/api.ts] with [apiClient], the pages
      [Invoices] and [Dashboard], and the [App] with its routes);
    - the component front end ([services/api.ts] with [api], the components
      [Dashboard] (chat), [GSTCompliance], [Invoices],
      [DashboardAnalytics], and the [App] that switches screens).

    Every handler is an [async] arrow function over React state, the
    browser ([localStorage], [window.location], [console], [alert],
    [confirm]) and one HTTP exchange. They are embedded as computations of a
    state-and-exception monad [Js] over a [World]; the reply of the back end,
    the answer to [confirm] and the clock are arguments of the handler.

    Conventions of the embedding:
    - a handler is run from the event to its end, the [await] inside it
      being the point where the reply is consumed; where what happens
      between the request and the reply matters, as for two deletions in
      flight in [Invoices], the handler is also given in its two halves,
      before and after the [await];
    - the constants a handler closes over ([inputMessage], [invoices], ...)
      are read once, at the start of the run, with [render]; a setter acts
      on the state the next render will show;
    - values have the types the TypeScript sources declare; a member that
      may be absent or [null] is an [option];
    - the back end is not part of the repository: what it answers is the
      [HttpReply] handed to the handler. *)

From Stdlib Require Import ZArith String Ascii List Bool Lia.
From stdpp Require Import base option list strings gmap pretty.

Local Open Scope string_scope.
Local Open Scope Z_scope.
Local Open Scope list_scope.

(** ** JavaScript strings and truthiness

    A string is a sequence of code units; the embedding keeps the code units
    below 256, which is where Rocq's [ascii] lives. *)

(** [if (s)] on a string: every string but the empty one is truthy. *)
Definition truthy (s : string) : bool :=
  match s with
  | EmptyString => false
  | String _ _ => true
  end.

(** [if (v)] on a value that is a string, [null] or [undefined]. *)
Definition truthy_opt (v : option string) : bool :=
  match v with
  | Some s => truthy s
  | None => false
  end.

(** [a || b] where [b] is a string. *)
Definition or_else (a : option string) (b : string) : string :=
  match a with
  | Some s => if truthy s then s else b
  | None => b
  end.

(** [a || b] where [b] may itself be missing. *)
Definition or_opt (a b : option string) : option string :=
  if truthy_opt a then a else b.

(** The white space of ECMAScript among the code units below 256:
    TAB, LF, VT, FF, CR, SP and NBSP. *)
Definition is_whitespace (c : ascii) : bool :=
  let n := nat_of_ascii c in
  ((n =? 9) || (n =? 10) || (n =? 11) || (n =? 12) || (n =? 13)
   || (n =? 32) || (n =? 160))%nat.

Fixpoint trimStart (s : string) : string :=
  match s with
  | EmptyString => EmptyString
  | String c rest => if is_whitespace c then trimStart rest else s
  end.

Fixpoint trimEnd (s : string) : string :=
  match s with
  | EmptyString => EmptyString
  | String c rest =>
      let t := trimEnd rest in
      if is_whitespace c && negb (truthy t) then EmptyString else String c t
  end.

(** [String.prototype.trim]. *)
Definition trim (s : string) : string := trimEnd (trimStart s).

(** Every code unit of [s] is white space. *)
Fixpoint blank (s : string) : bool :=
  match s with
  | EmptyString => true
  | String c rest => is_whitespace c && blank rest
  end.

(** [String.prototype.toLowerCase] on the code units below 256: the
    letters A to Z and the capital letters of Latin-1 (U+00C0 to U+00DE but
    for the multiplication sign U+00D7) move up by 32. *)
Definition lower_unit (c : ascii) : ascii :=
  let n := nat_of_ascii c in
  if ((65 <=? n) && (n <=? 90)
      || (192 <=? n) && (n <=? 222) && negb (n =? 215))%nat
  then ascii_of_nat (n + 32)
  else c.

Fixpoint toLowerCase (s : string) : string :=
  match s with
  | EmptyString => EmptyString
  | String c rest => String (lower_unit c) (toLowerCase rest)
  end.

(** ** The browser and the wire *)

Inductive Method := GET | POST | DELETE.

Record AxiosRequestConfig := mkConfig {
  cfg_method : Method;
  cfg_url : string;
  cfg_headers : gmap string string;
  cfg_params : list (string * string);    (* params, undefined ones dropped *)
  cfg_data : list (string * string);      (* the JSON body of a POST *)
  cfg_blob : bool                         (* responseType: 'blob' *)
}.

(** What the server sends back. The body is one JSON value: [res_data] is
    its reading at the type the caller declares, [res_detail] its [detail]
    member when that is a string. *)
Record HttpResponse (D : Type) := mkResponse {
  res_status : Z;
  res_data : D;
  res_detail : option string
}.
Arguments mkResponse {D}.
Arguments res_status {D}.
Arguments res_data {D}.
Arguments res_detail {D}.

(** The outcome of one exchange: a response, or none at all (the network is
    down, the request timed out); [message] is then the text of the error. *)
Inductive HttpReply (D : Type) :=
| Response (r : HttpResponse D)
| NoResponse (message : string).
Arguments Response {D}.
Arguments NoResponse {D}.

Record ErrorResponse := mkErrorResponse {
  err_status : Z;
  err_detail : option string              (* error.response.data.detail *)
}.

Record AxiosError := mkError {
  err_message : string;
  err_response : option ErrorResponse
}.

(** [error.response?.status] and [error.response?.data?.detail]. *)
Definition error_status (e : AxiosError) : option Z :=
  err_status <$> err_response e.
Definition error_detail (e : AxiosError) : option string :=
  err_response e ≫= err_detail.

Inductive ConsoleEntry :=
| ConsoleLog (label : string)
| ConsoleError (label : string).

Inductive Dialog :=
| Alert (text : string)
| Confirm (text : string) (answer : bool).

(** The wire carries, in order, the requests sent and the settlements
    delivered. A sent request is tagged with the component state it was
    issued in. *)
Inductive NetEvent (S : Type) :=
| Sent (cfg : AxiosRequestConfig) (at_state : S)
| Settled (ok : bool).
Arguments Sent {S}.
Arguments Settled {S}.

Record World (S : Type) := mkWorld {
  component : S;                          (* the React state of the component *)
  localStorage : gmap string string;
  href : string;                          (* window.location.href *)
  console : list ConsoleEntry;
  dialogs : list Dialog;
  downloads : list string;                (* files offered for download *)
  network : list (NetEvent S)
}.
Arguments mkWorld {S}.
Arguments component {S}.
Arguments localStorage {S}.
Arguments href {S}.
Arguments console {S}.
Arguments dialogs {S}.
Arguments downloads {S}.
Arguments network {S}.

(** ** The monad of handlers *)

Inductive Completion (A : Type) :=
| Return (a : A)
| Throw (e : AxiosError).
Arguments Return {A}.
Arguments Throw {A}.

Definition Js (S A : Type) : Type := World S → Completion A * World S.

#[global] Instance Js_ret {S} : MRet (Js S) :=
  λ A a w, (Return a, w).

#[global] Instance Js_bind {S} : MBind (Js S) :=
  λ A B k m w,
    match m w with
    | (Return a, w') => k a w'
    | (Throw e, w') => (Throw e, w')
    end.

Definition throw {S A} (e : AxiosError) : Js S A :=
  λ w, (Throw e, w).

(** [try { body } catch (e) { handler e }]. *)
Definition try_catch {S A} (body : Js S A) (handler : AxiosError → Js S A)
  : Js S A :=
  λ w,
    match body w with
    | (Return a, w') => (Return a, w')
    | (Throw e, w') => handler e w'
    end.

(** [promise.then(onFulfilled, onRejected)]: [onRejected] sees the
    rejections of [promise], not those of [onFulfilled]. *)
Definition promise_then {S A B} (promise : Js S A)
    (onFulfilled : A → Js S B) (onRejected : AxiosError → Js S B) : Js S B :=
  λ w,
    match promise w with
    | (Return a, w') => onFulfilled a w'
    | (Throw e, w') => onRejected e w'
    end.

(** [try { body } finally { cleanup }]. *)
Definition try_finally {S A} (body : Js S A) (cleanup : Js S unit) : Js S A :=
  λ w,
    match body w with
    | (c, w') =>
        match cleanup w' with
        | (Return _, w'') => (c, w'')
        | (Throw e, w'') => (Throw e, w'')
        end
    end.

Definition modify {S} (f : World S → World S) : Js S unit :=
  λ w, (Return tt, f w).

(** The values of this render, as the closure of the handler sees them. *)
Definition render {S} : Js S S :=
  λ w, (Return (component w), w).

(** A state setter of [useState], in its two forms: [setX(v)] is
    [setState (set_x v)], [setX(prev => f prev)] is [setState] of the
    update of the field by [f]. *)
Definition setState {S} (f : S → S) : Js S unit :=
  modify (λ w, mkWorld (f (component w)) (localStorage w) (href w)
                        (console w) (dialogs w) (downloads w) (network w)).

Definition localStorage_getItem {S} (key : string) : Js S (option string) :=
  λ w, (Return (localStorage w !! key), w).

Definition localStorage_setItem {S} (key value : string) : Js S unit :=
  modify (λ w, mkWorld (component w) (<[key := value]> (localStorage w))
                        (href w) (console w) (dialogs w) (downloads w)
                        (network w)).

Definition localStorage_removeItem {S} (key : string) : Js S unit :=
  modify (λ w, mkWorld (component w) (delete key (localStorage w))
                        (href w) (console w) (dialogs w) (downloads w)
                        (network w)).

(** [window.location.href = url]. *)
Definition location_assign {S} (url : string) : Js S unit :=
  modify (λ w, mkWorld (component w) (localStorage w) url (console w)
                        (dialogs w) (downloads w) (network w)).

Definition console_log {S} (label : string) : Js S unit :=
  modify (λ w, mkWorld (component w) (localStorage w) (href w)
                        (console w ++ [ConsoleLog label]) (dialogs w)
                        (downloads w) (network w)).

Definition console_error {S} (label : string) : Js S unit :=
  modify (λ w, mkWorld (component w) (localStorage w) (href w)
                        (console w ++ [ConsoleError label]) (dialogs w)
                        (downloads w) (network w)).

Definition alert {S} (text : string) : Js S unit :=
  modify (λ w, mkWorld (component w) (localStorage w) (href w) (console w)
                        (dialogs w ++ [Alert text]) (downloads w)
                        (network w)).

(** [confirm(text)]; the user's answer is [answer]. *)
Definition confirm {S} (text : string) (answer : bool) : Js S bool :=
  λ w, (Return answer,
        mkWorld (component w) (localStorage w) (href w) (console w)
                (dialogs w ++ [Confirm text answer]) (downloads w)
                (network w)).

(** The anchor click of [downloadPDF]. *)
Definition save_file {S} (name : string) : Js S unit :=
  modify (λ w, mkWorld (component w) (localStorage w) (href w) (console w)
                        (dialogs w) (downloads w ++ [name]) (network w)).

Definition wire {S} (ev : World S → NetEvent S) : Js S unit :=
  modify (λ w, mkWorld (component w) (localStorage w) (href w) (console w)
                        (dialogs w) (downloads w) (network w ++ [ev w])).

(** ** axios *)

(** The default [validateStatus] of axios. *)
Definition validateStatus (status : Z) : bool :=
  (200 <=? status) && (status <? 300).

(** The request leaves the browser. *)
Definition send {S} (cfg : AxiosRequestConfig) : Js S unit :=
  wire (λ w, Sent cfg (component w)).

(** The error a promise of axios is rejected with. *)
Definition rejection {D} (reply : HttpReply D) : AxiosError :=
  match reply with
  | Response r =>
      mkError ("Request failed with status code " +:+ pretty (res_status r))
              (Some (mkErrorResponse (res_status r) (res_detail r)))
  | NoResponse message => mkError message None
  end.

(** The promise of the adapter settles: a response whose status passes
    [validateStatus] fulfils it, any other outcome rejects it. *)
Definition settle {S D} (reply : HttpReply D) : Js S (HttpResponse D) :=
  match reply with
  | Response r =>
      if validateStatus (res_status r)
      then wire (λ _, Settled true) ;; mret r
      else wire (λ _, Settled false) ;; throw (rejection reply)
  | NoResponse message =>
      wire (λ _, Settled false) ;; throw (rejection reply)
  end.

(** An axios instance is its request interceptor [onRequest] and its
    response interceptor [(onFulfilled, onRejected)]. A request is
    dispatched (interceptor, then the wire) and later settled. *)
Definition axios_dispatch {S}
    (onRequest : AxiosRequestConfig → Js S AxiosRequestConfig)
    (cfg : AxiosRequestConfig) : Js S unit :=
  cfg' ← onRequest cfg;
  send cfg'.

Definition axios_settle {S D}
    (onFulfilled : HttpResponse D → Js S (HttpResponse D))
    (onRejected : AxiosError → Js S (HttpResponse D))
    (reply : HttpReply D) : Js S (HttpResponse D) :=
  promise_then (settle reply) onFulfilled onRejected.

Definition axios_request {S D}
    (onRequest : AxiosRequestConfig → Js S AxiosRequestConfig)
    (onFulfilled : HttpResponse D → Js S (HttpResponse D))
    (onRejected : AxiosError → Js S (HttpResponse D))
    (cfg : AxiosRequestConfig) (reply : HttpReply D)
  : Js S (HttpResponse D) :=
  axios_dispatch onRequest cfg ;;
  axios_settle onFulfilled onRejected reply.

(** The global [axios], an instance without interceptors. *)
Definition axios_get {S D} (cfg : AxiosRequestConfig) (reply : HttpReply D)
  : Js S (HttpResponse D) :=
  axios_request mret mret throw cfg reply.

(** [axios.post] on the global [axios]. *)
Definition axios_post {S D} (cfg : AxiosRequestConfig) (reply : HttpReply D)
  : Js S (HttpResponse D) :=
  axios_request mret mret throw cfg reply.

(** A member of a JSON body that may be [undefined] is left out. *)
Definition with_member (name : string) (value : option string)
    (data : list (string * string)) : list (string * string) :=
  match value with
  | Some v => data ++ [(name, v)]
  | None => data
  end.

(** [config.headers.Authorization = value]. *)
Definition set_Authorization (value : string) (cfg : AxiosRequestConfig)
  : AxiosRequestConfig :=
  mkConfig (cfg_method cfg) (cfg_url cfg)
           (<["Authorization" := value]> (cfg_headers cfg))
           (cfg_params cfg) (cfg_data cfg) (cfg_blob cfg).

(** The headers both instances are created with. *)
Definition json_headers : gmap string string :=
  {["Content-Type" := "application/json"]}.

Definition request_config (m : Method) (url : string)
    (data : list (string * string)) : AxiosRequestConfig :=
  mkConfig m url json_headers [] data false.

(** [params: { status }]: a member that is [undefined] is not sent. *)
Definition with_param (name : string) (value : option string)
    (cfg : AxiosRequestConfig) : AxiosRequestConfig :=
  match value with
  | Some v =>
      mkConfig (cfg_method cfg) (cfg_url cfg) (cfg_headers cfg)
               (cfg_params cfg ++ [(name, v)]) (cfg_data cfg) (cfg_blob cfg)
  | None => cfg
  end.

Definition as_blob (cfg : AxiosRequestConfig) : AxiosRequestConfig :=
  mkConfig (cfg_method cfg) (cfg_url cfg) (cfg_headers cfg)
           (cfg_params cfg) (cfg_data cfg) true.

(** What a request with [responseType: 'blob'] gets back: the body is handed
    over as a [Blob], of a failure too, and a [Blob] has no [detail]
    member, whatever JSON the server wrote into it. *)
Definition blob_reply {D} (reply : HttpReply D) : HttpReply D :=
  match reply with
  | Response r => Response (mkResponse (res_status r) (res_data r) None)
  | NoResponse message => NoResponse message
  end.

(** ** The data of [types.ts] *)

Module Types.

Record Invoice := mkInvoice {
  id : string;
  invoice_number : string;
  customer_id : string;
  customer_name : option string;
  created_at : string;
  due_date : string;
  total_amount : Z;
  status : string
}.

(** The body of [GET /invoices/list]: [{ invoices: [...] }]. *)
Record InvoiceList := mkInvoiceList {
  invoices_member : option (list Invoice)
}.

Inductive Role := user | assistant.

Record ChatMessage := mkMessage {
  role : Role;
  content : string;
  timestamp : string
}.

(** The body of [POST /chat/query], with the two members the chat reads. *)
Record ChatQueryResponse := mkChatResponse {
  response_member : option string;
  reply_member : option string
}.

Record GSTVerificationResponse := mkGST {
  gst_gstin : string;
  legal_name : string;
  trade_name : option string;
  gst_status : string;
  state : string;
  address : option string;
  verified : bool
}.

Inductive Screen :=
| AI_COPILOT | DASHBOARD | INVOICES | GST | SUPPLIER_FINDER
| EXPENSE_TRACKER | INVENTORY | REPORTS.

Record LoginResponse := mkLoginResponse {
  access_token : string;
  token_type : string
}.

Record Customer := mkCustomer {
  cust_id : Z;
  cust_name : string;
  cust_email : option string;
  cust_phone : option string;
  cust_gstin : option string;
  cust_address : option string;
  cust_user_id : Z
}.

End Types.

(** ** [services/api.ts] of the router front end: [apiClient] *)

Module Services_apiClient.

(** The request interceptor. *)
Definition onRequest {S} (config : AxiosRequestConfig)
  : Js S AxiosRequestConfig :=
  token ← localStorage_getItem "token";
  match token with
  | Some t =>
      if truthy t
      then mret (set_Authorization ("Bearer " +:+ t) config)
      else mret config
  | None => mret config
  end.

(** The response interceptor. *)
Definition onFulfilled {S D} (response : HttpResponse D)
  : Js S (HttpResponse D) :=
  mret response.

Definition onRejected {S D} (error : AxiosError) : Js S (HttpResponse D) :=
  (if decide (error_status error = Some 401)
   then localStorage_removeItem "token" ;; location_assign "/login"
   else mret tt) ;;
  throw error.

Definition dispatch {S} (cfg : AxiosRequestConfig) : Js S unit :=
  axios_dispatch onRequest cfg.

Definition settled {S D} (reply : HttpReply D) : Js S (HttpResponse D) :=
  axios_settle onFulfilled onRejected reply.

Definition request {S D} (cfg : AxiosRequestConfig) (reply : HttpReply D)
  : Js S (HttpResponse D) :=
  axios_request onRequest onFulfilled onRejected cfg reply.

(** [invoiceService.getInvoices(status?)]. *)
Definition invoiceService_getInvoices_config (status : option string) : AxiosRequestConfig :=
  with_param "status" status (request_config GET "/invoices/list" []).

Definition invoiceService_getInvoices {S} (status : option string)
    (reply : HttpReply Types.InvoiceList) : Js S Types.InvoiceList :=
  response ← request (invoiceService_getInvoices_config status) reply;
  mret (res_data response).

(** [dashboardService.getOverview()] and [getInsights()]. *)
Definition dashboardService_getOverview_config : AxiosRequestConfig :=
  request_config GET "/dashboard/overview" [].

Definition dashboardService_getInsights_config : AxiosRequestConfig :=
  request_config GET "/dashboard/insights" [].

Definition dashboardService_getOverview {S D} (reply : HttpReply D) : Js S D :=
  response ← request dashboardService_getOverview_config reply;
  mret (res_data response).

Definition dashboardService_getInsights {S D} (reply : HttpReply D) : Js S D :=
  response ← request dashboardService_getInsights_config reply;
  mret (res_data response).

(** [chatService.sendQuery(query)]. *)
Definition chatService_sendQuery {S} (query : string)
    (reply : HttpReply Types.ChatQueryResponse)
  : Js S Types.ChatQueryResponse :=
  response ← request (request_config POST "/chat/query" [("query", query)])
                     reply;
  mret (res_data response).

(** The body of a login or a registration: [access_token] and [user]. *)
Record AuthData (U : Type) := mkAuthData {
  auth_access_token : option string;
  auth_user : U
}.
Arguments mkAuthData {U}.
Arguments auth_access_token {U}.
Arguments auth_user {U}.

(** The two writes that follow a login or a registration. [stringify]
    gives the text that [setItem] stores for the [user] member: what
    [JSON.stringify] returns, which for a member that is missing is
    [undefined] and is stored as the nine letters of that word. *)
Definition remember {S U} (stringify : U → string) (data : AuthData U)
  : Js S unit :=
  match auth_access_token data with
  | Some t =>
      if truthy t
      then localStorage_setItem "token" t ;;
           localStorage_setItem "user" (stringify (auth_user data))
      else mret tt
  | None => mret tt
  end.

(** [authService.login(email, password)]. *)
Definition authService_login {S U} (stringify : U → string)
    (email password : string) (reply : HttpReply (AuthData U))
  : Js S (AuthData U) :=
  response ← request (request_config POST "/auth/login"
                        [("email", email); ("password", password)]) reply;
  remember stringify (res_data response) ;;
  mret (res_data response).

(** [authService.register(email, password, full_name)]. *)
Definition authService_register {S U} (stringify : U → string)
    (email password full_name : string) (reply : HttpReply (AuthData U))
  : Js S (AuthData U) :=
  response ← request (request_config POST "/auth/register"
                        [("email", email); ("password", password);
                         ("full_name", full_name)]) reply;
  remember stringify (res_data response) ;;
  mret (res_data response).

(** [authService.logout()]. *)
Definition authService_logout {S} : Js S unit :=
  localStorage_removeItem "token" ;;
  localStorage_removeItem "user" ;;
  location_assign "/login".

(** [JSON.parse(text)]: the value the text denotes, or a [SyntaxError]
    thrown when the text is not JSON. *)
Inductive Parsed (U : Type) :=
| Value (u : U)
| SyntaxError (message : string).
Arguments Value {U}.
Arguments SyntaxError {U}.

Definition JSON_parse {S U} (parse : string → Parsed U) (text : string)
  : Js S U :=
  match parse text with
  | Value u => mret u
  | SyntaxError message => throw (mkError message None)
  end.

(** [authService.getCurrentUser()]; [parse] is [JSON.parse]. Nothing
    catches what [JSON.parse] throws. *)
Definition authService_getCurrentUser {S U} (parse : string → Parsed U)
  : Js S (option U) :=
  user ← localStorage_getItem "user";
  match user with
  | Some text =>
      if truthy text
      then u ← JSON_parse parse text; mret (Some u)
      else mret None
  | None => mret None
  end.

(** [chatService.getSuggestions()]. *)
Definition chatService_getSuggestions {S D} (reply : HttpReply D) : Js S D :=
  response ← request (request_config GET "/chat/suggestions" []) reply;
  mret (res_data response).

(** [invoiceService.createInvoice(invoiceData)]. *)
Definition invoiceService_createInvoice {S D}
    (invoiceData : list (string * string)) (reply : HttpReply D) : Js S D :=
  response ← request (request_config POST "/invoices/create" invoiceData)
                     reply;
  mret (res_data response).

(** [invoiceService.getInvoice(invoiceId)]. *)
Definition invoiceService_getInvoice {S D} (invoiceId : string)
    (reply : HttpReply D) : Js S D :=
  response ← request (request_config GET ("/invoices/" +:+ invoiceId) [])
                     reply;
  mret (res_data response).

End Services_apiClient.

(** ** [services/api.ts] of the component front end: [api] *)

Module Services_api.

(** The request interceptor; the instance has no response interceptor. *)
Definition onRequest {S} (config : AxiosRequestConfig)
  : Js S AxiosRequestConfig :=
  token ← localStorage_getItem "token";
  match token with
  | Some t =>
      if truthy t
      then mret (set_Authorization ("Bearer " +:+ t) config)
      else mret config
  | None => mret config
  end.

Definition dispatch {S} (cfg : AxiosRequestConfig) : Js S unit :=
  axios_dispatch onRequest cfg.

Definition settled {S D} (reply : HttpReply D) : Js S (HttpResponse D) :=
  axios_settle mret throw reply.

Definition request {S D} (cfg : AxiosRequestConfig) (reply : HttpReply D)
  : Js S (HttpResponse D) :=
  axios_request onRequest mret throw cfg reply.

(** [chatAPI.sendQuery(query)]. *)
Definition chatAPI_sendQuery {S} (query : string)
    (reply : HttpReply Types.ChatQueryResponse)
  : Js S Types.ChatQueryResponse :=
  response ← request (request_config POST "/chat/query" [("query", query)])
                     reply;
  mret (res_data response).

(** [invoiceAPI.list()]. *)
Definition invoiceAPI_list {S} (reply : HttpReply Types.InvoiceList)
  : Js S Types.InvoiceList :=
  response ← request (request_config GET "/invoices/list" []) reply;
  mret (res_data response).

(** [invoiceAPI.downloadPDF(id)]. *)
Definition invoiceAPI_downloadPDF {S} (id : string) (reply : HttpReply unit)
  : Js S unit :=
  response ← request
    (as_blob (request_config GET ("/invoices/" +:+ id +:+ "/download") []))
    (blob_reply reply);
  save_file ("invoice_" +:+ id +:+ ".pdf").

(** [invoiceAPI.delete(id)]. *)
Definition invoiceAPI_delete {S} (id : string) (reply : HttpReply unit) : Js S unit :=
  request (request_config DELETE ("/invoices/" +:+ id) []) reply ;;
  mret tt.

(** [gstAPI.verify(gstin)]. *)
Definition gstAPI_verify {S} (gstin : string)
    (reply : HttpReply Types.GSTVerificationResponse)
  : Js S Types.GSTVerificationResponse :=
  response ← request (request_config GET ("/gst/verify?gstin=" +:+ gstin) [])
                     reply;
  mret (res_data response).

Definition API_BASE_URL : string := "http://localhost:8000/api".

(** [authAPI.login(email, password)]: a form posted with the global
    [axios], not with [api]. *)
Definition authAPI_login_config (email password : string)
  : AxiosRequestConfig :=
  mkConfig POST (API_BASE_URL +:+ "/auth/login")
           {["Content-Type" := "multipart/form-data"]} []
           [("username", email); ("password", password)] false.

Definition authAPI_login {S} (email password : string)
    (reply : HttpReply Types.LoginResponse) : Js S Types.LoginResponse :=
  response ← axios_post (authAPI_login_config email password) reply;
  mret (res_data response).

(** [authAPI.register(email, password, businessName?)]. *)
Definition authAPI_register_config (email password : string)
    (businessName : option string) : AxiosRequestConfig :=
  mkConfig POST (API_BASE_URL +:+ "/auth/register") ∅ []
           (with_member "business_name" businessName
              [("email", email); ("password", password)])
           false.

Definition authAPI_register {S} (email password : string)
    (businessName : option string) (reply : HttpReply Types.LoginResponse)
  : Js S Types.LoginResponse :=
  response ← axios_post (authAPI_register_config email password businessName)
                        reply;
  mret (res_data response).

(** [invoiceAPI.get(id)]; the id is a number. *)
Definition invoiceAPI_get {S} (id : Z) (reply : HttpReply Types.Invoice)
  : Js S Types.Invoice :=
  response ← request (request_config GET ("/invoices/" +:+ pretty id) [])
                     reply;
  mret (res_data response).

(** [invoiceAPI.create(invoiceData)]. *)
Definition invoiceAPI_create {S} (invoiceData : list (string * string))
    (reply : HttpReply Types.Invoice) : Js S Types.Invoice :=
  response ← request (request_config POST "/invoices/create" invoiceData)
                     reply;
  mret (res_data response).

(** [customerAPI.list()] and [customerAPI.create(customerData)]. *)
Definition customerAPI_list {S} (reply : HttpReply (list Types.Customer))
  : Js S (list Types.Customer) :=
  response ← request (request_config GET "/customers/list" []) reply;
  mret (res_data response).

Definition customerAPI_create {S} (customerData : list (string * string))
    (reply : HttpReply Types.Customer) : Js S Types.Customer :=
  response ← request (request_config POST "/customers/create" customerData)
                     reply;
  mret (res_data response).

(** [dashboardAPI.getStats()]. *)
Definition dashboardAPI_getStats {S D} (reply : HttpReply D) : Js S D :=
  response ← request (request_config GET "/dashboard/stats" []) reply;
  mret (res_data response).

End Services_api.

(** ** [components/Dashboard.tsx]: the chat with the assistant *)

Module Components_Dashboard.

Record State := mkState {
  messages : list Types.ChatMessage;
  inputMessage : string;
  loading : bool
}.

Definition initial : State := mkState [] "" false.

Definition setMessages (f : list Types.ChatMessage → list Types.ChatMessage)
    (st : State) : State :=
  mkState (f (messages st)) (inputMessage st) (loading st).
Definition setInputMessage (v : string) (st : State) : State :=
  mkState (messages st) v (loading st).
Definition setLoading (v : bool) (st : State) : State :=
  mkState (messages st) (inputMessage st) v.

(** [response.response || response.reply || 'No response received']. *)
Definition reply_content (response : Types.ChatQueryResponse) : string :=
  or_else (or_opt (Types.response_member response)
                  (Types.reply_member response))
          "No response received".

(** The text of the message shown when the query fails. *)
Definition error_content (error : AxiosError) : string :=
  "Sorry, I encountered an error: "
  +:+ or_else (or_opt (error_detail error) (Some (err_message error)))
              "Please try again.".

(** [handleSendMessage]; [now] and [later] are the two readings of the
    clock, [reply] is what the back end answers. *)
Definition handleSendMessage (now later : string)
    (reply : HttpReply Types.ChatQueryResponse) : Js State unit :=
  st ← render;
  if negb (truthy (trim (inputMessage st))) || loading st then mret tt
  else
    let userMessage := Types.mkMessage Types.user (inputMessage st) now in
    setState (setMessages (λ prev, prev ++ [userMessage])) ;;
    setState (setInputMessage "") ;;
    setState (setLoading true) ;;
    try_finally
      (try_catch
         (response ← Services_api.chatAPI_sendQuery (inputMessage st) reply;
          console_log "Chat API Response:" ;;
          console_log "Response content:" ;;
          let assistantMessage :=
            Types.mkMessage Types.assistant (reply_content response) later in
          console_log "Assistant message:" ;;
          setState (setMessages (λ prev, prev ++ [assistantMessage])))
         (λ error,
          console_error "Chat error:" ;;
          let errorMessage :=
            Types.mkMessage Types.assistant (error_content error) later in
          setState (setMessages (λ prev, prev ++ [errorMessage]))))
      (setState (setLoading false)).

(** [onChange] of the input. *)
Definition handleChange (value : string) : Js State unit :=
  setState (setInputMessage value).

End Components_Dashboard.

(** ** [components/GSTCompliance.tsx] *)

Module Components_GSTCompliance.

Record State := mkState {
  gstin : string;
  loading : bool;
  result : option Types.GSTVerificationResponse;
  error : string
}.

Definition initial : State := mkState "" false None "".

Definition setGstin (v : string) (st : State) : State :=
  mkState v (loading st) (result st) (error st).
Definition setLoading (v : bool) (st : State) : State :=
  mkState (gstin st) v (result st) (error st).
Definition setResult (v : option Types.GSTVerificationResponse) (st : State)
  : State :=
  mkState (gstin st) (loading st) v (error st).
Definition setError (v : string) (st : State) : State :=
  mkState (gstin st) (loading st) (result st) v.

Definition handleVerify (reply : HttpReply Types.GSTVerificationResponse)
  : Js State unit :=
  st ← render;
  if negb (truthy (trim (gstin st))) then mret tt
  else
    setState (setLoading true) ;;
    setState (setError "") ;;
    setState (setResult None) ;;
    try_finally
      (try_catch
         (response ← Services_api.gstAPI_verify (gstin st) reply;
          setState (setResult (Some response)))
         (λ err,
          setState (setError (or_else (error_detail err)
                                      "Failed to verify GST number"))))
      (setState (setLoading false)).

(** [onChange] of the input; [upper] is [e.target.value.toUpperCase()]. *)
Definition handleChange (upper : string) : Js State unit :=
  setState (setGstin upper).

(** What the component draws of its state: the red panel is drawn for a
    truthy [error], the result card for a result that is not [null]. *)
Definition shows_error_panel (st : State) : bool := truthy (error st).
Definition shows_result (st : State) : bool :=
  match result st with Some _ => true | None => false end.

End Components_GSTCompliance.

(** ** [components/Invoices.tsx] *)

Module Components_Invoices.

Record State := mkState {
  invoices : list Types.Invoice;
  loading : bool;
  error : string
}.

Definition initial : State := mkState [] true "".

Definition setInvoices (v : list Types.Invoice) (st : State) : State :=
  mkState v (loading st) (error st).
Definition setLoading (v : bool) (st : State) : State :=
  mkState (invoices st) v (error st).
Definition setError (v : string) (st : State) : State :=
  mkState (invoices st) (loading st) v.

Definition loadInvoices (reply : HttpReply Types.InvoiceList)
  : Js State unit :=
  try_finally
    (try_catch
       (setState (setLoading true) ;;
        response ← Services_api.invoiceAPI_list reply;
        setState (setInvoices (default [] (Types.invoices_member response))))
       (λ err,
        console_error "Error loading invoices:" ;;
        setState (setError (or_else (error_detail err)
                                    "Failed to load invoices"))))
    (setState (setLoading false)).

Definition handleDownload (invoiceId invoiceNumber : string)
    (reply : HttpReply unit) : Js State unit :=
  try_catch
    (Services_api.invoiceAPI_downloadPDF invoiceId reply)
    (λ err,
     console_error "Error downloading invoice:" ;;
     alert (or_else (error_detail err) "Failed to download invoice")).

(** [handleDelete]; [answer] is what the user answers to [confirm]. The
    list that is filtered is the one of the render the button was drawn in. *)
Definition handleDelete (id : string) (answer : bool)
    (reply : HttpReply unit) : Js State unit :=
  st ← render;
  ok ← confirm "Are you sure you want to delete this invoice?" answer;
  if negb ok then mret tt
  else
    try_catch
      (Services_api.invoiceAPI_delete id reply ;;
       setState (setInvoices
                   (filter (λ inv, Types.id inv ≠ id) (invoices st))))
      (λ err,
       console_error "Error deleting invoice:" ;;
       alert (or_else (error_detail err) "Failed to delete invoice")).

(** [handleDelete] is an [async] function: it runs up to its [await] when
    the button is pressed and goes on when the reply arrives. Nothing
    disables the buttons of the rows in between, so that other handlers,
    a second [handleDelete] among them, can run before it goes on.
    [Deleting] is what the suspended call holds: its [id], and the
    [invoices] of the render its button was drawn in. *)
Record Deleting := mkDeleting {
  deleting_id : string;
  deleting_invoices : list Types.Invoice
}.

(** [handleDelete] from the press to the [await]: the question, and the
    request that [invoiceAPI.delete] hands to [api]. *)
Definition handleDelete_press (id : string) (answer : bool)
  : Js State (option Deleting) :=
  st ← render;
  ok ← confirm "Are you sure you want to delete this invoice?" answer;
  if negb ok then mret None
  else
    try_catch
      (Services_api.dispatch (request_config DELETE ("/invoices/" +:+ id) []) ;;
       mret (Some (mkDeleting id (invoices st))))
      (λ err,
       console_error "Error deleting invoice:" ;;
       alert (or_else (error_detail err) "Failed to delete invoice") ;;
       mret None).

(** [handleDelete] from the [await] on, when the reply is there. *)
Definition handleDelete_resume (d : Deleting) (reply : HttpReply unit)
  : Js State unit :=
  try_catch
    (Services_api.settled reply ;;
     setState (setInvoices
                 (filter (λ inv, Types.id inv ≠ deleting_id d)
                         (deleting_invoices d))))
    (λ err,
     console_error "Error deleting invoice:" ;;
     alert (or_else (error_detail err) "Failed to delete invoice")).

Definition shows_error_panel (st : State) : bool := truthy (error st).

Definition getStatusColor (status : string) : string :=
  let lowered := toLowerCase status in
  if String.eqb lowered "paid" then "bg-green-100 text-green-800"
  else if String.eqb lowered "pending" then "bg-yellow-100 text-yellow-800"
  else if String.eqb lowered "overdue" then "bg-red-100 text-red-800"
  else "bg-gray-100 text-gray-800".

End Components_Invoices.

(** ** [components/DashboardAnalytics.tsx] *)

Module Components_DashboardAnalytics.

Record DashboardStats := mkStats {
  total_revenue : Z;
  pending_invoices : Z;
  pending_amount : Z;
  monthly_revenue : Z;
  total_invoices : Z
}.

Record State := mkState {
  stats : option DashboardStats;
  loading : bool;
  error : option string
}.

Definition initial : State := mkState None true None.

Definition setStats (v : option DashboardStats) (st : State) : State :=
  mkState v (loading st) (error st).
Definition setLoading (v : bool) (st : State) : State :=
  mkState (stats st) v (error st).
Definition setError (v : option string) (st : State) : State :=
  mkState (stats st) (loading st) v.

(** A value that may be [null] inside a template literal. *)
Definition template (v : option string) : string := default "null" v.

(** The component calls the global [axios], which has no interceptor, and
    writes the two headers itself. *)
Definition overview_config (token : option string) : AxiosRequestConfig :=
  mkConfig GET "http://localhost:8000/api/dashboard/overview"
           (<["Authorization" := "Bearer " +:+ template token]> json_headers)
           [] [] false.

Definition fetchDashboardData (reply : HttpReply DashboardStats)
  : Js State unit :=
  try_finally
    (try_catch
       (setState (setLoading true) ;;
        setState (setError None) ;;
        console_log "Fetching dashboard overview..." ;;
        token ← localStorage_getItem "token";
        response ← axios_get (overview_config token) reply;
        console_log "Dashboard data received:" ;;
        setState (setStats (Some (res_data response))))
       (λ err,
        console_error "Error fetching dashboard data:" ;;
        let errorMsg :=
          or_else (or_opt (error_detail err) (Some (err_message err)))
                  "Failed to load dashboard data" in
        console_error "Error details:" ;;
        setState (setError (Some errorMsg))))
    (setState (setLoading false)).

(** The panel with the Retry button is drawn when the spinner is not and
    [error] is truthy. *)
Definition shows_error_panel (st : State) : bool :=
  negb (loading st) && truthy_opt (error st).

End Components_DashboardAnalytics.

(** ** [App.tsx] of the component front end *)

Module Components_App.

Record State := mkState {
  activeScreen : Types.Screen;
  isAuthenticated : bool;
  showRegister : bool
}.

Definition initial : State := mkState Types.AI_COPILOT false false.

Definition setActiveScreen (v : Types.Screen) (st : State) : State :=
  mkState v (isAuthenticated st) (showRegister st).
Definition setIsAuthenticated (v : bool) (st : State) : State :=
  mkState (activeScreen st) v (showRegister st).
Definition setShowRegister (v : bool) (st : State) : State :=
  mkState (activeScreen st) (isAuthenticated st) v.

(** The effect that runs once, on mount. *)
Definition mount : Js State unit :=
  token ← localStorage_getItem "token";
  if truthy_opt token then setState (setIsAuthenticated true) else mret tt.

Definition handleLogin (token : string) : Js State unit :=
  localStorage_setItem "token" token ;;
  setState (setIsAuthenticated true).

Definition handleLogout : Js State unit :=
  localStorage_removeItem "token" ;;
  setState (setIsAuthenticated false) ;;
  setState (setActiveScreen Types.AI_COPILOT).

Inductive View :=
| RegisterForm
| LoginForm
| DashboardScreen
| DashboardAnalyticsScreen
| InvoicesScreen
| GSTComplianceScreen
| SupplierFinderScreen
| ComingSoon (screen : Types.Screen).

Definition renderScreen (screen : Types.Screen) : View :=
  match screen with
  | Types.AI_COPILOT => DashboardScreen
  | Types.DASHBOARD => DashboardAnalyticsScreen
  | Types.INVOICES => InvoicesScreen
  | Types.GST => GSTComplianceScreen
  | Types.SUPPLIER_FINDER => SupplierFinderScreen
  | other => ComingSoon other
  end.

(** What [App] returns. *)
Definition view (st : State) : View :=
  if negb (isAuthenticated st)
  then (if showRegister st then RegisterForm else LoginForm)
  else renderScreen (activeScreen st).

Definition behind_login (v : View) : bool :=
  match v with
  | RegisterForm | LoginForm => false
  | _ => true
  end.

End Components_App.

(** ** [App.tsx] of the router front end *)

Module Router_App.

(** The state is the one flag [isAuthenticated]. *)
Definition State : Type := bool.

Definition initial : State := false.

Definition checkAuth : Js State unit :=
  token ← localStorage_getItem "token";
  setState (λ _, truthy_opt token).

(** The effect: [checkAuth] on mount; the two listeners it installs call
    [checkAuth] again on a [storage] or [authChange] event. *)
Definition mount : Js State unit := checkAuth.
Definition handleStorageChange : Js State unit := checkAuth.

Inductive Element :=
| Landing | Login | Register | Dashboard | Invoices | Chat
| Navigate (to : string)
| NoMatch.

(** How [Routes] matches the path of a [Route] without parameters against
    the pathname: a [Route] is not [caseSensitive] unless it says so, and
    any number of slashes may trail the pathname; the path ["/"] matches a
    pathname made of slashes only. The paths of this file are ASCII
    letters in lower case, so ignoring case is comparing the pathname in
    lower case. [without_trailing_slashes] takes the slashes at the end of
    the pathname off. *)
Fixpoint without_trailing_slashes (s : string) : string :=
  match s with
  | EmptyString => EmptyString
  | String c rest =>
      let kept := without_trailing_slashes rest in
      if Ascii.eqb c "/"%char && negb (truthy kept)
      then EmptyString
      else String c kept
  end.

Definition matchPath (pattern pathname : string) : bool :=
  if String.eqb pattern "/"
  then truthy pathname && negb (truthy (without_trailing_slashes pathname))
  else String.eqb (toLowerCase (without_trailing_slashes pathname)) pattern.

(** [<Routes>] at the pathname [path] of the location, as the router has
    decoded it; a pathname that is empty counts as ["/"]. The six routes
    are all static, so at most one of them matches. *)
Definition route (isAuthenticated : State) (path : string) : Element :=
  let pathname := if truthy path then path else "/" in
  if matchPath "/" pathname then Landing
  else if matchPath "/login" pathname then Login
  else if matchPath "/register" pathname then Register
  else if matchPath "/dashboard" pathname
       then (if isAuthenticated then Dashboard else Navigate "/login")
  else if matchPath "/invoices" pathname
       then (if isAuthenticated then Invoices else Navigate "/login")
  else if matchPath "/chat" pathname
       then (if isAuthenticated then Chat else Navigate "/login")
  else NoMatch.

Definition behind_login (e : Element) : bool :=
  match e with
  | Dashboard | Invoices | Chat => true
  | _ => false
  end.

End Router_App.

(** ** [pages/Invoices.tsx] of the router front end *)

Module Pages_Invoices.

Record State := mkState {
  invoices : list Types.Invoice;
  loading : bool
}.

Definition initial : State := mkState [] true.

Definition setInvoices (v : list Types.Invoice) (st : State) : State :=
  mkState v (loading st).
Definition setLoading (v : bool) (st : State) : State :=
  mkState (invoices st) v.

Definition fetchInvoices (reply : HttpReply Types.InvoiceList)
  : Js State unit :=
  try_finally
    (try_catch
       (data ← Services_apiClient.invoiceService_getInvoices None reply;
        setState (setInvoices (default [] (Types.invoices_member data))))
       (λ error, console_error "Error fetching invoices:"))
    (setState (setLoading false)).

(** [handleDownload] of the later version of the page. The service
    function [invoiceService.downloadInvoice] it calls is not part of
    [services/api.ts]; it is the argument [downloadInvoice]. *)
Definition handleDownload
    (downloadInvoice : string → string → Js State unit)
    (invoiceId invoiceNumber : string) : Js State unit :=
  try_catch
    (downloadInvoice invoiceId invoiceNumber)
    (λ error,
     console_error "Error downloading invoice:" ;;
     let errorMessage :=
       or_else (Some (err_message error))
         "Failed to download invoice PDF. Please check the console for details."
     in
     alert errorMessage).

(** The colours of the status badge, the conditional inside [className]. *)
Definition statusClass (status : string) : string :=
  if String.eqb status "paid" then "bg-green-100 text-green-800"
  else if String.eqb status "overdue" then "bg-red-100 text-red-800"
  else "bg-yellow-100 text-yellow-800".

End Pages_Invoices.

(** ** [pages/Dashboard.tsx] of the router front end *)

Module Pages_Dashboard.

Record Overview := mkOverview {
  total_revenue : Z;
  monthly_revenue : Z;
  pending_invoices : Z;
  pending_amount : Z
}.

Record Insight := mkInsight { message : string }.

(** The body of [GET /dashboard/insights]: [{ insights: [...] }]. *)
Record Insights := mkInsights { insights_member : option (list Insight) }.

Record State := mkState {
  overview : option Overview;
  insights : list Insight;
  loading : bool
}.

Definition initial : State := mkState None [] true.

Definition setOverview (v : option Overview) (st : State) : State :=
  mkState v (insights st) (loading st).
Definition setInsights (v : list Insight) (st : State) : State :=
  mkState (overview st) v (loading st).
Definition setLoading (v : bool) (st : State) : State :=
  mkState (overview st) (insights st) v.

(** [await c]: the handler resumes with the settlement [c]. *)
Definition await {S A} (c : Completion A) : Js S A := λ w, (c, w).

(** [Promise.all([p1, p2])] under an [await] whose continuation is [k]. The
    two settlements arrive in either order ([left_first]). The first
    rejection resumes the handler; the other promise still settles
    afterwards, and its outcome is dropped. *)
Definition promise_all2 {S A B R} (left_first : bool)
    (p1 : Js S A) (p2 : Js S B) (k : Completion (A * B) → Js S R) : Js S R :=
  λ w,
    if left_first then
      match p1 w with
      | (Throw e, w1) =>
          match k (Throw e) w1 with
          | (r, w2) => (r, snd (p2 w2))
          end
      | (Return a, w1) =>
          match p2 w1 with
          | (Throw e, w2) => k (Throw e) w2
          | (Return b, w2) => k (Return (a, b)) w2
          end
      end
    else
      match p2 w with
      | (Throw e, w1) =>
          match k (Throw e) w1 with
          | (r, w2) => (r, snd (p1 w2))
          end
      | (Return b, w1) =>
          match p1 w1 with
          | (Throw e, w2) => k (Throw e) w2
          | (Return a, w2) => k (Return (a, b)) w2
          end
      end.

(** [fetchDashboardData]: the two service calls of the array literal are
    dispatched one after the other, then both are awaited. *)
Definition fetchDashboardData (overview_first : bool)
    (overview_reply : HttpReply Overview) (insights_reply : HttpReply Insights)
  : Js State unit :=
  Services_apiClient.dispatch
    Services_apiClient.dashboardService_getOverview_config ;;
  Services_apiClient.dispatch
    Services_apiClient.dashboardService_getInsights_config ;;
  promise_all2 overview_first
    (response ← Services_apiClient.settled overview_reply;
     mret (res_data response))
    (response ← Services_apiClient.settled insights_reply;
     mret (res_data response))
    (λ outcome,
     try_finally
       (try_catch
          ('(overviewData, insightsData) ← await outcome;
           setState (setOverview (Some overviewData)) ;;
           setState (setInsights
                       (default [] (insights_member insightsData))))
          (λ error, console_error "Error fetching dashboard data:"))
       (setState (setLoading false))).

End Pages_Dashboard.

(** ** Observations on a run *)

(** What a run appended to a log. *)
Definition new_since {A} (before after : list A) : list A :=
  drop (length before) after.

Definition is_console_error (e : ConsoleEntry) : bool :=
  match e with ConsoleError _ => true | ConsoleLog _ => false end.

Definition is_alert (d : Dialog) : bool :=
  match d with Alert _ => true | Confirm _ _ => false end.

Definition sent_of {S} (ev : NetEvent S) : option AxiosRequestConfig :=
  match ev with Sent cfg _ => Some cfg | Settled _ => None end.

(** The requests of a stretch of the wire, in order. *)
Definition requests {S} (evs : list (NetEvent S)) : list AxiosRequestConfig :=
  omap sent_of evs.

(** The exchange ends in a rejected promise. *)
Definition fails {D} (reply : HttpReply D) : bool :=
  match reply with
  | Response r => negb (validateStatus (res_status r))
  | NoResponse _ => true
  end.

Definition caught {A} (c : Completion A) : bool :=
  match c with Return _ => true | Throw _ => false end.

(** A console.error was written between [w] and [w']. *)
Definition logged {S} (w w' : World S) : bool :=
  existsb is_console_error (new_since (console w) (console w')).

(** An alert was raised between [w] and [w']. *)
Definition alerted {S} (w w' : World S) : bool :=
  existsb is_alert (new_since (dialogs w) (dialogs w')).

Definition is_request {S} (ev : NetEvent S) : bool :=
  match ev with Sent _ _ => true | Settled _ => false end.

(** No request follows a failed settlement. *)
Fixpoint quiet_after_failure {S} (evs : list (NetEvent S)) : bool :=
  match evs with
  | [] => true
  | Settled false :: rest =>
      forallb (λ ev, negb (is_request ev)) rest && quiet_after_failure rest
  | _ :: rest => quiet_after_failure rest
  end.


(** The world [w] after a run that left the component in [st] and appended
    [logs], [boxes], [files] and [evs] to the console, the dialogs, the
    downloads and the wire. *)
Definition advance {S} (st : S) (logs : list ConsoleEntry)
    (boxes : list Dialog) (files : list string) (evs : list (NetEvent S))
    (w : World S) : World S :=
  mkWorld st (localStorage w) (href w) (console w ++ logs)
          (dialogs w ++ boxes) (downloads w ++ files) (network w ++ evs).

(** ** The claims, as predicates on runs *)

(** The request a client puts on the wire for [cfg] when the storage is
    [storage]. *)
Definition signed (storage : gmap string string) (cfg : AxiosRequestConfig)
  : AxiosRequestConfig :=
  match storage !! "token" with
  | Some t => if truthy t then set_Authorization ("Bearer " +:+ t) cfg else cfg
  | None => cfg
  end.

(** [c'] is [c] but for its [Authorization] header. *)
Definition same_but_Authorization (c c' : AxiosRequestConfig) : Prop :=
  cfg_method c' = cfg_method c ∧ cfg_url c' = cfg_url c
  ∧ cfg_params c' = cfg_params c ∧ cfg_data c' = cfg_data c
  ∧ cfg_blob c' = cfg_blob c
  ∧ ∀ h, h ≠ "Authorization" → cfg_headers c' !! h = cfg_headers c !! h.

(** The request interceptor [onRequest] attaches every stored token. *)
Definition attaches_token {S}
    (onRequest : AxiosRequestConfig → Js S AxiosRequestConfig)
    (cfg : AxiosRequestConfig) (w : World S) : Prop :=
  ∃ cfg', onRequest cfg w = (Return cfg', w) ∧
    match localStorage w !! "token" with
    | Some t =>
        cfg_headers cfg' !! "Authorization" = Some ("Bearer " +:+ t)
        ∧ same_but_Authorization cfg cfg'
    | None => cfg' = cfg
    end.

(** The request interceptor [onRequest] attaches every stored token that is
    not the empty string. *)
Definition attaches_truthy_token {S}
    (onRequest : AxiosRequestConfig → Js S AxiosRequestConfig)
    (cfg : AxiosRequestConfig) (w : World S) : Prop :=
  ∃ cfg', onRequest cfg w = (Return cfg', w) ∧
    match localStorage w !! "token" with
    | Some t =>
        if truthy t
        then cfg_headers cfg' !! "Authorization" = Some ("Bearer " +:+ t)
             ∧ same_but_Authorization cfg cfg'
        else cfg' = cfg
    | None => cfg' = cfg
    end.

(** A client whose exchange is [request] signs the user out on a 401 and
    only then. *)
Definition signs_out_on_401 {S D}
    (request : AxiosRequestConfig → HttpReply D → Js S (HttpResponse D))
    (cfg : AxiosRequestConfig) (r : HttpResponse D) (w : World S) : Prop :=
  let w' := snd (request cfg (Response r) w) in
  if decide (res_status r = 401)
  then localStorage w' = delete "token" (localStorage w) ∧ href w' = "/login"
  else localStorage w' = localStorage w ∧ href w' = href w.

(** A client whose exchange is [request] leaves the token and the location
    alone whatever it receives. *)
Definition ignores_status {S D}
    (request : AxiosRequestConfig → HttpReply D → Js S (HttpResponse D))
    (cfg : AxiosRequestConfig) (reply : HttpReply D) (w : World S) : Prop :=
  let w' := snd (request cfg reply w) in
  localStorage w' = localStorage w ∧ href w' = href w.

(** A world for the examples: a fresh page on [url] with the storage
    [storage] and the component in state [st]. *)
Definition page {S} (st : S) (storage : gmap string string) (url : string)
  : World S :=
  mkWorld st storage url [] [] [] [].

(** A component lives through a sequence of events, each handled to its
    end before the next. *)
Fixpoint play {S E} (step : E → Js S unit) (events : list E) : Js S unit :=
  match events with
  | [] => mret tt
  | e :: rest => step e ;; play step rest
  end.

(** The events of the GST form: typing into the field and submitting. *)
Inductive GST_event :=
| GST_change (upper : string)
| GST_submit (reply : HttpReply Types.GSTVerificationResponse).

Definition GST_step (ev : GST_event) : Js Components_GSTCompliance.State unit :=
  match ev with
  | GST_change upper => Components_GSTCompliance.handleChange upper
  | GST_submit reply => Components_GSTCompliance.handleVerify reply
  end.

(** At most one of the error message and the verification result is set. *)
Definition at_most_one (st : Components_GSTCompliance.State) : Prop :=
  Components_GSTCompliance.error st = ""
  ∨ Components_GSTCompliance.result st = None.

(** Neither the error message nor the verification result is set. *)
Definition cleared (st : Components_GSTCompliance.State) : Prop :=
  Components_GSTCompliance.error st = ""
  ∧ Components_GSTCompliance.result st = None.

(** The outcome of a verification, by the reply: the result is the body of
    a fulfilled response and the error empty, or the result [null] and the
    error a string that is not empty. *)
Definition verified_or_failed
    (reply : HttpReply Types.GSTVerificationResponse)
    (st : Components_GSTCompliance.State) : Prop :=
  match reply with
  | Response r =>
      if validateStatus (res_status r)
      then Components_GSTCompliance.result st = Some (res_data r)
           ∧ Components_GSTCompliance.error st = ""
      else Components_GSTCompliance.result st = None
           ∧ truthy (Components_GSTCompliance.error st) = true
  | NoResponse _ =>
      Components_GSTCompliance.result st = None
      ∧ truthy (Components_GSTCompliance.error st) = true
  end.

(** Every request of [evs] was issued in a state that satisfies [P]. *)
Definition issued_in {S} (P : S → Prop) (evs : list (NetEvent S)) : Prop :=
  ∀ cfg st, Sent cfg st ∈ evs → P st.



(** The exchange ends in a fulfilled promise. *)
Definition succeeds {D} (reply : HttpReply D) : bool := negb (fails reply).

(** What the response interceptor of [apiClient] does to the world on a
    rejection with the error [e]. *)
Definition after_rejection {S} (e : AxiosError) (w : World S) : World S :=
  if decide (error_status e = Some 401)
  then mkWorld (component w) (delete "token" (localStorage w)) "/login"
               (console w) (dialogs w) (downloads w) (network w)
  else w.

(** The claim on failures, on one run of a handler: the error does not
    leave the handler, a console.error is written, and the user sees the
    panel [panel] or an alert. *)
Definition caught_logged_surfaced {S} (panel : S → bool) (run : Js S unit)
    (w : World S) : bool :=
  caught (fst (run w)) && logged w (snd (run w))
  && (panel (component (snd (run w))) || alerted w (snd (run w))).

(** A page without an error panel. *)
Definition no_panel {S} (st : S) : bool := false.

(** A stretch of the wire that is one exchange, or nothing. *)
Definition one_exchange {S} (evs : list (NetEvent S)) : Prop :=
  evs = [] ∨ ∃ cfg st ok, evs = [Sent cfg st; Settled ok].

(** The life of [DashboardAnalytics]: the fetch on mount, then one fetch for
    each press of Retry, a button that is there while the error panel is. *)
Fixpoint Analytics_retries
    (replies : list (HttpReply Components_DashboardAnalytics.DashboardStats))
  : Js Components_DashboardAnalytics.State unit :=
  match replies with
  | [] => mret tt
  | reply :: rest =>
      st ← render;
      if Components_DashboardAnalytics.shows_error_panel st
      then Components_DashboardAnalytics.fetchDashboardData reply ;;
           Analytics_retries rest
      else mret tt
  end.

Definition Analytics_life
    (first : HttpReply Components_DashboardAnalytics.DashboardStats)
    (replies : list (HttpReply Components_DashboardAnalytics.DashboardStats))
  : Js Components_DashboardAnalytics.State unit :=
  Components_DashboardAnalytics.fetchDashboardData first ;;
  Analytics_retries replies.

(** The wire of one run of a handler: what it appended, whether it is
    quiet after a failure, and how many requests it holds. *)
Definition wire_of {S} (run : Js S unit) (w : World S) : list (NetEvent S) :=
  new_since (network w) (network (snd (run w))).

Definition quiet {S} (run : Js S unit) (w : World S) : bool :=
  quiet_after_failure (wire_of run w).

Definition sends {S} (run : Js S unit) (w : World S) : nat :=
  length (requests (wire_of run w)).

(** ** Further observations *)

(** The page is loaded anew, as after [window.location.href = ...] or a
    reload: the storage and the address stay, the component starts over. *)
Definition reload {S T} (init : T) (w : World S) : World T :=
  page init (localStorage w) (href w).

(** The events of the chat: typing into the field and submitting. *)
Inductive Chat_event :=
| Chat_change (value : string)
| Chat_submit (now later : string) (reply : HttpReply Types.ChatQueryResponse).

Definition Chat_step (ev : Chat_event) : Js Components_Dashboard.State unit :=
  match ev with
  | Chat_change value => Components_Dashboard.handleChange value
  | Chat_submit now later reply =>
      Components_Dashboard.handleSendMessage now later reply
  end.

(** A conversation of [n] turns: a message of the user, then one of the
    assistant, [n] times. *)
Fixpoint turns (n : nat) : list Types.Role :=
  match n with
  | O => []
  | S n' => Types.user :: Types.assistant :: turns n'
  end.

(** The submissions among [events]. *)
Fixpoint submissions (events : list Chat_event) : nat :=
  match events with
  | [] => O
  | Chat_submit _ _ _ :: rest => S (submissions rest)
  | Chat_change _ :: rest => submissions rest
  end.

(** The [Authorization] header of the requests of a stretch of the wire. *)
Definition authorizations {S} (evs : list (NetEvent S))
  : list (option string) :=
  (λ cfg, cfg_headers cfg !! "Authorization") <$> requests evs.

(** * Properties *)

(** ** Strings *)

Lemma truthy_trimEnd (s : string) : truthy (trimEnd s) = negb (blank s).
Proof.
  induction s as [|c rest IH]; [reflexivity|].
  cbn [trimEnd blank]. rewrite <- (negb_involutive (blank rest)), <- IH.
  destruct (is_whitespace c), (truthy (trimEnd rest)); reflexivity.
Qed.

Lemma blank_trimStart (s : string) : blank (trimStart s) = blank s.
Proof.
  induction s as [|c rest IH]; [reflexivity|].
  cbn [trimStart blank]. destruct (is_whitespace c) eqn:Hc; cbn.
  - exact IH.
  - now rewrite Hc.
Qed.

Example trim_both_ends : trim "  29abc 1z5 " = "29abc 1z5".
Proof. reflexivity. Qed.

Example trim_tabs_and_newlines :
  trim (String (ascii_of_nat 9) (String (ascii_of_nat 10) " ")) = "".
Proof. reflexivity. Qed.

Example or_else_skips_the_empty_string :
  or_else (Some "") "Failed to load invoices" = "Failed to load invoices"
  ∧ or_else (Some "Not found") "Failed to load invoices" = "Not found"
  ∧ or_else None "Failed to load invoices" = "Failed to load invoices".
Proof. now split_and!. Qed.

(** [!s.trim()] holds exactly of the strings made of white space. *)
Lemma truthy_trim (s : string) : truthy (trim s) = negb (blank s).
Proof. unfold trim. now rewrite truthy_trimEnd, blank_trimStart. Qed.

Lemma not_blank_length (s : string) :
  blank s = false → (0 < String.length s)%nat.
Proof. destruct s; cbn; [discriminate | lia]. Qed.

Lemma or_else_truthy (a : option string) (b : string) :
  truthy b = true → truthy (or_else a b) = true.
Proof.
  intros Hb. destruct a as [s|]; cbn; [|exact Hb].
  destruct (truthy s) eqn:Hs; [exact Hs | exact Hb].
Qed.

(** ** Running a handler *)

Ltac js_unfold :=
  unfold mbind, mret, Js_bind, Js_ret, try_finally, try_catch, promise_then,
    throw, render, setState, localStorage_getItem, localStorage_setItem,
    localStorage_removeItem, location_assign, console_log, console_error,
    alert, confirm, save_file, axios_request, axios_dispatch, axios_settle,
    send, wire, modify in *.

Ltac js_run := js_unfold; cbn.

Ltac js_step :=
  js_unfold;
  cbn [component localStorage href console dialogs downloads network
       fst snd negb].

(** ** The two clients *)

Lemma set_Authorization_lookup (v : string) (cfg : AxiosRequestConfig) :
  cfg_headers (set_Authorization v cfg) !! "Authorization" = Some v.
Proof. cbn. apply lookup_insert_eq. Qed.

Lemma set_Authorization_same (v : string) (cfg : AxiosRequestConfig) :
  same_but_Authorization cfg (set_Authorization v cfg).
Proof.
  repeat split. intros h Hh. cbn. now apply lookup_insert_ne.
Qed.

Lemma apiClient_onRequest_run {S} (cfg : AxiosRequestConfig) (w : World S) :
  Services_apiClient.onRequest cfg w = (Return (signed (localStorage w) cfg), w).
Proof.
  unfold Services_apiClient.onRequest, signed. js_run.
  destruct (localStorage w !! "token") as [t|]; [|reflexivity].
  destruct (truthy t); reflexivity.
Qed.

Lemma api_onRequest_run {S} (cfg : AxiosRequestConfig) (w : World S) :
  Services_api.onRequest cfg w = (Return (signed (localStorage w) cfg), w).
Proof.
  unfold Services_api.onRequest, signed. js_run.
  destruct (localStorage w !! "token") as [t|]; [|reflexivity].
  destruct (truthy t); reflexivity.
Qed.

Lemma signed_attaches {S}
    (onRequest : AxiosRequestConfig → Js S AxiosRequestConfig)
    (cfg : AxiosRequestConfig) (w : World S) :
  onRequest cfg w = (Return (signed (localStorage w) cfg), w) →
  attaches_truthy_token onRequest cfg w.
Proof.
  intros Hrun. exists (signed (localStorage w) cfg). split; [exact Hrun|].
  unfold signed. destruct (localStorage w !! "token") as [t|]; [|reflexivity].
  destruct (truthy t); [|reflexivity].
  split; [apply set_Authorization_lookup | apply set_Authorization_same].
Qed.

Lemma apiClient_dispatch_run {S} (cfg : AxiosRequestConfig) (w : World S) :
  Services_apiClient.dispatch cfg w =
  (Return tt,
   mkWorld (component w) (localStorage w) (href w) (console w) (dialogs w)
           (downloads w)
           (network w ++ [Sent (signed (localStorage w) cfg) (component w)])).
Proof.
  unfold Services_apiClient.dispatch, axios_dispatch.
  unfold mbind at 1, Js_bind. rewrite apiClient_onRequest_run.
  reflexivity.
Qed.

Lemma api_dispatch_run {S} (cfg : AxiosRequestConfig) (w : World S) :
  Services_api.dispatch cfg w =
  (Return tt,
   mkWorld (component w) (localStorage w) (href w) (console w) (dialogs w)
           (downloads w)
           (network w ++ [Sent (signed (localStorage w) cfg) (component w)])).
Proof.
  unfold Services_api.dispatch, axios_dispatch.
  unfold mbind at 1, Js_bind. rewrite api_onRequest_run.
  reflexivity.
Qed.

(** C2 (as amended). Every request sent through either client carries the
    header [Authorization: Bearer t] when local storage holds a token [t]
    that is not the empty string, and is otherwise the request the caller
    built; with no token stored, or with the empty string stored, the
    request goes out unchanged. *)
Theorem request_interceptor_attaches_truthy_token {S}
    (cfg : AxiosRequestConfig) (w : World S) :
  attaches_truthy_token Services_apiClient.onRequest cfg w
  ∧ attaches_truthy_token Services_api.onRequest cfg w
  ∧ new_since (network w) (network (snd (Services_apiClient.dispatch cfg w)))
    = [Sent (signed (localStorage w) cfg) (component w)]
  ∧ new_since (network w) (network (snd (Services_api.dispatch cfg w)))
    = [Sent (signed (localStorage w) cfg) (component w)].
Proof.
  split; [apply signed_attaches, apiClient_onRequest_run|].
  split; [apply signed_attaches, api_onRequest_run|].
  rewrite apiClient_dispatch_run, api_dispatch_run. cbn [snd network].
  unfold new_since. now rewrite drop_app_length.
Qed.

(** C2 (as stated) fails: with the empty string stored under [token], the
    entry exists and neither client sets the header. *)
Lemma empty_token_is_not_attached :
  let w := page tt {["token" := ""]} "http://localhost:3000/" in
  let cfg := request_config GET "/invoices/list" [] in
  localStorage w !! "token" = Some ""
  ∧ Services_apiClient.onRequest cfg w = (Return cfg, w)
  ∧ Services_api.onRequest cfg w = (Return cfg, w)
  ∧ cfg_headers cfg !! "Authorization" = None
  ∧ ¬ attaches_token Services_apiClient.onRequest cfg w
  ∧ ¬ attaches_token Services_api.onRequest cfg w.
Proof.
  cbv zeta.
  assert (Hhdr : cfg_headers (request_config GET "/invoices/list" [])
                 !! "Authorization" = None) by (vm_compute; reflexivity).
  assert (Htok : localStorage (page tt {["token" := ""]} "http://localhost:3000/")
                 !! "token" = Some "") by (vm_compute; reflexivity).
  split_and!.
  - exact Htok.
  - rewrite apiClient_onRequest_run. unfold signed. now rewrite Htok.
  - rewrite api_onRequest_run. unfold signed. now rewrite Htok.
  - exact Hhdr.
  - intros [cfg' [Hrun Hclaim]]. rewrite Htok in Hclaim.
    rewrite apiClient_onRequest_run in Hrun. unfold signed in Hrun.
    rewrite Htok in Hrun. cbn in Hrun. injection Hrun as <-.
    destruct Hclaim as [Hclaim _]. rewrite Hhdr in Hclaim. discriminate.
  - intros [cfg' [Hrun Hclaim]]. rewrite Htok in Hclaim.
    rewrite api_onRequest_run in Hrun. unfold signed in Hrun.
    rewrite Htok in Hrun. cbn in Hrun. injection Hrun as <-.
    destruct Hclaim as [Hclaim _]. rewrite Hhdr in Hclaim. discriminate.
Qed.

Lemma validateStatus_401 : validateStatus 401 = false.
Proof. reflexivity. Qed.

(** What the response interceptor of [apiClient] leaves of the storage
    and the location, by the reply. *)
Lemma apiClient_settled_storage {S D} (reply : HttpReply D) (w : World S) :
  let w' := snd (Services_apiClient.settled reply w) in
  match reply with
  | Response r =>
      if decide (res_status r = 401)
      then localStorage w' = delete "token" (localStorage w)
           ∧ href w' = "/login"
      else localStorage w' = localStorage w ∧ href w' = href w
  | NoResponse _ => localStorage w' = localStorage w ∧ href w' = href w
  end.
Proof.
  unfold Services_apiClient.settled, Services_apiClient.onRejected,
    Services_apiClient.onFulfilled, error_status.
  js_unfold. unfold settle. js_unfold.
  destruct reply as [r|message]; cbn.
  - destruct (decide (res_status r = 401)) as [H401|Hother].
    + rewrite H401. cbn. case_decide; [cbn; now split | congruence].
    + destruct (validateStatus (res_status r)); cbn; [now split|].
      case_decide as Hd; cbn; [|now split].
      exfalso. apply Hother. congruence.
  - case_decide; [discriminate | cbn; now split].
Qed.

(** The client [api] has no response interceptor. *)
Lemma api_settled_storage {S D} (reply : HttpReply D) (w : World S) :
  let w' := snd (Services_api.settled reply w) in
  localStorage w' = localStorage w ∧ href w' = href w.
Proof.
  unfold Services_api.settled. js_unfold. unfold settle. js_unfold.
  destruct reply as [r|message]; [|cbn; now split].
  destruct (validateStatus (res_status r)); cbn; now split.
Qed.

Lemma apiClient_request_split {S D} (cfg : AxiosRequestConfig)
    (reply : HttpReply D) (w : World S) :
  Services_apiClient.request cfg reply w =
  Services_apiClient.settled reply (snd (Services_apiClient.dispatch cfg w)).
Proof.
  unfold Services_apiClient.request, axios_request.
  unfold mbind at 1, Js_bind.
  change (axios_dispatch Services_apiClient.onRequest cfg w)
    with (Services_apiClient.dispatch cfg w).
  now rewrite apiClient_dispatch_run.
Qed.

Lemma api_request_split {S D} (cfg : AxiosRequestConfig)
    (reply : HttpReply D) (w : World S) :
  Services_api.request cfg reply w =
  Services_api.settled reply (snd (Services_api.dispatch cfg w)).
Proof.
  unfold Services_api.request, axios_request.
  unfold mbind at 1, Js_bind.
  change (axios_dispatch Services_api.onRequest cfg w)
    with (Services_api.dispatch cfg w).
  now rewrite api_dispatch_run.
Qed.

(** C1 (as amended). Through [apiClient], the client of the router front
    end, a response with status 401 removes [token] from local storage and
    sets the location to [/login]; a response with any other status, or no
    response at all, leaves both as they were. The client [api] of the
    component front end has no response interceptor: whatever it receives,
    the stored token and the location stay as they were. *)
Theorem apiClient_signs_out_on_401_api_never {S D}
    (cfg : AxiosRequestConfig) (r : HttpResponse D) (message : string)
    (reply : HttpReply D) (w : World S) :
  signs_out_on_401 Services_apiClient.request cfg r w
  ∧ ignores_status Services_apiClient.request cfg (@NoResponse D message) w
  ∧ ignores_status Services_api.request cfg reply w.
Proof.
  unfold signs_out_on_401, ignores_status.
  rewrite !apiClient_request_split, api_request_split.
  rewrite ?apiClient_dispatch_run, ?api_dispatch_run. cbn [snd].
  split; [|split].
  - exact (apiClient_settled_storage (Response r) _).
  - exact (apiClient_settled_storage (@NoResponse D message) _).
  - exact (api_settled_storage reply _).
Qed.

(** C1 (as stated) fails on [api]: a 401 received through it leaves the
    token in local storage and the location where it was. *)
Lemma api_keeps_token_on_401 :
  let w := page tt {["token" := "abc"]} "http://localhost:3000/" in
  let cfg := request_config GET "/invoices/list" [] in
  let r := mkResponse 401 tt (Some "Could not validate credentials") in
  let w' := snd (Services_api.request cfg (Response r) w) in
  localStorage w' !! "token" = Some "abc"
  ∧ href w' = "http://localhost:3000/"
  ∧ ¬ signs_out_on_401 Services_api.request cfg r w.
Proof.
  cbv zeta.
  pose proof (api_settled_storage
                (Response (mkResponse 401 tt
                             (Some "Could not validate credentials")))
                (snd (Services_api.dispatch
                        (request_config GET "/invoices/list" [])
                        (page tt {["token" := "abc"]}
                              "http://localhost:3000/")))) as Hkeep.
  cbv zeta in Hkeep. rewrite <- api_request_split in Hkeep.
  rewrite api_dispatch_run in Hkeep. cbn [snd localStorage href page] in Hkeep.
  destruct Hkeep as [Hstore Hhref].
  split_and!.
  - rewrite Hstore. vm_compute. reflexivity.
  - exact Hhref.
  - unfold signs_out_on_401. cbn [res_status]. case_decide; [|done].
    intros [_ Hlogin]. rewrite Hhref in Hlogin. discriminate.
Qed.

(** ** Exchanges through [api] *)

Lemma advance_nothing {S} (w : World S) :
  advance (component w) [] [] [] [] w = w.
Proof.
  destruct w. unfold advance. cbn. now rewrite !app_nil_r.
Qed.

(** A fulfilled exchange through [api]. *)
Lemma api_request_fulfilled {S D} (cfg : AxiosRequestConfig)
    (r : HttpResponse D) (w : World S) :
  validateStatus (res_status r) = true →
  Services_api.request cfg (Response r) w =
  (Return r,
   advance (component w) [] [] []
           [Sent (signed (localStorage w) cfg) (component w); Settled true] w).
Proof.
  intros Hok. rewrite api_request_split, api_dispatch_run. cbn [snd].
  unfold Services_api.settled. js_unfold. unfold settle. rewrite Hok.
  js_unfold. unfold advance. cbn. now rewrite !app_nil_r, <- app_assoc.
Qed.

(** A rejected exchange through [api]. *)
Lemma api_request_rejected {S D} (cfg : AxiosRequestConfig)
    (reply : HttpReply D) (w : World S) :
  fails reply = true →
  Services_api.request cfg reply w =
  (Throw (rejection reply),
   advance (component w) [] [] []
           [Sent (signed (localStorage w) cfg) (component w); Settled false] w).
Proof.
  intros Hfail. rewrite api_request_split, api_dispatch_run. cbn [snd].
  unfold Services_api.settled. js_unfold. unfold settle.
  destruct reply as [r|message]; cbn in Hfail.
  - apply negb_true_iff in Hfail. rewrite Hfail.
    js_unfold. unfold advance. cbn. now rewrite !app_nil_r, <- app_assoc.
  - js_unfold. unfold advance. cbn. now rewrite !app_nil_r, <- app_assoc.
Qed.

Lemma fails_cases {D} (reply : HttpReply D) :
  fails reply = true
  ∨ ∃ r, reply = Response r ∧ validateStatus (res_status r) = true
         ∧ fails reply = false.
Proof.
  destruct reply as [r|message]; cbn; [|now left].
  destruct (validateStatus (res_status r)) eqn:Hok; cbn; [|now left].
  right. now exists r.
Qed.

(** ** [GSTCompliance.handleVerify] *)

Lemma handleVerify_blank (reply : HttpReply Types.GSTVerificationResponse)
    (w : World Components_GSTCompliance.State) :
  blank (Components_GSTCompliance.gstin (component w)) = true →
  Components_GSTCompliance.handleVerify reply w = (Return tt, w).
Proof.
  intros Hblank. unfold Components_GSTCompliance.handleVerify.
  unfold mbind at 1, Js_bind, render. now rewrite truthy_trim, Hblank.
Qed.

(** An accepted submission that the back end answers: the request leaves
    in the state with the spinner on and both fields cleared. *)
Lemma handleVerify_fulfilled (r : HttpResponse Types.GSTVerificationResponse)
    (w : World Components_GSTCompliance.State) :
  blank (Components_GSTCompliance.gstin (component w)) = false →
  validateStatus (res_status r) = true →
  let g := Components_GSTCompliance.gstin (component w) in
  Components_GSTCompliance.handleVerify (Response r) w =
  (Return tt,
   advance (Components_GSTCompliance.mkState g false (Some (res_data r)) "")
     [] [] []
     [Sent (signed (localStorage w)
                   (request_config GET ("/gst/verify?gstin=" +:+ g) []))
           (Components_GSTCompliance.mkState g true None "");
      Settled true] w).
Proof.
  intros Hblank Hok g. unfold Components_GSTCompliance.handleVerify.
  unfold mbind at 1, Js_bind, render. rewrite truthy_trim, Hblank.
  cbn [negb]. unfold Services_api.gstAPI_verify. js_step.
  rewrite api_request_fulfilled by exact Hok.
  unfold advance. cbn. now rewrite !app_nil_r.
Qed.

Lemma handleVerify_rejected (reply : HttpReply Types.GSTVerificationResponse)
    (w : World Components_GSTCompliance.State) :
  blank (Components_GSTCompliance.gstin (component w)) = false →
  fails reply = true →
  let g := Components_GSTCompliance.gstin (component w) in
  Components_GSTCompliance.handleVerify reply w =
  (Return tt,
   advance (Components_GSTCompliance.mkState g false None
              (or_else (error_detail (rejection reply))
                       "Failed to verify GST number"))
     [] [] []
     [Sent (signed (localStorage w)
                   (request_config GET ("/gst/verify?gstin=" +:+ g) []))
           (Components_GSTCompliance.mkState g true None "");
      Settled false] w).
Proof.
  intros Hblank Hfail g. unfold Components_GSTCompliance.handleVerify.
  unfold mbind at 1, Js_bind, render. rewrite truthy_trim, Hblank.
  cbn [negb]. unfold Services_api.gstAPI_verify. js_step.
  rewrite api_request_rejected by exact Hfail.
  unfold advance. cbn. now rewrite !app_nil_r.
Qed.

Lemma new_since_app {A} (l more : list A) : new_since l (l ++ more) = more.
Proof. unfold new_since. apply drop_app_length. Qed.

Lemma new_since_same {A} (l : list A) : new_since l l = [].
Proof. unfold new_since. apply drop_all. Qed.

Lemma signed_method (storage : gmap string string) (cfg : AxiosRequestConfig) :
  cfg_method (signed storage cfg) = cfg_method cfg.
Proof.
  unfold signed. destruct (storage !! "token") as [t|]; [|reflexivity].
  now destruct (truthy t).
Qed.

Lemma signed_url (storage : gmap string string) (cfg : AxiosRequestConfig) :
  cfg_url (signed storage cfg) = cfg_url cfg.
Proof.
  unfold signed. destruct (storage !! "token") as [t|]; [|reflexivity].
  now destruct (truthy t).
Qed.

Lemma signed_params (storage : gmap string string) (cfg : AxiosRequestConfig) :
  cfg_params (signed storage cfg) = cfg_params cfg.
Proof.
  unfold signed. destruct (storage !! "token") as [t|]; [|reflexivity].
  now destruct (truthy t).
Qed.

(** C6 (as amended). The GST form sends the verification request only when
    its field holds something other than white space. The request is then
    a [GET] whose URL is the text [/gst/verify?gstin=] followed by the
    field as it stands: [gstAPI.verify] splices the field into the URL
    with a template literal, without [encodeURIComponent] and without the
    [params] of axios, so the theorem speaks of the URL handed to axios and
    not of the parameter a server decodes from it. The field has at least
    one character that is not white space; its length is not checked. *)
Theorem handleVerify_sends_nonblank_gstin
    (reply : HttpReply Types.GSTVerificationResponse)
    (w : World Components_GSTCompliance.State) :
  let g := Components_GSTCompliance.gstin (component w) in
  let w' := snd (Components_GSTCompliance.handleVerify reply w) in
  let sent := requests (new_since (network w) (network w')) in
  (if blank g then sent = []
   else sent = [signed (localStorage w)
                  (request_config GET ("/gst/verify?gstin=" +:+ g) [])])
  ∧ ∀ cfg, cfg ∈ sent →
      cfg_method cfg = GET
      ∧ cfg_url cfg = "/gst/verify?gstin=" +:+ g
      ∧ cfg_params cfg = []
      ∧ blank g = false ∧ (0 < String.length g)%nat.
Proof.
  intros g w' sent. subst sent w'.
  destruct (blank g) eqn:Hblank.
  - rewrite handleVerify_blank by exact Hblank. cbn [snd].
    rewrite new_since_same. split; [reflexivity|]. intros cfg Hin.
    cbn in Hin. now apply elem_of_nil in Hin.
  - assert (Hsent : requests (new_since (network w) (network
              (snd (Components_GSTCompliance.handleVerify reply w))))
            = [signed (localStorage w)
                 (request_config GET ("/gst/verify?gstin=" +:+ g) [])]).
    { destruct (fails_cases reply) as [Hfail|[r [-> [Hok _]]]].
      - rewrite handleVerify_rejected by assumption. cbn [snd advance network].
        now rewrite new_since_app.
      - rewrite handleVerify_fulfilled by assumption. cbn [snd advance network].
        now rewrite new_since_app. }
    rewrite Hsent. split; [reflexivity|]. intros cfg Hin.
    apply list_elem_of_singleton in Hin as ->.
    rewrite signed_method, signed_url, signed_params.
    split_and!; try reflexivity. now apply not_blank_length.
Qed.

(** C6 (as stated) fails: the form accepts a field of the three characters
    [29A] and requests [/gst/verify?gstin=29A]. *)
Lemma handleVerify_sends_short_gstin :
  let st := Components_GSTCompliance.mkState "29A" false None "" in
  let w := page st ∅ "http://localhost:3000/" in
  let r := mkResponse 200
             (Types.mkGST "29A" "" None "Invalid" "" None false) None in
  let w' := snd (Components_GSTCompliance.handleVerify (Response r) w) in
  requests (new_since (network w) (network w'))
  = [request_config GET "/gst/verify?gstin=29A" []]
  ∧ String.length (Components_GSTCompliance.gstin (component w)) = 3%nat
  ∧ Components_GSTCompliance.result (component w')
    = Some (Types.mkGST "29A" "" None "Invalid" "" None false).
Proof. cbv zeta. split_and!; vm_compute; reflexivity. Qed.

Lemma handleVerify_returns (reply : HttpReply Types.GSTVerificationResponse)
    (w : World Components_GSTCompliance.State) :
  fst (Components_GSTCompliance.handleVerify reply w) = Return tt.
Proof.
  destruct (blank (Components_GSTCompliance.gstin (component w))) eqn:Hblank.
  - now rewrite handleVerify_blank.
  - destruct (fails_cases reply) as [Hfail|[r [-> [Hok _]]]].
    + now rewrite handleVerify_rejected.
    + now rewrite handleVerify_fulfilled.
Qed.

(** An accepted submission ends verified or failed, whatever the state it
    started in. *)
Lemma handleVerify_outcome (reply : HttpReply Types.GSTVerificationResponse)
    (w : World Components_GSTCompliance.State) :
  blank (Components_GSTCompliance.gstin (component w)) = false →
  verified_or_failed reply
    (component (snd (Components_GSTCompliance.handleVerify reply w))).
Proof.
  intros Hblank. unfold verified_or_failed.
  destruct reply as [r|message].
  - destruct (validateStatus (res_status r)) eqn:Hok.
    + rewrite handleVerify_fulfilled by assumption. now split.
    + rewrite handleVerify_rejected by (cbn; now rewrite ?Hok).
      cbn. split; [reflexivity|]. now apply or_else_truthy.
  - rewrite handleVerify_rejected by easy.
    cbn. now split.
Qed.

Lemma verified_or_failed_at_most_one
    (reply : HttpReply Types.GSTVerificationResponse)
    (st : Components_GSTCompliance.State) :
  verified_or_failed reply st → at_most_one st.
Proof.
  unfold verified_or_failed, at_most_one.
  destruct reply as [r|message]; [destruct (validateStatus (res_status r))|];
    intros [Hresult Herror]; auto.
Qed.

(** The request of an accepted submission leaves after both were cleared. *)
Lemma handleVerify_issued_cleared
    (reply : HttpReply Types.GSTVerificationResponse)
    (w : World Components_GSTCompliance.State) :
  issued_in cleared
    (new_since (network w)
       (network (snd (Components_GSTCompliance.handleVerify reply w)))).
Proof.
  intros cfg st Hin.
  destruct (blank (Components_GSTCompliance.gstin (component w))) eqn:Hblank.
  - rewrite handleVerify_blank in Hin by exact Hblank. cbn [snd] in Hin.
    rewrite new_since_same in Hin. now apply elem_of_nil in Hin.
  - destruct (fails_cases reply) as [Hfail|[r [-> [Hok _]]]].
    + rewrite handleVerify_rejected in Hin by assumption.
      cbn [snd advance network] in Hin. rewrite new_since_app in Hin.
      apply elem_of_cons in Hin as [Heq|Hin].
      * injection Heq as _ ->. now split.
      * apply list_elem_of_singleton in Hin. discriminate.
    + rewrite handleVerify_fulfilled in Hin by assumption.
      cbn [snd advance network] in Hin. rewrite new_since_app in Hin.
      apply elem_of_cons in Hin as [Heq|Hin].
      * injection Heq as _ ->. now split.
      * apply list_elem_of_singleton in Hin. discriminate.
Qed.

Lemma handleVerify_preserves
    (reply : HttpReply Types.GSTVerificationResponse)
    (w : World Components_GSTCompliance.State) :
  at_most_one (component w) →
  at_most_one (component (snd (Components_GSTCompliance.handleVerify reply w))).
Proof.
  intros Hinv.
  destruct (blank (Components_GSTCompliance.gstin (component w))) eqn:Hblank.
  - now rewrite handleVerify_blank.
  - eapply verified_or_failed_at_most_one, handleVerify_outcome, Hblank.
Qed.

Lemma GST_step_preserves (ev : GST_event)
    (w : World Components_GSTCompliance.State) :
  at_most_one (component w) →
  fst (GST_step ev w) = Return tt
  ∧ at_most_one (component (snd (GST_step ev w))).
Proof.
  intros Hinv. destruct ev as [upper|reply]; cbn [GST_step].
  - split; [reflexivity|]. exact Hinv.
  - split; [apply handleVerify_returns | now apply handleVerify_preserves].
Qed.

(** The invariant of the GST form, over every life of the component. *)
Lemma GST_play_invariant (events : list GST_event)
    (w : World Components_GSTCompliance.State) :
  at_most_one (component w) →
  at_most_one (component (snd (play GST_step events w))).
Proof.
  revert w. induction events as [|ev rest IH]; intros w Hinv; [exact Hinv|].
  cbn [play]. unfold mbind, Js_bind.
  destruct (GST_step_preserves ev w Hinv) as [Hret Hnext].
  destruct (GST_step ev w) as [c w1]. cbn [fst snd] in Hret, Hnext.
  subst c. now apply IH.
Qed.

(** C10. A run of the GST verification handler that the guard lets through
    ends, on success, with the result equal to the body of the response and
    the error empty and, on failure, with the result [null] and the error
    not empty; its request leaves only after both were cleared; a run the
    guard stops changes nothing. So at most one of the two is set after
    every run, and in every state the form ever reaches. *)
Theorem handleVerify_result_or_error
    (reply : HttpReply Types.GSTVerificationResponse)
    (w : World Components_GSTCompliance.State)
    (events : list GST_event) (storage : gmap string string) (url : string) :
  let w' := snd (Components_GSTCompliance.handleVerify reply w) in
  fst (Components_GSTCompliance.handleVerify reply w) = Return tt
  ∧ (if blank (Components_GSTCompliance.gstin (component w))
     then w' = w
     else verified_or_failed reply (component w')
          ∧ at_most_one (component w'))
  ∧ issued_in cleared (new_since (network w) (network w'))
  ∧ (at_most_one (component w) → at_most_one (component w'))
  ∧ at_most_one
      (component
         (snd (play GST_step events
                 (page Components_GSTCompliance.initial storage url)))).
Proof.
  intros w'. subst w'. split; [apply handleVerify_returns|]. split.
  - destruct (blank (Components_GSTCompliance.gstin (component w)))
      eqn:Hblank.
    + now rewrite handleVerify_blank.
    + pose proof (handleVerify_outcome reply w Hblank) as Hout.
      split; [exact Hout|]. eapply verified_or_failed_at_most_one, Hout.
  - split; [apply handleVerify_issued_cleared|].
    split; [apply handleVerify_preserves|].
    apply GST_play_invariant. now left.
Qed.

(** ** [Dashboard.handleSendMessage] *)

Lemma handleSendMessage_stopped (now later : string)
    (reply : HttpReply Types.ChatQueryResponse)
    (w : World Components_Dashboard.State) :
  blank (Components_Dashboard.inputMessage (component w)) = true
  ∨ Components_Dashboard.loading (component w) = true →
  Components_Dashboard.handleSendMessage now later reply w = (Return tt, w).
Proof.
  intros Hguard. unfold Components_Dashboard.handleSendMessage.
  unfold mbind at 1, Js_bind, render. rewrite truthy_trim.
  destruct Hguard as [-> | ->]; [reflexivity|].
  now rewrite orb_true_r.
Qed.

Lemma handleSendMessage_fulfilled (now later : string)
    (r : HttpResponse Types.ChatQueryResponse)
    (w : World Components_Dashboard.State) :
  blank (Components_Dashboard.inputMessage (component w)) = false →
  Components_Dashboard.loading (component w) = false →
  validateStatus (res_status r) = true →
  let text := Components_Dashboard.inputMessage (component w) in
  let shown :=
    Components_Dashboard.messages (component w)
    ++ [Types.mkMessage Types.user text now] in
  Components_Dashboard.handleSendMessage now later (Response r) w =
  (Return tt,
   advance
     (Components_Dashboard.mkState
        (shown ++ [Types.mkMessage Types.assistant
                     (Components_Dashboard.reply_content (res_data r)) later])
        "" false)
     [ConsoleLog "Chat API Response:"; ConsoleLog "Response content:";
      ConsoleLog "Assistant message:"] [] []
     [Sent (signed (localStorage w)
                   (request_config POST "/chat/query" [("query", text)]))
           (Components_Dashboard.mkState shown "" true);
      Settled true] w).
Proof.
  intros Hblank Hidle Hok text shown.
  unfold Components_Dashboard.handleSendMessage.
  unfold mbind at 1, Js_bind, render. rewrite truthy_trim, Hblank, Hidle.
  cbn [negb orb]. unfold Services_api.chatAPI_sendQuery. js_step.
  rewrite api_request_fulfilled by exact Hok.
  unfold advance. cbn. now rewrite ?app_nil_r, <- ?app_assoc.
Qed.

Lemma handleSendMessage_rejected (now later : string)
    (reply : HttpReply Types.ChatQueryResponse)
    (w : World Components_Dashboard.State) :
  blank (Components_Dashboard.inputMessage (component w)) = false →
  Components_Dashboard.loading (component w) = false →
  fails reply = true →
  let text := Components_Dashboard.inputMessage (component w) in
  let shown :=
    Components_Dashboard.messages (component w)
    ++ [Types.mkMessage Types.user text now] in
  Components_Dashboard.handleSendMessage now later reply w =
  (Return tt,
   advance
     (Components_Dashboard.mkState
        (shown ++ [Types.mkMessage Types.assistant
                     (Components_Dashboard.error_content (rejection reply))
                     later])
        "" false)
     [ConsoleError "Chat error:"] [] []
     [Sent (signed (localStorage w)
                   (request_config POST "/chat/query" [("query", text)]))
           (Components_Dashboard.mkState shown "" true);
      Settled false] w).
Proof.
  intros Hblank Hidle Hfail text shown.
  unfold Components_Dashboard.handleSendMessage.
  unfold mbind at 1, Js_bind, render. rewrite truthy_trim, Hblank, Hidle.
  cbn [negb orb]. unfold Services_api.chatAPI_sendQuery. js_step.
  rewrite api_request_rejected by exact Hfail.
  unfold advance. cbn. now rewrite ?app_nil_r, <- ?app_assoc.
Qed.

(** C9. A submission of the chat form while the input is empty or made of
    white space, or while a query is loading, sends no request and leaves
    the messages, the input and the loading flag (and the rest of the
    world) as they were. *)
Theorem handleSendMessage_guard (now later : string)
    (reply : HttpReply Types.ChatQueryResponse)
    (w : World Components_Dashboard.State) :
  blank (Components_Dashboard.inputMessage (component w)) = true
  ∨ Components_Dashboard.loading (component w) = true →
  let w' := snd (Components_Dashboard.handleSendMessage now later reply w) in
  requests (new_since (network w) (network w')) = []
  ∧ Components_Dashboard.messages (component w')
    = Components_Dashboard.messages (component w)
  ∧ Components_Dashboard.inputMessage (component w')
    = Components_Dashboard.inputMessage (component w)
  ∧ Components_Dashboard.loading (component w')
    = Components_Dashboard.loading (component w)
  ∧ w' = w.
Proof.
  intros Hguard w'. subst w'.
  rewrite handleSendMessage_stopped by exact Hguard. cbn [snd].
  now rewrite new_since_same.
Qed.

(** The guard at work: a submission of three spaces, and a submission of a
    question while the previous one is loading. *)
Lemma handleSendMessage_guard_examples :
  let reply := Response (mkResponse 200
                           (Types.mkChatResponse (Some "Done") None) None) in
  let idle := page (Components_Dashboard.mkState [] "   " false) ∅
                   "http://localhost:3000/" in
  let busy := page (Components_Dashboard.mkState [] "Show my invoices" true)
                   ∅ "http://localhost:3000/" in
  snd (Components_Dashboard.handleSendMessage "t0" "t1" reply idle) = idle
  ∧ snd (Components_Dashboard.handleSendMessage "t0" "t1" reply busy) = busy.
Proof.
  cbv zeta. split.
  - apply (handleSendMessage_guard "t0" "t1"). left. reflexivity.
  - apply (handleSendMessage_guard "t0" "t1"). right. reflexivity.
Defined.

(** ** [Invoices]: [loadInvoices], [handleDownload], [handleDelete] *)

Lemma loadInvoices_fulfilled (r : HttpResponse Types.InvoiceList)
    (w : World Components_Invoices.State) :
  validateStatus (res_status r) = true →
  Components_Invoices.loadInvoices (Response r) w =
  (Return tt,
   advance
     (Components_Invoices.mkState
        (default [] (Types.invoices_member (res_data r))) false
        (Components_Invoices.error (component w)))
     [] [] []
     [Sent (signed (localStorage w) (request_config GET "/invoices/list" []))
           (Components_Invoices.setLoading true (component w));
      Settled true] w).
Proof.
  intros Hok. unfold Components_Invoices.loadInvoices,
    Services_api.invoiceAPI_list. js_step.
  rewrite api_request_fulfilled by exact Hok.
  unfold advance. cbn. now rewrite ?app_nil_r, <- ?app_assoc.
Qed.

Lemma loadInvoices_rejected (reply : HttpReply Types.InvoiceList)
    (w : World Components_Invoices.State) :
  fails reply = true →
  Components_Invoices.loadInvoices reply w =
  (Return tt,
   advance
     (Components_Invoices.mkState
        (Components_Invoices.invoices (component w)) false
        (or_else (error_detail (rejection reply)) "Failed to load invoices"))
     [ConsoleError "Error loading invoices:"] [] []
     [Sent (signed (localStorage w) (request_config GET "/invoices/list" []))
           (Components_Invoices.setLoading true (component w));
      Settled false] w).
Proof.
  intros Hfail. unfold Components_Invoices.loadInvoices,
    Services_api.invoiceAPI_list. js_step.
  rewrite api_request_rejected by exact Hfail.
  unfold advance. cbn. now rewrite ?app_nil_r, <- ?app_assoc.
Qed.

Lemma blob_reply_fails {D} (reply : HttpReply D) :
  fails (blob_reply reply) = fails reply.
Proof. now destruct reply. Qed.

(** The [detail] of a failed download is never there to be read. *)
Lemma blob_reply_detail {D} (reply : HttpReply D) :
  error_detail (rejection (blob_reply reply)) = None.
Proof. now destruct reply. Qed.

Lemma handleDownload_fulfilled (invoiceId invoiceNumber : string)
    (r : HttpResponse unit) (w : World Components_Invoices.State) :
  validateStatus (res_status r) = true →
  Components_Invoices.handleDownload invoiceId invoiceNumber (Response r) w =
  (Return tt,
   advance (component w) [] [] ["invoice_" +:+ invoiceId +:+ ".pdf"]
     [Sent (signed (localStorage w)
              (as_blob (request_config GET
                          ("/invoices/" +:+ invoiceId +:+ "/download") [])))
           (component w);
      Settled true] w).
Proof.
  intros Hok. unfold Components_Invoices.handleDownload,
    Services_api.invoiceAPI_downloadPDF. cbn [blob_reply]. js_step.
  rewrite api_request_fulfilled by exact Hok.
  unfold advance. cbn. now rewrite ?app_nil_r, <- ?app_assoc.
Qed.

(** A download that fails: the alert is always the fixed text. *)
Lemma handleDownload_rejected (invoiceId invoiceNumber : string)
    (reply : HttpReply unit) (w : World Components_Invoices.State) :
  fails reply = true →
  Components_Invoices.handleDownload invoiceId invoiceNumber reply w =
  (Return tt,
   advance (component w)
     [ConsoleError "Error downloading invoice:"]
     [Alert "Failed to download invoice"] []
     [Sent (signed (localStorage w)
              (as_blob (request_config GET
                          ("/invoices/" +:+ invoiceId +:+ "/download") [])))
           (component w);
      Settled false] w).
Proof.
  intros Hfail. unfold Components_Invoices.handleDownload,
    Services_api.invoiceAPI_downloadPDF. js_step.
  rewrite api_request_rejected by (now rewrite blob_reply_fails).
  rewrite blob_reply_detail.
  unfold advance. cbn. now rewrite ?app_nil_r, <- ?app_assoc.
Qed.

Lemma handleDelete_declined (id : string) (reply : HttpReply unit)
    (w : World Components_Invoices.State) :
  Components_Invoices.handleDelete id false reply w =
  (Return tt,
   advance (component w) []
     [Confirm "Are you sure you want to delete this invoice?" false] [] [] w).
Proof.
  unfold Components_Invoices.handleDelete. js_step.
  unfold advance. cbn. now rewrite ?app_nil_r.
Qed.

Lemma handleDelete_fulfilled (id : string) (r : HttpResponse unit)
    (w : World Components_Invoices.State) :
  validateStatus (res_status r) = true →
  Components_Invoices.handleDelete id true (Response r) w =
  (Return tt,
   advance
     (Components_Invoices.setInvoices
        (filter (λ inv, Types.id inv ≠ id)
                (Components_Invoices.invoices (component w)))
        (component w))
     []
     [Confirm "Are you sure you want to delete this invoice?" true] []
     [Sent (signed (localStorage w)
                   (request_config DELETE ("/invoices/" +:+ id) []))
           (component w);
      Settled true] w).
Proof.
  intros Hok. unfold Components_Invoices.handleDelete,
    Services_api.invoiceAPI_delete. js_step.
  rewrite api_request_fulfilled by exact Hok.
  unfold advance. cbn. now rewrite ?app_nil_r, <- ?app_assoc.
Qed.

Lemma handleDelete_rejected (id : string) (reply : HttpReply unit)
    (w : World Components_Invoices.State) :
  fails reply = true →
  Components_Invoices.handleDelete id true reply w =
  (Return tt,
   advance (component w)
     [ConsoleError "Error deleting invoice:"]
     [Confirm "Are you sure you want to delete this invoice?" true;
      Alert (or_else (error_detail (rejection reply))
                     "Failed to delete invoice")] []
     [Sent (signed (localStorage w)
                   (request_config DELETE ("/invoices/" +:+ id) []))
           (component w);
      Settled false] w).
Proof.
  intros Hfail. unfold Components_Invoices.handleDelete,
    Services_api.invoiceAPI_delete. js_step.
  rewrite api_request_rejected by exact Hfail.
  unfold advance. cbn. now rewrite ?app_nil_r, <- ?app_assoc.
Qed.

(** The list [handleDelete] leaves, by the answer and the reply. *)
Lemma handleDelete_invoices (id : string) (answer : bool)
    (reply : HttpReply unit) (w : World Components_Invoices.State) :
  Components_Invoices.invoices
    (component (snd (Components_Invoices.handleDelete id answer reply w)))
  = if answer && succeeds reply
    then filter (λ inv, Types.id inv ≠ id)
                (Components_Invoices.invoices (component w))
    else Components_Invoices.invoices (component w).
Proof.
  destruct answer; [|now rewrite handleDelete_declined].
  unfold succeeds.
  destruct (fails_cases reply) as [Hfail|[r [-> [Hok Hfail]]]]; rewrite Hfail.
  - now rewrite handleDelete_rejected.
  - now rewrite handleDelete_fulfilled.
Qed.


(** Filtering out a key that occurs once takes out one element. *)
Lemma filter_out_unique (id : string) (l : list Types.Invoice) :
  NoDup (Types.id <$> l) → id ∈ Types.id <$> l →
  ∃ l1 inv l2, l = l1 ++ inv :: l2 ∧ Types.id inv = id
               ∧ filter (λ inv, Types.id inv ≠ id) l = l1 ++ l2.
Proof.
  induction l as [|a l IH]; intros Hnodup Hin.
  - now apply elem_of_nil in Hin.
  - rewrite fmap_cons in Hnodup, Hin.
    apply NoDup_cons in Hnodup as [Hfresh Hnodup].
    destruct (decide (Types.id a = id)) as [Ha|Ha].
    + exists [], a, l. split; [reflexivity|]. split; [exact Ha|].
      rewrite filter_cons_False by (intros Hne; now apply Hne).
      cbn [app]. clear IH Hnodup Hin.
      induction l as [|b l IHl]; [reflexivity|].
      rewrite fmap_cons in Hfresh. apply not_elem_of_cons in Hfresh as [Hb Hl].
      rewrite filter_cons_True by congruence. now rewrite IHl.
    + apply elem_of_cons in Hin as [Hin|Hin]; [congruence|].
      destruct (IH Hnodup Hin) as (l1 & inv & l2 & -> & Hinv & Hfilter).
      exists (a :: l1), inv, l2. split; [reflexivity|]. split; [exact Hinv|].
      rewrite filter_cons_True by exact Ha. now rewrite Hfilter.
Qed.

(** A deletion that runs from the press to the reply with no other handler
    in between: the rendered list is then the list of the render the
    button was pressed in, without the invoices of the confirmed id when
    the user confirmed and the back end accepted, and that list itself when
    the user declined or the call failed. What is left keeps its order and
    its records; with ids that are unique, exactly the one invoice of that
    id is gone. *)
Lemma handleDelete_alone_removes_the_confirmed_invoice (id : string)
    (answer : bool) (reply : HttpReply unit)
    (w : World Components_Invoices.State) :
  let old := Components_Invoices.invoices (component w) in
  let new := Components_Invoices.invoices
               (component
                  (snd (Components_Invoices.handleDelete id answer reply w)))
  in
  new = (if answer && succeeds reply
         then filter (λ inv, Types.id inv ≠ id) old else old)
  ∧ new `sublist_of` old
  ∧ (∀ inv, inv ∈ new ↔
       inv ∈ old ∧ (answer && succeeds reply = true → Types.id inv ≠ id))
  ∧ (answer && succeeds reply = true →
     NoDup (Types.id <$> old) → id ∈ Types.id <$> old →
     ∃ l1 inv l2, old = l1 ++ inv :: l2 ∧ Types.id inv = id
                  ∧ new = l1 ++ l2).
Proof.
  intros old new. subst new. rewrite handleDelete_invoices. fold old.
  destruct (answer && succeeds reply).
  - split; [reflexivity|]. split; [apply sublist_filter|]. split.
    + intros inv. rewrite list_elem_of_filter. split.
      * intros [Hne Hin]. split; [exact Hin | intros _; exact Hne].
      * intros [Hin Hne]. split; [now apply Hne | exact Hin].
    + intros _. apply filter_out_unique.
  - split; [reflexivity|]. split; [reflexivity|]. split.
    + intros inv. split; [intros Hin; split; [exact Hin|discriminate]|].
      now intros [Hin _].
    + discriminate.
Qed.

(** The press, when the user confirms: the request leaves, and the call
    holds the list that is rendered now. *)
Lemma handleDelete_press_run (id : string) (answer : bool)
    (w : World Components_Invoices.State) :
  Components_Invoices.handleDelete_press id answer w =
  if answer
  then (Return (Some (Components_Invoices.mkDeleting id
                        (Components_Invoices.invoices (component w)))),
        advance (component w) []
          [Confirm "Are you sure you want to delete this invoice?" true] []
          [Sent (signed (localStorage w)
                        (request_config DELETE ("/invoices/" +:+ id) []))
                (component w)] w)
  else (Return None,
        advance (component w) []
          [Confirm "Are you sure you want to delete this invoice?" false] []
          [] w).
Proof.
  unfold Components_Invoices.handleDelete_press. destruct answer.
  - js_step. rewrite api_dispatch_run.
    unfold advance. cbn. now rewrite ?app_nil_r.
  - js_step. unfold advance. cbn. now rewrite ?app_nil_r.
Qed.

(** The reply is there and is a success: the list of the press, filtered,
    replaces whatever is rendered by now. *)
Lemma handleDelete_resume_fulfilled (d : Components_Invoices.Deleting)
    (r : HttpResponse unit) (w : World Components_Invoices.State) :
  validateStatus (res_status r) = true →
  Components_Invoices.handleDelete_resume d (Response r) w =
  (Return tt,
   advance
     (Components_Invoices.setInvoices
        (filter (λ inv, Types.id inv ≠ Components_Invoices.deleting_id d)
                (Components_Invoices.deleting_invoices d))
        (component w))
     [] [] [] [Settled true] w).
Proof.
  intros Hok. unfold Components_Invoices.handleDelete_resume,
    Services_api.settled. js_unfold. unfold settle. rewrite Hok.
  js_unfold. unfold advance. cbn. now rewrite ?app_nil_r.
Qed.

Lemma handleDelete_resume_rejected (d : Components_Invoices.Deleting)
    (reply : HttpReply unit) (w : World Components_Invoices.State) :
  fails reply = true →
  Components_Invoices.handleDelete_resume d reply w =
  (Return tt,
   advance (component w)
     [ConsoleError "Error deleting invoice:"]
     [Alert (or_else (error_detail (rejection reply))
                     "Failed to delete invoice")] []
     [Settled false] w).
Proof.
  intros Hfail. unfold Components_Invoices.handleDelete_resume,
    Services_api.settled. js_unfold. unfold settle.
  destruct reply as [r|message]; cbn in Hfail.
  - apply negb_true_iff in Hfail. rewrite Hfail.
    js_unfold. unfold advance. cbn. now rewrite ?app_nil_r.
  - js_unfold. unfold advance. cbn. now rewrite ?app_nil_r.
Qed.

(** The two halves, run one after the other with nothing in between, are
    [handleDelete]. *)
Lemma handleDelete_press_then_resume (id : string) (answer : bool)
    (reply : HttpReply unit) (w : World Components_Invoices.State) :
  Components_Invoices.handleDelete id answer reply w
  = (d ← Components_Invoices.handleDelete_press id answer;
     match d with
     | Some d => Components_Invoices.handleDelete_resume d reply
     | None => mret tt
     end) w.
Proof.
  unfold mbind at 1, Js_bind. rewrite handleDelete_press_run.
  destruct answer; [|now rewrite handleDelete_declined].
  destruct (fails_cases reply) as [Hfail|[r [-> [Hok Hfail]]]].
  - rewrite handleDelete_rejected, handleDelete_resume_rejected by exact Hfail.
    unfold advance. cbn. now rewrite ?app_nil_r, <- ?app_assoc.
  - rewrite handleDelete_fulfilled, handleDelete_resume_fulfilled by exact Hok.
    unfold advance. cbn. now rewrite ?app_nil_r, <- ?app_assoc.
Qed.

(** C8 fails of the code. Two rows [a] and [b] are deleted, the second
    button is pressed before the reply to the first is there, and both
    deletions succeed. Each call filters the list that was rendered when
    its button was pressed: the reply to the first renders the list
    without [a], the reply to the second renders the list of the press
    without [b], in which the invoices of [a] are back, though the back
    end deleted them. *)
Theorem overlapping_deletions_bring_an_invoice_back (a b : string)
    (ra rb : HttpReply unit) (w : World Components_Invoices.State) :
  succeeds ra = true → succeeds rb = true →
  ∃ da db w1 w2 w3 w4,
    Components_Invoices.handleDelete_press a true w = (Return (Some da), w1)
    ∧ Components_Invoices.handleDelete_press b true w1
      = (Return (Some db), w2)
    ∧ Components_Invoices.handleDelete_resume da ra w2 = (Return tt, w3)
    ∧ Components_Invoices.handleDelete_resume db rb w3 = (Return tt, w4)
    ∧ requests (new_since (network w) (network w4))
      = [signed (localStorage w)
           (request_config DELETE ("/invoices/" +:+ a) []);
         signed (localStorage w)
           (request_config DELETE ("/invoices/" +:+ b) [])]
    ∧ Components_Invoices.invoices (component w3)
      = filter (λ inv, Types.id inv ≠ a)
               (Components_Invoices.invoices (component w))
    ∧ Components_Invoices.invoices (component w4)
      = filter (λ inv, Types.id inv ≠ b)
               (Components_Invoices.invoices (component w))
    ∧ (∀ inv, inv ∈ Components_Invoices.invoices (component w) →
         Types.id inv = a → a ≠ b →
         (inv ∉ Components_Invoices.invoices (component w3))
         ∧ inv ∈ Components_Invoices.invoices (component w4)).
Proof.
  unfold succeeds. intros Ha Hb.
  apply negb_true_iff in Ha, Hb.
  destruct (fails_cases ra) as [Hfa|[r1 [-> [Hok1 _]]]]; [congruence|].
  destruct (fails_cases rb) as [Hfb|[r2 [-> [Hok2 _]]]]; [congruence|].
  eexists _, _, _, _, _, _.
  split; [apply (handleDelete_press_run a true)|].
  split; [apply (handleDelete_press_run b true)|].
  split; [apply handleDelete_resume_fulfilled, Hok1|].
  split; [apply handleDelete_resume_fulfilled, Hok2|].
  cbn [advance component network localStorage
       Components_Invoices.setInvoices Components_Invoices.invoices
       Components_Invoices.deleting_id Components_Invoices.deleting_invoices].
  split; [|split; [reflexivity|split; [reflexivity|]]].
  - rewrite <- !app_assoc, new_since_app. reflexivity.
  - intros inv Hin Hid Hne. rewrite !list_elem_of_filter. split.
    + intros [Hnot _]. now apply Hnot.
    + split; [congruence | exact Hin].
Qed.

(** The failing run: the rows [1] and [2] are rendered, both are deleted
    with the two calls in flight at once, and row [1] is rendered again
    at the end. *)
Lemma overlapping_deletions_render_row_1_again :
  let a := Types.mkInvoice "1" "INV-001" "c1" None "2025-01-05" "2025-02-05"
                           5000 "pending" in
  let b := Types.mkInvoice "2" "INV-002" "c2" None "2025-01-09" "2025-02-09"
                           1200 "paid" in
  let w := page (Components_Invoices.mkState [a; b] false "") ∅
                "http://localhost:3000/" in
  let ok := Response (mkResponse 204 tt None) in
  ∃ da db w1 w2 w3 w4,
    Components_Invoices.handleDelete_press "1" true w = (Return (Some da), w1)
    ∧ Components_Invoices.handleDelete_press "2" true w1
      = (Return (Some db), w2)
    ∧ Components_Invoices.handleDelete_resume da ok w2 = (Return tt, w3)
    ∧ Components_Invoices.handleDelete_resume db ok w3 = (Return tt, w4)
    ∧ requests (new_since (network w) (network w4))
      = [request_config DELETE "/invoices/1" [];
         request_config DELETE "/invoices/2" []]
    ∧ Components_Invoices.invoices (component w3) = [b]
    ∧ Components_Invoices.invoices (component w4) = [a].
Proof.
  cbv zeta.
  destruct (overlapping_deletions_bring_an_invoice_back "1" "2"
              (Response (mkResponse 204 tt None))
              (Response (mkResponse 204 tt None))
              (page (Components_Invoices.mkState
                       [Types.mkInvoice "1" "INV-001" "c1" None "2025-01-05"
                                        "2025-02-05" 5000 "pending";
                        Types.mkInvoice "2" "INV-002" "c2" None "2025-01-09"
                                        "2025-02-09" 1200 "paid"] false "")
                    ∅ "http://localhost:3000/")
              eq_refl eq_refl)
    as (da & db & w1 & w2 & w3 & w4 & H1 & H2 & H3 & H4 & Hsent & Hfirst
        & Hsecond & _).
  exists da, db, w1, w2, w3, w4.
  split; [exact H1|]. split; [exact H2|]. split; [exact H3|].
  split; [exact H4|]. split; [exact Hsent|]. split; [exact Hfirst|].
  exact Hsecond.
Defined.



(** ** The two [App]s *)

Lemma truthy_spec (s : string) : truthy s = true ↔ s ≠ "".
Proof. destruct s; cbn; split; congruence. Qed.

Lemma truthy_opt_spec (v : option string) :
  truthy_opt v = true ↔ ∃ t, v = Some t ∧ t ≠ "".
Proof.
  destruct v as [s|]; cbn.
  - rewrite truthy_spec. split.
    + intros Hs. now exists s.
    + intros [t [[= <-] Ht]]. exact Ht.
  - split; [discriminate | intros [t [[=] _]]].
Qed.

Lemma Components_App_mount_run (w : World Components_App.State) :
  Components_App.mount w =
  (Return tt,
   advance
     (if truthy_opt (localStorage w !! "token")
      then Components_App.setIsAuthenticated true (component w)
      else component w)
     [] [] [] [] w).
Proof.
  unfold Components_App.mount. js_step.
  destruct (truthy_opt (localStorage w !! "token")).
  - unfold advance. cbn. now rewrite !app_nil_r.
  - now rewrite advance_nothing.
Qed.

Lemma Router_App_checkAuth_run (w : World Router_App.State) :
  Router_App.checkAuth w =
  (Return tt, advance (truthy_opt (localStorage w !! "token")) [] [] [] [] w).
Proof.
  unfold Router_App.checkAuth. js_step.
  unfold advance. cbn. now rewrite !app_nil_r.
Qed.

Lemma view_behind_login (st : Components_App.State) :
  Components_App.behind_login (Components_App.view st)
  = Components_App.isAuthenticated st.
Proof.
  unfold Components_App.view.
  destruct (Components_App.isAuthenticated st); cbn.
  - now destruct (Components_App.activeScreen st).
  - now destruct (Components_App.showRegister st).
Qed.

Lemma route_behind_login (flag : Router_App.State) (path : string) :
  Router_App.behind_login (Router_App.route flag path) = true → flag = true.
Proof.
  unfold Router_App.route. cbv zeta.
  generalize (if truthy path then path else "/"). intros pathname.
  repeat (match goal with
          | |- context [Router_App.matchPath ?p pathname] =>
              destruct (Router_App.matchPath p pathname)
          end; cbn [Router_App.behind_login]; try discriminate);
    destruct flag; cbn [Router_App.behind_login]; congruence.
Qed.

(** C5 (as amended). On mount of either application the authenticated flag
    becomes true if and only if local storage holds a [token] entry that is
    not the empty string; that flag is what guards the screens behind the
    login. *)
Theorem mount_authenticates_on_nonempty_token
    (w : World Components_App.State) (wr : World Router_App.State)
    (path : string) :
  component w = Components_App.initial →
  let st' := component (snd (Components_App.mount w)) in
  let flag' := component (snd (Router_App.mount wr)) in
  (Components_App.isAuthenticated st' = true
   ↔ ∃ t, localStorage w !! "token" = Some t ∧ t ≠ "")
  ∧ (flag' = true ↔ ∃ t, localStorage wr !! "token" = Some t ∧ t ≠ "")
  ∧ Components_App.behind_login (Components_App.view st')
    = Components_App.isAuthenticated st'
  ∧ (Router_App.behind_login (Router_App.route flag' path) = true
     → flag' = true).
Proof.
  intros Hinit st' flag'. subst st' flag'. unfold Router_App.mount.
  rewrite Components_App_mount_run, Router_App_checkAuth_run.
  cbn [snd advance component]. rewrite Hinit.
  split; [|split; [apply truthy_opt_spec|]].
  - rewrite <- truthy_opt_spec.
    now destruct (truthy_opt (localStorage w !! "token")).
  - split; [apply view_behind_login | apply route_behind_login].
Qed.

(** The check at work: a fresh page that holds the token [abc]. *)
Lemma mount_with_token_example :
  let w := page Components_App.initial {["token" := "abc"]}
                "http://localhost:3000/" in
  let wr := page Router_App.initial {["token" := "abc"]}
                 "http://localhost:3000/dashboard" in
  Components_App.isAuthenticated (component (snd (Components_App.mount w)))
  = true
  ∧ component (snd (Router_App.mount wr)) = true.
Proof.
  cbv zeta.
  pose proof (mount_authenticates_on_nonempty_token
                (page Components_App.initial {["token" := "abc"]}
                      "http://localhost:3000/")
                (page Router_App.initial {["token" := "abc"]}
                      "http://localhost:3000/dashboard")
                "/dashboard" eq_refl) as (Hc & Hr & _).
  split.
  - apply Hc. exists "abc". split; [vm_compute; reflexivity | discriminate].
  - apply Hr. exists "abc". split; [vm_compute; reflexivity | discriminate].
Defined.

(** C5 (as stated) fails: with the empty string stored under [token] the
    entry exists and the flag stays false, in both applications. *)
Lemma mount_ignores_empty_token :
  let w := page Components_App.initial {["token" := ""]}
                "http://localhost:3000/" in
  let wr := page Router_App.initial {["token" := ""]}
                 "http://localhost:3000/dashboard" in
  localStorage w !! "token" = Some ""
  ∧ Components_App.isAuthenticated (component (snd (Components_App.mount w)))
    = false
  ∧ localStorage wr !! "token" = Some ""
  ∧ component (snd (Router_App.mount wr)) = false.
Proof. cbv zeta. split_and!; vm_compute; reflexivity. Qed.

(** ** [DashboardAnalytics.fetchDashboardData] *)

Lemma axios_get_fulfilled {S D} (cfg : AxiosRequestConfig)
    (r : HttpResponse D) (w : World S) :
  validateStatus (res_status r) = true →
  axios_get cfg (Response r) w =
  (Return r,
   advance (component w) [] [] [] [Sent cfg (component w); Settled true] w).
Proof.
  intros Hok. unfold axios_get. js_unfold. unfold settle. rewrite Hok.
  js_unfold. unfold advance. cbn. now rewrite ?app_nil_r, <- ?app_assoc.
Qed.

Lemma axios_get_rejected {S D} (cfg : AxiosRequestConfig)
    (reply : HttpReply D) (w : World S) :
  fails reply = true →
  axios_get cfg reply w =
  (Throw (rejection reply),
   advance (component w) [] [] [] [Sent cfg (component w); Settled false] w).
Proof.
  intros Hfail. unfold axios_get. js_unfold. unfold settle.
  destruct reply as [r|message]; cbn in Hfail.
  - apply negb_true_iff in Hfail. rewrite Hfail. js_unfold.
    unfold advance. cbn. now rewrite ?app_nil_r, <- ?app_assoc.
  - js_unfold. unfold advance. cbn. now rewrite ?app_nil_r, <- ?app_assoc.
Qed.

Lemma Analytics_fetch_fulfilled
    (r : HttpResponse Components_DashboardAnalytics.DashboardStats)
    (w : World Components_DashboardAnalytics.State) :
  validateStatus (res_status r) = true →
  Components_DashboardAnalytics.fetchDashboardData (Response r) w =
  (Return tt,
   advance
     (Components_DashboardAnalytics.mkState (Some (res_data r)) false None)
     [ConsoleLog "Fetching dashboard overview...";
      ConsoleLog "Dashboard data received:"] [] []
     [Sent (Components_DashboardAnalytics.overview_config
              (localStorage w !! "token"))
           (Components_DashboardAnalytics.mkState
              (Components_DashboardAnalytics.stats (component w)) true None);
      Settled true] w).
Proof.
  intros Hok. unfold Components_DashboardAnalytics.fetchDashboardData.
  js_step.
  rewrite axios_get_fulfilled by exact Hok.
  unfold advance. cbn. now rewrite ?app_nil_r, <- ?app_assoc.
Qed.

Lemma Analytics_fetch_rejected
    (reply : HttpReply Components_DashboardAnalytics.DashboardStats)
    (w : World Components_DashboardAnalytics.State) :
  fails reply = true →
  Components_DashboardAnalytics.fetchDashboardData reply w =
  (Return tt,
   advance
     (Components_DashboardAnalytics.mkState
        (Components_DashboardAnalytics.stats (component w)) false
        (Some (or_else (or_opt (error_detail (rejection reply))
                               (Some (err_message (rejection reply))))
                       "Failed to load dashboard data")))
     [ConsoleLog "Fetching dashboard overview...";
      ConsoleError "Error fetching dashboard data:";
      ConsoleError "Error details:"] [] []
     [Sent (Components_DashboardAnalytics.overview_config
              (localStorage w !! "token"))
           (Components_DashboardAnalytics.mkState
              (Components_DashboardAnalytics.stats (component w)) true None);
      Settled false] w).
Proof.
  intros Hfail. unfold Components_DashboardAnalytics.fetchDashboardData.
  js_step.
  rewrite axios_get_rejected by exact Hfail.
  unfold advance. cbn. now rewrite ?app_nil_r, <- ?app_assoc.
Qed.

(** ** Exchanges through [apiClient] and the pages of the router front end *)

Lemma after_rejection_frame {S} (e : AxiosError) (w : World S) :
  component (after_rejection e w) = component w
  ∧ console (after_rejection e w) = console w
  ∧ dialogs (after_rejection e w) = dialogs w
  ∧ downloads (after_rejection e w) = downloads w
  ∧ network (after_rejection e w) = network w.
Proof. unfold after_rejection. now case_decide. Qed.

Lemma apiClient_settled_fulfilled {S D} (r : HttpResponse D) (w : World S) :
  validateStatus (res_status r) = true →
  Services_apiClient.settled (Response r) w =
  (Return r, advance (component w) [] [] [] [Settled true] w).
Proof.
  intros Hok. unfold Services_apiClient.settled,
    Services_apiClient.onFulfilled. js_unfold. unfold settle. rewrite Hok.
  js_unfold. unfold advance. cbn. now rewrite ?app_nil_r.
Qed.

Lemma apiClient_settled_rejected {S D} (reply : HttpReply D) (w : World S) :
  fails reply = true →
  Services_apiClient.settled reply w =
  (Throw (rejection reply),
   after_rejection (rejection reply)
     (advance (component w) [] [] [] [Settled false] w)).
Proof.
  intros Hfail. unfold Services_apiClient.settled,
    Services_apiClient.onRejected, after_rejection.
  js_unfold. unfold settle.
  destruct reply as [r|message]; cbn in Hfail.
  - apply negb_true_iff in Hfail. rewrite Hfail. js_unfold.
    case_decide; unfold advance; cbn; now rewrite ?app_nil_r.
  - js_unfold. case_decide; unfold advance; cbn; now rewrite ?app_nil_r.
Qed.

Lemma apiClient_request_fulfilled {S D} (cfg : AxiosRequestConfig)
    (r : HttpResponse D) (w : World S) :
  validateStatus (res_status r) = true →
  Services_apiClient.request cfg (Response r) w =
  (Return r,
   advance (component w) [] [] []
           [Sent (signed (localStorage w) cfg) (component w); Settled true] w).
Proof.
  intros Hok. rewrite apiClient_request_split, apiClient_dispatch_run.
  cbn [snd]. rewrite apiClient_settled_fulfilled by exact Hok.
  unfold advance. cbn. now rewrite ?app_nil_r, <- ?app_assoc.
Qed.

Lemma apiClient_request_rejected {S D} (cfg : AxiosRequestConfig)
    (reply : HttpReply D) (w : World S) :
  fails reply = true →
  Services_apiClient.request cfg reply w =
  (Throw (rejection reply),
   after_rejection (rejection reply)
     (advance (component w) [] [] []
        [Sent (signed (localStorage w) cfg) (component w); Settled false] w)).
Proof.
  intros Hfail. rewrite apiClient_request_split, apiClient_dispatch_run.
  cbn [snd]. rewrite apiClient_settled_rejected by exact Hfail.
  unfold advance. cbn. now rewrite ?app_nil_r, <- ?app_assoc.
Qed.

Lemma fetchInvoices_fulfilled (r : HttpResponse Types.InvoiceList)
    (w : World Pages_Invoices.State) :
  validateStatus (res_status r) = true →
  Pages_Invoices.fetchInvoices (Response r) w =
  (Return tt,
   advance
     (Pages_Invoices.mkState
        (default [] (Types.invoices_member (res_data r))) false)
     [] [] []
     [Sent (signed (localStorage w) (request_config GET "/invoices/list" []))
           (component w);
      Settled true] w).
Proof.
  intros Hok. unfold Pages_Invoices.fetchInvoices,
    Services_apiClient.invoiceService_getInvoices,
    Services_apiClient.invoiceService_getInvoices_config. js_step.
  cbn [with_param]. rewrite apiClient_request_fulfilled by exact Hok.
  unfold advance. cbn. now rewrite ?app_nil_r, <- ?app_assoc.
Qed.

(** What a failed [fetchInvoices] leaves: the list as it was, the spinner
    off, one console.error, no dialog; there is no error state to set. *)
Lemma fetchInvoices_rejected (reply : HttpReply Types.InvoiceList)
    (w : World Pages_Invoices.State) :
  fails reply = true →
  let w' := snd (Pages_Invoices.fetchInvoices reply w) in
  fst (Pages_Invoices.fetchInvoices reply w) = Return tt
  ∧ component w'
    = Pages_Invoices.mkState (Pages_Invoices.invoices (component w)) false
  ∧ console w' = console w ++ [ConsoleError "Error fetching invoices:"]
  ∧ dialogs w' = dialogs w
  ∧ network w'
    = network w
      ++ [Sent (signed (localStorage w)
                       (request_config GET "/invoices/list" []))
               (component w);
          Settled false].
Proof.
  intros Hfail. unfold Pages_Invoices.fetchInvoices,
    Services_apiClient.invoiceService_getInvoices,
    Services_apiClient.invoiceService_getInvoices_config. js_step.
  cbn [with_param]. rewrite apiClient_request_rejected by exact Hfail.
  unfold after_rejection, advance.
  case_decide; cbn; now rewrite ?app_nil_r.
Qed.

Lemma Pages_handleDownload_rejected
    (downloadInvoice : string → string → Js Pages_Invoices.State unit)
    (invoiceId invoiceNumber : string) (e : AxiosError)
    (w w1 : World Pages_Invoices.State) :
  downloadInvoice invoiceId invoiceNumber w = (Throw e, w1) →
  Pages_Invoices.handleDownload downloadInvoice invoiceId invoiceNumber w =
  (Return tt,
   advance (component w1)
     [ConsoleError "Error downloading invoice:"]
     [Alert (or_else (Some (err_message e))
        "Failed to download invoice PDF. Please check the console for details.")]
     [] [] w1).
Proof.
  intros Hthrow. unfold Pages_Invoices.handleDownload. js_unfold.
  rewrite Hthrow. unfold advance. cbn. now rewrite ?app_nil_r.
Qed.

Lemma run_bind {S A B} (m : Js S A) (k : A → Js S B) (w : World S) :
  (m ≫= k) w
  = match m w with
    | (Return a, w') => k a w'
    | (Throw e, w') => (Throw e, w')
    end.
Proof. reflexivity. Qed.

(** The handler of the router dashboard resumes after [Promise.all]. *)
Lemma resume_rejected (e : AxiosError) (w : World Pages_Dashboard.State) :
  try_finally
    (try_catch
       ('(overviewData, insightsData) ← Pages_Dashboard.await (@Throw (Pages_Dashboard.Overview * Pages_Dashboard.Insights) e);
        setState (Pages_Dashboard.setOverview (Some overviewData)) ;;
        setState (Pages_Dashboard.setInsights
                    (default [] (Pages_Dashboard.insights_member insightsData))))
       (λ error, console_error "Error fetching dashboard data:"))
    (setState (Pages_Dashboard.setLoading false)) w
  = (Return tt,
     advance (Pages_Dashboard.setLoading false (component w))
       [ConsoleError "Error fetching dashboard data:"] [] [] [] w).
Proof.
  unfold Pages_Dashboard.await. js_unfold. unfold advance. cbn.
  now rewrite ?app_nil_r.
Qed.

Lemma resume_fulfilled (a : Pages_Dashboard.Overview)
    (b : Pages_Dashboard.Insights) (w : World Pages_Dashboard.State) :
  try_finally
    (try_catch
       ('(overviewData, insightsData) ← Pages_Dashboard.await (Return (a, b));
        setState (Pages_Dashboard.setOverview (Some overviewData)) ;;
        setState (Pages_Dashboard.setInsights
                    (default [] (Pages_Dashboard.insights_member insightsData))))
       (λ error, console_error "Error fetching dashboard data:"))
    (setState (Pages_Dashboard.setLoading false)) w
  = (Return tt,
     advance (Pages_Dashboard.mkState (Some a)
                (default [] (Pages_Dashboard.insights_member b)) false)
       [] [] [] [] w).
Proof.
  unfold Pages_Dashboard.await. js_unfold. unfold advance. cbn.
  now rewrite ?app_nil_r.
Qed.

Lemma settled_data_fulfilled {S D} (r : HttpResponse D) (w : World S) :
  validateStatus (res_status r) = true →
  (response ← Services_apiClient.settled (Response r); mret (res_data response)) w
  = (Return (res_data r), advance (component w) [] [] [] [Settled true] w).
Proof.
  intros Hok. unfold mbind, Js_bind.
  now rewrite apiClient_settled_fulfilled.
Qed.

Lemma settled_data_rejected {S D} (reply : HttpReply D) (w : World S) :
  fails reply = true →
  (response ← Services_apiClient.settled reply; mret (res_data response)) w
  = (Throw (rejection reply),
     after_rejection (rejection reply)
       (advance (component w) [] [] [] [Settled false] w)).
Proof.
  intros Hok. unfold mbind, Js_bind.
  now rewrite apiClient_settled_rejected.
Qed.

Lemma console_after_rejection {S} (e : AxiosError) (w : World S) :
  console (after_rejection e w) = console w.
Proof. apply after_rejection_frame. Qed.
Lemma dialogs_after_rejection {S} (e : AxiosError) (w : World S) :
  dialogs (after_rejection e w) = dialogs w.
Proof. apply after_rejection_frame. Qed.
Lemma network_after_rejection {S} (e : AxiosError) (w : World S) :
  network (after_rejection e w) = network w.
Proof. apply after_rejection_frame. Qed.
Lemma component_after_rejection {S} (e : AxiosError) (w : World S) :
  component (after_rejection e w) = component w.
Proof. apply after_rejection_frame. Qed.

Ltac frame :=
  repeat (cbn [fst snd advance console dialogs network component];
          rewrite ?console_after_rejection, ?dialogs_after_rejection,
            ?network_after_rejection, ?component_after_rejection);
  rewrite ?app_nil_r, <- ?app_assoc.

(** What [fetchDashboardData] of the router front end leaves, whatever the
    two replies and their order: both requests go out first, then the two
    settlements arrive; a failure is logged once and raises no dialog. *)
Lemma Pages_fetchDashboardData_run (overview_first : bool)
    (overview_reply : HttpReply Pages_Dashboard.Overview)
    (insights_reply : HttpReply Pages_Dashboard.Insights)
    (w : World Pages_Dashboard.State) :
  ∃ w',
    Pages_Dashboard.fetchDashboardData overview_first overview_reply
      insights_reply w = (Return tt, w')
    ∧ dialogs w' = dialogs w
    ∧ console w'
      = console w
        ++ (if fails overview_reply || fails insights_reply
            then [ConsoleError "Error fetching dashboard data:"] else [])
    ∧ network w'
      = network w
        ++ [Sent (signed (localStorage w)
                    Services_apiClient.dashboardService_getOverview_config)
                 (component w);
            Sent (signed (localStorage w)
                    Services_apiClient.dashboardService_getInsights_config)
                 (component w);
            Settled (if overview_first then succeeds overview_reply
                     else succeeds insights_reply);
            Settled (if overview_first then succeeds insights_reply
                     else succeeds overview_reply)].
Proof.
  unfold Pages_Dashboard.fetchDashboardData, succeeds.
  rewrite run_bind, apiClient_dispatch_run, run_bind, apiClient_dispatch_run.
  cbn [snd localStorage component href console dialogs downloads network].
  unfold Pages_Dashboard.promise_all2.
  destruct overview_first;
    destruct (fails_cases overview_reply) as [Ho|[ro [-> [Ho Ho']]]];
    destruct (fails_cases insights_reply) as [Hi|[ri [-> [Hi Hi']]]];
    rewrite ?Ho, ?Hi, ?Ho', ?Hi'; cbn [orb negb];
    repeat first
      [ rewrite settled_data_rejected by assumption
      | rewrite settled_data_fulfilled by assumption
      | rewrite resume_rejected
      | rewrite resume_fulfilled ];
    (eexists; split; [reflexivity|]); frame; cbn [app]; auto.
Qed.

(** ** Failures: caught, logged, shown *)

Lemma logged_advance {S} (st : S) (logs : list ConsoleEntry)
    (boxes : list Dialog) (files : list string) (evs : list (NetEvent S))
    (w : World S) :
  logged w (advance st logs boxes files evs w)
  = existsb is_console_error logs.
Proof. unfold logged. cbn [advance console]. now rewrite new_since_app. Qed.

Lemma alerted_advance {S} (st : S) (logs : list ConsoleEntry)
    (boxes : list Dialog) (files : list string) (evs : list (NetEvent S))
    (w : World S) :
  alerted w (advance st logs boxes files evs w) = existsb is_alert boxes.
Proof. unfold alerted. cbn [advance dialogs]. now rewrite new_since_app. Qed.

Lemma loadInvoices_reports (reply : HttpReply Types.InvoiceList)
    (w : World Components_Invoices.State) :
  fails reply = true →
  caught_logged_surfaced Components_Invoices.shows_error_panel
    (Components_Invoices.loadInvoices reply) w = true.
Proof.
  intros Hfail. unfold caught_logged_surfaced.
  rewrite loadInvoices_rejected by exact Hfail. cbn [fst snd caught].
  rewrite logged_advance. cbn [existsb is_console_error orb andb].
  unfold Components_Invoices.shows_error_panel.
  cbn [advance component Components_Invoices.error].
  now rewrite or_else_truthy.
Qed.

Lemma handleDownload_reports (invoiceId invoiceNumber : string)
    (reply : HttpReply unit) (w : World Components_Invoices.State) :
  fails reply = true →
  caught_logged_surfaced Components_Invoices.shows_error_panel
    (Components_Invoices.handleDownload invoiceId invoiceNumber reply) w
  = true.
Proof.
  intros Hfail. unfold caught_logged_surfaced.
  rewrite handleDownload_rejected by exact Hfail. cbn [fst snd caught].
  rewrite logged_advance, alerted_advance.
  cbn [existsb is_console_error is_alert orb andb]. apply orb_true_r.
Qed.

Lemma handleDelete_reports (id : string) (reply : HttpReply unit)
    (w : World Components_Invoices.State) :
  fails reply = true →
  caught_logged_surfaced Components_Invoices.shows_error_panel
    (Components_Invoices.handleDelete id true reply) w = true.
Proof.
  intros Hfail. unfold caught_logged_surfaced.
  rewrite handleDelete_rejected by exact Hfail. cbn [fst snd caught].
  rewrite logged_advance, alerted_advance.
  cbn [existsb is_console_error is_alert orb andb]. apply orb_true_r.
Qed.

Lemma Analytics_fetch_reports
    (reply : HttpReply Components_DashboardAnalytics.DashboardStats)
    (w : World Components_DashboardAnalytics.State) :
  fails reply = true →
  caught_logged_surfaced Components_DashboardAnalytics.shows_error_panel
    (Components_DashboardAnalytics.fetchDashboardData reply) w = true.
Proof.
  intros Hfail. unfold caught_logged_surfaced.
  rewrite Analytics_fetch_rejected by exact Hfail. cbn [fst snd caught].
  rewrite logged_advance. cbn [existsb is_console_error orb andb].
  unfold Components_DashboardAnalytics.shows_error_panel.
  cbn [advance component Components_DashboardAnalytics.error
       Components_DashboardAnalytics.loading negb andb truthy_opt].
  now rewrite or_else_truthy.
Qed.

(** The chat logs the failure and shows it as a message of the assistant. *)
Lemma handleSendMessage_reports (now later : string)
    (reply : HttpReply Types.ChatQueryResponse)
    (w : World Components_Dashboard.State) :
  blank (Components_Dashboard.inputMessage (component w)) = false →
  Components_Dashboard.loading (component w) = false →
  fails reply = true →
  let run := Components_Dashboard.handleSendMessage now later reply w in
  caught (fst run) = true ∧ logged w (snd run) = true
  ∧ alerted w (snd run) = false
  ∧ last (Components_Dashboard.messages (component (snd run)))
    = Some (Types.mkMessage Types.assistant
              (Components_Dashboard.error_content (rejection reply)) later).
Proof.
  intros Hblank Hidle Hfail run. subst run.
  rewrite handleSendMessage_rejected by assumption. cbn [fst snd caught].
  rewrite logged_advance, alerted_advance.
  cbn [advance component Components_Dashboard.messages].
  now rewrite last_snoc.
Qed.

(** The GST form shows the failure in its panel and logs nothing. *)
Lemma handleVerify_reports (reply : HttpReply Types.GSTVerificationResponse)
    (w : World Components_GSTCompliance.State) :
  blank (Components_GSTCompliance.gstin (component w)) = false →
  fails reply = true →
  let run := Components_GSTCompliance.handleVerify reply w in
  caught (fst run) = true ∧ logged w (snd run) = false
  ∧ alerted w (snd run) = false
  ∧ Components_GSTCompliance.shows_error_panel (component (snd run)) = true.
Proof.
  intros Hblank Hfail run. subst run.
  rewrite handleVerify_rejected by assumption. cbn [fst snd caught].
  rewrite logged_advance, alerted_advance.
  unfold Components_GSTCompliance.shows_error_panel.
  cbn [advance component Components_GSTCompliance.error existsb].
  now rewrite or_else_truthy.
Qed.

(** The pages of the router front end log the failure and show nothing. *)
Lemma fetchInvoices_reports (reply : HttpReply Types.InvoiceList)
    (w : World Pages_Invoices.State) :
  fails reply = true →
  let run := Pages_Invoices.fetchInvoices reply w in
  caught (fst run) = true ∧ logged w (snd run) = true
  ∧ alerted w (snd run) = false.
Proof.
  intros Hfail run. subst run.
  destruct (fetchInvoices_rejected reply w Hfail)
    as (Hret & _ & Hconsole & Hdialogs & _).
  unfold logged, alerted. rewrite Hret, Hconsole, Hdialogs.
  now rewrite new_since_app, new_since_same.
Qed.

Lemma Pages_fetchDashboardData_reports (overview_first : bool)
    (overview_reply : HttpReply Pages_Dashboard.Overview)
    (insights_reply : HttpReply Pages_Dashboard.Insights)
    (w : World Pages_Dashboard.State) :
  fails overview_reply || fails insights_reply = true →
  let run := Pages_Dashboard.fetchDashboardData overview_first
               overview_reply insights_reply w in
  caught (fst run) = true ∧ logged w (snd run) = true
  ∧ alerted w (snd run) = false.
Proof.
  intros Hfail run. subst run.
  destruct (Pages_fetchDashboardData_run overview_first overview_reply
              insights_reply w)
    as (w' & -> & Hdialogs & Hconsole & _).
  unfold logged, alerted. cbn [fst snd]. rewrite Hconsole, Hdialogs, Hfail.
  now rewrite new_since_app, new_since_same.
Qed.

(** C3 (as amended). When an API call of a component fails, the error is
    caught inside the handler that made the call. In [Invoices]
    ([loadInvoices], [handleDownload], [handleDelete]) and in
    [DashboardAnalytics] it is logged with console.error and shown in the
    inline error panel or in an alert. The chat logs it and shows it as a
    message of the assistant; the GST form shows it in its panel and logs
    nothing; the pages of the router front end ([fetchInvoices],
    [fetchDashboardData]) log it and show nothing, and their
    [handleDownload] logs it and raises an alert. *)
Theorem failures_are_caught_by_their_handler
    (now later id number : string)
    (chat_reply : HttpReply Types.ChatQueryResponse)
    (gst_reply : HttpReply Types.GSTVerificationResponse)
    (list_reply : HttpReply Types.InvoiceList)
    (unit_reply : HttpReply unit)
    (stats_reply : HttpReply Components_DashboardAnalytics.DashboardStats)
    (overview_first : bool)
    (overview_reply : HttpReply Pages_Dashboard.Overview)
    (insights_reply : HttpReply Pages_Dashboard.Insights)
    (wc : World Components_Dashboard.State)
    (wg : World Components_GSTCompliance.State)
    (wi : World Components_Invoices.State)
    (wa : World Components_DashboardAnalytics.State)
    (wp : World Pages_Invoices.State)
    (wd : World Pages_Dashboard.State) :
  fails chat_reply = true →
  blank (Components_Dashboard.inputMessage (component wc)) = false →
  Components_Dashboard.loading (component wc) = false →
  fails gst_reply = true →
  blank (Components_GSTCompliance.gstin (component wg)) = false →
  fails list_reply = true →
  fails unit_reply = true →
  fails stats_reply = true →
  fails overview_reply || fails insights_reply = true →
  let chat := Components_Dashboard.handleSendMessage now later chat_reply wc in
  let gst := Components_GSTCompliance.handleVerify gst_reply wg in
  let page_list := Pages_Invoices.fetchInvoices list_reply wp in
  let page_dash := Pages_Dashboard.fetchDashboardData overview_first
                     overview_reply insights_reply wd in
  caught_logged_surfaced Components_Invoices.shows_error_panel
    (Components_Invoices.loadInvoices list_reply) wi = true
  ∧ caught_logged_surfaced Components_Invoices.shows_error_panel
      (Components_Invoices.handleDownload id number unit_reply) wi = true
  ∧ caught_logged_surfaced Components_Invoices.shows_error_panel
      (Components_Invoices.handleDelete id true unit_reply) wi = true
  ∧ caught_logged_surfaced Components_DashboardAnalytics.shows_error_panel
      (Components_DashboardAnalytics.fetchDashboardData stats_reply) wa = true
  ∧ (caught (fst chat) = true ∧ logged wc (snd chat) = true
     ∧ alerted wc (snd chat) = false
     ∧ last (Components_Dashboard.messages (component (snd chat)))
       = Some (Types.mkMessage Types.assistant
                 (Components_Dashboard.error_content (rejection chat_reply))
                 later))
  ∧ (caught (fst gst) = true ∧ logged wg (snd gst) = false
     ∧ alerted wg (snd gst) = false
     ∧ Components_GSTCompliance.shows_error_panel (component (snd gst))
       = true)
  ∧ (caught (fst page_list) = true ∧ logged wp (snd page_list) = true
     ∧ alerted wp (snd page_list) = false)
  ∧ (caught (fst page_dash) = true ∧ logged wd (snd page_dash) = true
     ∧ alerted wd (snd page_dash) = false)
  ∧ (∀ downloadInvoice e w1,
       downloadInvoice id number wp = (Throw e, w1) →
       let run := Pages_Invoices.handleDownload downloadInvoice id number wp in
       caught (fst run) = true ∧ logged w1 (snd run) = true
       ∧ alerted w1 (snd run) = true).
Proof.
  intros Hchat Hinput Hidle Hgst Hgstin Hlist Hunit Hstats Hdash.
  cbv zeta.
  split; [now apply loadInvoices_reports|].
  split; [now apply handleDownload_reports|].
  split; [now apply handleDelete_reports|].
  split; [now apply Analytics_fetch_reports|].
  split; [now apply handleSendMessage_reports|].
  split; [now apply handleVerify_reports|].
  split; [now apply fetchInvoices_reports|].
  split; [now apply Pages_fetchDashboardData_reports|].
  intros downloadInvoice e w1 Hthrow.
  rewrite (Pages_handleDownload_rejected _ _ _ e wp w1 Hthrow).
  cbn [fst snd caught]. now rewrite logged_advance, alerted_advance.
Qed.

(** The network is down: every handler meets the same failure. *)
Lemma failures_with_the_network_down :
  caught_logged_surfaced Components_Invoices.shows_error_panel
    (Components_Invoices.loadInvoices (NoResponse "Network Error"))
    (page Components_Invoices.initial ∅ "http://localhost:3000/") = true.
Proof.
  apply (failures_are_caught_by_their_handler
           "t0" "t1" "1" "INV-001"
           (NoResponse "Network Error") (NoResponse "Network Error")
           (NoResponse "Network Error") (NoResponse "Network Error")
           (NoResponse "Network Error") true
           (NoResponse "Network Error") (NoResponse "Network Error")
           (page (Components_Dashboard.mkState [] "Show my invoices" false)
                 ∅ "http://localhost:3000/")
           (page (Components_GSTCompliance.mkState "29ABCDE1234F1Z5" false
                    None "")
                 ∅ "http://localhost:3000/")
           (page Components_Invoices.initial ∅ "http://localhost:3000/")
           (page Components_DashboardAnalytics.initial ∅
                 "http://localhost:3000/")
           (page Pages_Invoices.initial ∅ "http://localhost:3000/invoices")
           (page Pages_Dashboard.initial ∅
                 "http://localhost:3000/dashboard"));
    reflexivity.
Defined.

(** C3 (as stated) fails: a failed verification writes nothing to the
    console, and a failed fetch of the invoices page shows nothing. *)
Lemma unlogged_and_unshown_failures :
  let wg := page (Components_GSTCompliance.mkState "29ABCDE1234F1Z5" false
                    None "")
                 ∅ "http://localhost:3000/" in
  let wp := page Pages_Invoices.initial ∅ "http://localhost:3000/invoices" in
  let gst := Components_GSTCompliance.handleVerify
               (NoResponse "Network Error") in
  let fetch := Pages_Invoices.fetchInvoices (NoResponse "Network Error") in
  console (snd (gst wg)) = []
  ∧ caught_logged_surfaced Components_GSTCompliance.shows_error_panel gst wg
    = false
  ∧ dialogs (snd (fetch wp)) = []
  ∧ component (snd (fetch wp)) = Pages_Invoices.mkState [] false
  ∧ caught_logged_surfaced no_panel fetch wp = false.
Proof. cbv zeta. split_and!; vm_compute; reflexivity. Qed.

(** ** No request follows a failure *)

Lemma one_exchange_quiet {S} (evs : list (NetEvent S)) :
  one_exchange evs →
  quiet_after_failure evs = true ∧ (length (requests evs) ≤ 1)%nat.
Proof.
  intros [-> | (cfg & st & ok & ->)]; cbn; [split; [reflexivity | lia]|].
  split; [now destruct ok | lia].
Qed.

Lemma wire_of_advance {S} (run : Js S unit) (w : World S) (c : Completion unit)
    (st : S) (logs : list ConsoleEntry) (boxes : list Dialog)
    (files : list string) (evs : list (NetEvent S)) :
  run w = (c, advance st logs boxes files evs w) → wire_of run w = evs.
Proof.
  intros Hrun. unfold wire_of. rewrite Hrun. cbn [snd advance network].
  apply new_since_app.
Qed.

Lemma wire_of_nothing {S} (run : Js S unit) (w : World S)
    (c : Completion unit) :
  run w = (c, w) → wire_of run w = [].
Proof.
  intros Hrun. unfold wire_of. rewrite Hrun. apply new_since_same.
Qed.

Ltac exchanged lemma :=
  right; eexists _, _, _; eapply wire_of_advance, lemma; assumption.

Lemma handleSendMessage_exchange (now later : string)
    (reply : HttpReply Types.ChatQueryResponse)
    (w : World Components_Dashboard.State) :
  one_exchange
    (wire_of (Components_Dashboard.handleSendMessage now later reply) w).
Proof.
  destruct (blank (Components_Dashboard.inputMessage (component w)))
    eqn:Hblank;
    [left; eapply wire_of_nothing, handleSendMessage_stopped; now left|].
  destruct (Components_Dashboard.loading (component w)) eqn:Hidle;
    [left; eapply wire_of_nothing, handleSendMessage_stopped; now right|].
  destruct (fails_cases reply) as [Hfail|[r [-> [Hok _]]]].
  - exchanged handleSendMessage_rejected.
  - exchanged handleSendMessage_fulfilled.
Qed.

Lemma handleVerify_exchange (reply : HttpReply Types.GSTVerificationResponse)
    (w : World Components_GSTCompliance.State) :
  one_exchange (wire_of (Components_GSTCompliance.handleVerify reply) w).
Proof.
  destruct (blank (Components_GSTCompliance.gstin (component w)))
    eqn:Hblank;
    [left; now eapply wire_of_nothing, handleVerify_blank|].
  destruct (fails_cases reply) as [Hfail|[r [-> [Hok _]]]].
  - exchanged handleVerify_rejected.
  - exchanged handleVerify_fulfilled.
Qed.

Lemma loadInvoices_exchange (reply : HttpReply Types.InvoiceList)
    (w : World Components_Invoices.State) :
  one_exchange (wire_of (Components_Invoices.loadInvoices reply) w).
Proof.
  destruct (fails_cases reply) as [Hfail|[r [-> [Hok _]]]].
  - exchanged loadInvoices_rejected.
  - exchanged loadInvoices_fulfilled.
Qed.

Lemma handleDownload_exchange (invoiceId invoiceNumber : string)
    (reply : HttpReply unit) (w : World Components_Invoices.State) :
  one_exchange
    (wire_of (Components_Invoices.handleDownload invoiceId invoiceNumber reply)
             w).
Proof.
  destruct (fails_cases reply) as [Hfail|[r [-> [Hok _]]]].
  - exchanged handleDownload_rejected.
  - exchanged handleDownload_fulfilled.
Qed.

Lemma handleDelete_exchange (id : string) (answer : bool)
    (reply : HttpReply unit) (w : World Components_Invoices.State) :
  one_exchange (wire_of (Components_Invoices.handleDelete id answer reply) w).
Proof.
  destruct answer;
    [|left; eapply wire_of_advance, handleDelete_declined].
  destruct (fails_cases reply) as [Hfail|[r [-> [Hok _]]]].
  - exchanged handleDelete_rejected.
  - exchanged handleDelete_fulfilled.
Qed.

Lemma Analytics_fetch_exchange
    (reply : HttpReply Components_DashboardAnalytics.DashboardStats)
    (w : World Components_DashboardAnalytics.State) :
  one_exchange
    (wire_of (Components_DashboardAnalytics.fetchDashboardData reply) w).
Proof.
  destruct (fails_cases reply) as [Hfail|[r [-> [Hok _]]]].
  - exchanged Analytics_fetch_rejected.
  - exchanged Analytics_fetch_fulfilled.
Qed.

Lemma fetchInvoices_exchange (reply : HttpReply Types.InvoiceList)
    (w : World Pages_Invoices.State) :
  one_exchange (wire_of (Pages_Invoices.fetchInvoices reply) w).
Proof.
  destruct (fails_cases reply) as [Hfail|[r [-> [Hok _]]]].
  - right. destruct (fetchInvoices_rejected reply w Hfail)
      as (_ & _ & _ & _ & Hnet).
    unfold wire_of. rewrite Hnet, new_since_app. now eexists _, _, _.
  - exchanged fetchInvoices_fulfilled.
Qed.

(** The two requests of the router dashboard leave before either settles. *)
Lemma Pages_fetchDashboardData_quiet (overview_first : bool)
    (overview_reply : HttpReply Pages_Dashboard.Overview)
    (insights_reply : HttpReply Pages_Dashboard.Insights)
    (w : World Pages_Dashboard.State) :
  let run := Pages_Dashboard.fetchDashboardData overview_first
               overview_reply insights_reply in
  quiet run w = true ∧ sends run w = 2%nat.
Proof.
  intros run. subst run. unfold quiet, sends, wire_of.
  destruct (Pages_fetchDashboardData_run overview_first overview_reply
              insights_reply w)
    as (w' & -> & _ & _ & Hnet).
  cbn [snd]. rewrite Hnet, new_since_app. cbn.
  split; [|reflexivity].
  now destruct overview_first, (succeeds overview_reply),
    (succeeds insights_reply).
Qed.

Lemma Analytics_fetch_total
    (reply : HttpReply Components_DashboardAnalytics.DashboardStats)
    (w : World Components_DashboardAnalytics.State) :
  ∃ w' evs,
    Components_DashboardAnalytics.fetchDashboardData reply w = (Return tt, w')
    ∧ network w' = network w ++ evs ∧ length (requests evs) = 1%nat.
Proof.
  destruct (fails_cases reply) as [Hfail|[r [-> [Hok _]]]].
  - rewrite Analytics_fetch_rejected by exact Hfail.
    eexists _, _. split; [reflexivity|]. now split.
  - rewrite Analytics_fetch_fulfilled by exact Hok.
    eexists _, _. split; [reflexivity|]. now split.
Qed.

(** Each press of Retry is one fetch: one request at most per press. *)
Lemma Analytics_retries_count
    (replies : list (HttpReply Components_DashboardAnalytics.DashboardStats))
    (w : World Components_DashboardAnalytics.State) :
  ∃ w' evs,
    Analytics_retries replies w = (Return tt, w')
    ∧ network w' = network w ++ evs
    ∧ (length (requests evs) ≤ length replies)%nat.
Proof.
  revert w. induction replies as [|reply rest IH]; intros w.
  - exists w, []. cbn. split; [reflexivity|]. now rewrite app_nil_r.
  - cbn [Analytics_retries]. rewrite run_bind. unfold render at 1.
    destruct (Components_DashboardAnalytics.shows_error_panel (component w)).
    + rewrite run_bind.
      destruct (Analytics_fetch_total reply w) as (w1 & evs1 & -> & Hn1 & Hl1).
      destruct (IH w1) as (w2 & evs2 & -> & Hn2 & Hl2).
      exists w2, (evs1 ++ evs2). split; [reflexivity|].
      split; [now rewrite Hn2, Hn1, app_assoc|].
      unfold requests in *. rewrite omap_app, length_app. cbn [length]. lia.
    + exists w, []. cbn. split; [reflexivity|].
      split; [now rewrite app_nil_r | lia].
Qed.

Lemma Analytics_life_count
    (first : HttpReply Components_DashboardAnalytics.DashboardStats)
    (replies : list (HttpReply Components_DashboardAnalytics.DashboardStats))
    (w : World Components_DashboardAnalytics.State) :
  (sends (Analytics_life first replies) w ≤ S (length replies))%nat.
Proof.
  unfold sends, wire_of, Analytics_life. rewrite run_bind.
  destruct (Analytics_fetch_total first w) as (w1 & evs1 & -> & Hn1 & Hl1).
  destruct (Analytics_retries_count replies w1) as (w2 & evs2 & -> & Hn2 & Hl2).
  cbn [snd]. rewrite Hn2, Hn1, <- app_assoc, new_since_app.
  unfold requests in *. rewrite omap_app, length_app. lia.
Qed.

(** C7. No handler sends a request after a failure: the wire of every run
    is one exchange at most (the router dashboard sends its two requests
    before either settles), whatever the replies. A further request needs a
    further run, that is a new event: over the life of
    [DashboardAnalytics] there are no more requests than the mount and the
    presses of Retry. *)
Theorem no_request_follows_a_failure
    (now later id number : string) (answer overview_first : bool)
    (chat_reply : HttpReply Types.ChatQueryResponse)
    (gst_reply : HttpReply Types.GSTVerificationResponse)
    (list_reply : HttpReply Types.InvoiceList)
    (unit_reply : HttpReply unit)
    (stats_reply : HttpReply Components_DashboardAnalytics.DashboardStats)
    (retries : list (HttpReply Components_DashboardAnalytics.DashboardStats))
    (overview_reply : HttpReply Pages_Dashboard.Overview)
    (insights_reply : HttpReply Pages_Dashboard.Insights)
    (wc : World Components_Dashboard.State)
    (wg : World Components_GSTCompliance.State)
    (wi : World Components_Invoices.State)
    (wa : World Components_DashboardAnalytics.State)
    (wp : World Pages_Invoices.State)
    (wd : World Pages_Dashboard.State) :
  let chat := Components_Dashboard.handleSendMessage now later chat_reply in
  let gst := Components_GSTCompliance.handleVerify gst_reply in
  let load := Components_Invoices.loadInvoices list_reply in
  let download := Components_Invoices.handleDownload id number unit_reply in
  let delete := Components_Invoices.handleDelete id answer unit_reply in
  let analytics := Components_DashboardAnalytics.fetchDashboardData
                     stats_reply in
  let page_list := Pages_Invoices.fetchInvoices list_reply in
  let page_dash := Pages_Dashboard.fetchDashboardData overview_first
                     overview_reply insights_reply in
  (quiet chat wc = true ∧ (sends chat wc ≤ 1)%nat)
  ∧ (quiet gst wg = true ∧ (sends gst wg ≤ 1)%nat)
  ∧ (quiet load wi = true ∧ (sends load wi ≤ 1)%nat)
  ∧ (quiet download wi = true ∧ (sends download wi ≤ 1)%nat)
  ∧ (quiet delete wi = true ∧ (sends delete wi ≤ 1)%nat)
  ∧ (quiet analytics wa = true ∧ (sends analytics wa ≤ 1)%nat)
  ∧ (quiet page_list wp = true ∧ (sends page_list wp ≤ 1)%nat)
  ∧ (quiet page_dash wd = true ∧ sends page_dash wd = 2%nat)
  ∧ (sends (Analytics_life stats_reply retries) wa ≤ S (length retries))%nat.
Proof.
  cbv zeta. unfold quiet, sends.
  split; [apply one_exchange_quiet, handleSendMessage_exchange|].
  split; [apply one_exchange_quiet, handleVerify_exchange|].
  split; [apply one_exchange_quiet, loadInvoices_exchange|].
  split; [apply one_exchange_quiet, handleDownload_exchange|].
  split; [apply one_exchange_quiet, handleDelete_exchange|].
  split; [apply one_exchange_quiet, Analytics_fetch_exchange|].
  split; [apply one_exchange_quiet, fetchInvoices_exchange|].
  split; [apply Pages_fetchDashboardData_quiet|].
  apply Analytics_life_count.
Qed.

(** * Further properties of the code *)

(** ** Login, logout and reload in the component front end *)

Lemma signed_without_token (storage : gmap string string)
    (cfg : AxiosRequestConfig) :
  storage !! "token" = None → signed storage cfg = cfg.
Proof. intros Hnone. unfold signed. now rewrite Hnone. Qed.

Lemma signed_with_token (storage : gmap string string) (t : string)
    (cfg : AxiosRequestConfig) :
  storage !! "token" = Some t → truthy t = true →
  signed storage cfg = set_Authorization ("Bearer " +:+ t) cfg.
Proof. intros Hsome Ht. unfold signed. now rewrite Hsome, Ht. Qed.

Lemma handleLogin_run (token : string) (w : World Components_App.State) :
  Components_App.handleLogin token w =
  (Return tt,
   mkWorld (Components_App.setIsAuthenticated true (component w))
           (<["token" := token]> (localStorage w)) (href w) (console w)
           (dialogs w) (downloads w) (network w)).
Proof. unfold Components_App.handleLogin. now js_step. Qed.

Lemma handleLogout_run (w : World Components_App.State) :
  Components_App.handleLogout w =
  (Return tt,
   mkWorld (Components_App.mkState Types.AI_COPILOT false
              (Components_App.showRegister (component w)))
           (delete "token" (localStorage w)) (href w) (console w)
           (dialogs w) (downloads w) (network w)).
Proof. unfold Components_App.handleLogout. now js_step. Qed.

(** X1. [handleLogin] authenticates the session at once and stores the
    token over any earlier one, touching no other key; whether the session
    outlives a reload depends on the token: the flag after the next mount
    is true exactly when the token is not the empty string. *)
Theorem handleLogin_outlives_reload_iff_token_nonempty (token : string)
    (w : World Components_App.State) :
  let w1 := snd (Components_App.handleLogin token w) in
  let again := snd (Components_App.mount
                      (reload Components_App.initial w1)) in
  Components_App.isAuthenticated (component w1) = true
  ∧ localStorage w1 !! "token" = Some token
  ∧ (∀ key, key ≠ "token" → localStorage w1 !! key = localStorage w !! key)
  ∧ Components_App.isAuthenticated (component again) = truthy token
  ∧ (∀ cfg, signed (localStorage again) cfg
            = if truthy token
              then set_Authorization ("Bearer " +:+ token) cfg else cfg).
Proof.
  intros w1 again. subst again w1. rewrite handleLogin_run. cbn [snd].
  rewrite Components_App_mount_run.
  cbn [snd advance component localStorage reload page].
  rewrite lookup_insert_eq. cbn [truthy_opt].
  split; [reflexivity|]. split; [reflexivity|].
  split; [intros key Hkey; now apply lookup_insert_ne|].
  split; [now destruct (truthy token)|].
  intros cfg. unfold signed. now rewrite lookup_insert_eq.
Qed.

(** X2. [handleLogout] removes the token and no other key, clears the
    flag and goes back to the first screen: the login (or registration)
    form is drawn, a reload stays signed out, requests through [api] go out
    without an [Authorization] header, and the next login lands on the AI
    Copilot whatever screen was open before. *)
Theorem handleLogout_signs_out_and_resets (token : string)
    (w : World Components_App.State) :
  let w1 := snd (Components_App.handleLogout w) in
  let again := snd (Components_App.mount
                      (reload Components_App.initial w1)) in
  let back := snd (Components_App.handleLogin token w1) in
  localStorage w1 !! "token" = None
  ∧ (∀ key, key ≠ "token" → localStorage w1 !! key = localStorage w !! key)
  ∧ Components_App.behind_login (Components_App.view (component w1)) = false
  ∧ Components_App.isAuthenticated (component again) = false
  ∧ (∀ cfg, signed (localStorage w1) cfg = cfg)
  ∧ Components_App.view (component back) = Components_App.DashboardScreen.
Proof.
  intros w1 again back. subst back again w1.
  rewrite handleLogout_run. cbn [snd]. rewrite handleLogin_run.
  rewrite Components_App_mount_run.
  cbn [snd advance component localStorage reload page].
  rewrite lookup_delete_eq. cbn [truthy_opt].
  split; [reflexivity|].
  split; [intros key Hkey; now apply lookup_delete_ne|].
  split; [rewrite view_behind_login; reflexivity|].
  split; [reflexivity|].
  split; [intros cfg; apply signed_without_token, lookup_delete_eq|].
  reflexivity.
Qed.

(** ** The conversation of the chat *)

Lemma reply_content_truthy (response : Types.ChatQueryResponse) :
  truthy (Components_Dashboard.reply_content response) = true.
Proof. unfold Components_Dashboard.reply_content. now apply or_else_truthy. Qed.

Lemma error_content_truthy (error : AxiosError) :
  truthy (Components_Dashboard.error_content error) = true.
Proof. reflexivity. Qed.

(** The text the assistant answers with. *)
Lemma handleSendMessage_accepted (now later : string)
    (reply : HttpReply Types.ChatQueryResponse)
    (w : World Components_Dashboard.State) :
  blank (Components_Dashboard.inputMessage (component w)) = false →
  Components_Dashboard.loading (component w) = false →
  ∃ answer logs ok,
    truthy answer = true
    ∧ Components_Dashboard.handleSendMessage now later reply w =
      (Return tt,
       advance
         (Components_Dashboard.mkState
            (Components_Dashboard.messages (component w)
             ++ [Types.mkMessage Types.user
                   (Components_Dashboard.inputMessage (component w)) now;
                 Types.mkMessage Types.assistant answer later])
            "" false)
         logs [] []
         [Sent (signed (localStorage w)
                  (request_config POST "/chat/query"
                     [("query",
                       Components_Dashboard.inputMessage (component w))]))
               (Components_Dashboard.mkState
                  (Components_Dashboard.messages (component w)
                   ++ [Types.mkMessage Types.user
                         (Components_Dashboard.inputMessage (component w))
                         now])
                  "" true);
          Settled ok] w).
Proof.
  intros Hblank Hidle.
  destruct (fails_cases reply) as [Hfail|[r [-> [Hok _]]]].
  - rewrite handleSendMessage_rejected by assumption.
    eexists _, _, _. split; [apply error_content_truthy|].
    now rewrite <- app_assoc.
  - rewrite handleSendMessage_fulfilled by assumption.
    eexists _, _, _. split; [apply reply_content_truthy|].
    now rewrite <- app_assoc.
Qed.

(** X3. A submission the guard lets through appends two messages to the
    conversation and removes none: the user's text as typed, white space
    included, then an answer of the assistant that is never empty, whether
    the call succeeded or failed. The same text is the [query] of the one
    request sent; the field is emptied and the spinner is off at the end. *)
Theorem handleSendMessage_appends_question_and_answer (now later : string)
    (reply : HttpReply Types.ChatQueryResponse)
    (w : World Components_Dashboard.State) :
  blank (Components_Dashboard.inputMessage (component w)) = false →
  Components_Dashboard.loading (component w) = false →
  let text := Components_Dashboard.inputMessage (component w) in
  let run := Components_Dashboard.handleSendMessage now later reply in
  let st' := component (snd (run w)) in
  (∃ answer,
     truthy answer = true
     ∧ Components_Dashboard.messages st'
       = Components_Dashboard.messages (component w)
         ++ [Types.mkMessage Types.user text now;
             Types.mkMessage Types.assistant answer later])
  ∧ Components_Dashboard.inputMessage st' = ""
  ∧ Components_Dashboard.loading st' = false
  ∧ cfg_data <$> requests (wire_of run w) = [[("query", text)]].
Proof.
  intros Hblank Hidle text run st'. subst st' run text.
  destruct (handleSendMessage_accepted now later reply w Hblank Hidle)
    as (answer & logs & ok & Hanswer & Hrun).
  unfold wire_of. rewrite Hrun. cbn [snd advance component network].
  rewrite new_since_app.
  split; [now exists answer|]. split; [reflexivity|]. split; [reflexivity|].
  cbn. unfold signed.
  destruct (localStorage w !! "token") as [t|]; [|reflexivity].
  now destruct (truthy t).
Qed.

(** A question with white space around it, answered and refused. *)
Lemma handleSendMessage_appends_examples :
  let w := page (Components_Dashboard.mkState [] "  show my invoices " false)
                ∅ "http://localhost:3000/" in
  cfg_data
  <$> requests
        (wire_of (Components_Dashboard.handleSendMessage "t0" "t1"
                    (NoResponse "Network Error")) w)
  = [[("query", "  show my invoices ")]].
Proof.
  cbv zeta.
  apply (handleSendMessage_appends_question_and_answer "t0" "t1"
           (NoResponse "Network Error")
           (page (Components_Dashboard.mkState [] "  show my invoices " false)
                 ∅ "http://localhost:3000/"));
    reflexivity.
Defined.

Lemma turns_snoc (n : nat) :
  turns n ++ [Types.user; Types.assistant] = turns (S n).
Proof.
  induction n as [|n IH]; [reflexivity|].
  cbn [turns app] in *. now rewrite IH.
Qed.

(** One event keeps the shape of the conversation. *)
Lemma Chat_step_turns (ev : Chat_event) (n : nat)
    (w : World Components_Dashboard.State) :
  Components_Dashboard.loading (component w) = false →
  Types.role <$> Components_Dashboard.messages (component w) = turns n →
  ∃ w' m,
    Chat_step ev w = (Return tt, w')
    ∧ Components_Dashboard.loading (component w') = false
    ∧ Types.role <$> Components_Dashboard.messages (component w') = turns m
    ∧ (m ≤ n + submissions [ev])%nat.
Proof.
  intros Hidle Hturns. destruct ev as [value|now later reply].
  - eexists _, n. split; [reflexivity|]. cbn. split; [exact Hidle|].
    split; [exact Hturns | lia].
  - cbn [Chat_step submissions].
    destruct (blank (Components_Dashboard.inputMessage (component w)))
      eqn:Hblank.
    + rewrite handleSendMessage_stopped by now left.
      exists w, n. split; [reflexivity|]. split; [exact Hidle|].
      split; [exact Hturns | lia].
    + destruct (handleSendMessage_accepted now later reply w Hblank Hidle)
        as (answer & logs & ok & _ & ->).
      eexists _, (S n). split; [reflexivity|].
      cbn [advance component Components_Dashboard.loading
           Components_Dashboard.messages].
      split; [reflexivity|]. split; [|lia].
      rewrite fmap_app, Hturns. cbn [fmap list_fmap Types.role].
      apply turns_snoc.
Qed.

Lemma Chat_play_turns (events : list Chat_event) (n : nat)
    (w : World Components_Dashboard.State) :
  Components_Dashboard.loading (component w) = false →
  Types.role <$> Components_Dashboard.messages (component w) = turns n →
  ∃ w' m,
    play Chat_step events w = (Return tt, w')
    ∧ Components_Dashboard.loading (component w') = false
    ∧ Types.role <$> Components_Dashboard.messages (component w') = turns m
    ∧ (m ≤ n + submissions events)%nat.
Proof.
  revert n w. induction events as [|ev rest IH]; intros n w Hidle Hturns.
  - exists w, n. split; [reflexivity|]. split; [exact Hidle|].
    split; [exact Hturns | cbn; lia].
  - cbn [play]. rewrite run_bind.
    destruct (Chat_step_turns ev n w Hidle Hturns)
      as (w1 & m1 & -> & Hidle1 & Hturns1 & Hm1).
    destruct (IH m1 w1 Hidle1 Hturns1) as (w2 & m2 & -> & Hidle2 & Hturns2 & Hm2).
    exists w2, m2. split; [reflexivity|]. split; [exact Hidle2|].
    split; [exact Hturns2|]. cbn [submissions] in *.
    destruct ev; cbn [submissions] in *; lia.
Qed.

(** X4. Over every life of the chat, started empty, the conversation is a
    sequence of turns, a message of the user followed by a message of the
    assistant, with at most one turn for each submission; between events
    the spinner is off. *)
Theorem chat_is_a_sequence_of_turns (events : list Chat_event)
    (storage : gmap string string) (url : string) :
  let run := play Chat_step events
               (page Components_Dashboard.initial storage url) in
  fst run = Return tt
  ∧ Components_Dashboard.loading (component (snd run)) = false
  ∧ ∃ n, (n ≤ submissions events)%nat
         ∧ Types.role <$> Components_Dashboard.messages (component (snd run))
           = turns n.
Proof.
  intros run. subst run.
  destruct (Chat_play_turns events 0
              (page Components_Dashboard.initial storage url)
              eq_refl eq_refl)
    as (w' & m & -> & Hidle & Hturns & Hm).
  split; [reflexivity|]. split; [exact Hidle|]. now exists m.
Qed.

(** ** Spinners, panels and files *)

(** The state [fetchDashboardData] of the router front end leaves. *)
Lemma Pages_fetchDashboardData_state (overview_first : bool)
    (overview_reply : HttpReply Pages_Dashboard.Overview)
    (insights_reply : HttpReply Pages_Dashboard.Insights)
    (w : World Pages_Dashboard.State) :
  component
    (snd (Pages_Dashboard.fetchDashboardData overview_first overview_reply
            insights_reply w))
  = match overview_reply, insights_reply with
    | Response ro, Response ri =>
        if validateStatus (res_status ro) && validateStatus (res_status ri)
        then Pages_Dashboard.mkState (Some (res_data ro))
               (default [] (Pages_Dashboard.insights_member (res_data ri)))
               false
        else Pages_Dashboard.setLoading false (component w)
    | _, _ => Pages_Dashboard.setLoading false (component w)
    end.
Proof.
  unfold Pages_Dashboard.fetchDashboardData.
  rewrite run_bind, apiClient_dispatch_run, run_bind, apiClient_dispatch_run.
  cbn [snd localStorage component href console dialogs downloads network].
  unfold Pages_Dashboard.promise_all2.
  destruct overview_first;
    destruct (fails_cases overview_reply) as [Ho|[ro [-> [Ho Ho']]]];
    destruct (fails_cases insights_reply) as [Hi|[ri [-> [Hi Hi']]]];
    repeat first
      [ rewrite settled_data_rejected by assumption
      | rewrite settled_data_fulfilled by assumption
      | rewrite resume_rejected
      | rewrite resume_fulfilled ];
    frame;
    try (destruct overview_reply as [ro|]; cbn in Ho;
         [apply negb_true_iff in Ho|]);
    try (destruct insights_reply as [ri|]; cbn in Hi;
         [apply negb_true_iff in Hi|]);
    rewrite ?Ho, ?Hi; cbn [andb]; rewrite ?andb_false_r; reflexivity.
Qed.

(** X5. No spinner is left on: a handler that sets its [loading] flag
    clears it in its [finally], on success and on failure alike. The
    fetches end with the flag off; the GST form ends with it off unless the
    guard stopped the run, which leaves it as it was; the chat, which runs
    only with the flag off, ends with the flag as it found it. *)
Theorem loading_is_off_after_every_run (now later : string)
    (overview_first : bool)
    (chat_reply : HttpReply Types.ChatQueryResponse)
    (gst_reply : HttpReply Types.GSTVerificationResponse)
    (list_reply : HttpReply Types.InvoiceList)
    (stats_reply : HttpReply Components_DashboardAnalytics.DashboardStats)
    (overview_reply : HttpReply Pages_Dashboard.Overview)
    (insights_reply : HttpReply Pages_Dashboard.Insights)
    (wc : World Components_Dashboard.State)
    (wg : World Components_GSTCompliance.State)
    (wi : World Components_Invoices.State)
    (wa : World Components_DashboardAnalytics.State)
    (wp : World Pages_Invoices.State)
    (wd : World Pages_Dashboard.State) :
  Components_Dashboard.loading
    (component
       (snd (Components_Dashboard.handleSendMessage now later chat_reply wc)))
  = Components_Dashboard.loading (component wc)
  ∧ Components_GSTCompliance.loading
      (component (snd (Components_GSTCompliance.handleVerify gst_reply wg)))
    = blank (Components_GSTCompliance.gstin (component wg))
      && Components_GSTCompliance.loading (component wg)
  ∧ Components_Invoices.loading
      (component (snd (Components_Invoices.loadInvoices list_reply wi)))
    = false
  ∧ Components_DashboardAnalytics.loading
      (component
         (snd (Components_DashboardAnalytics.fetchDashboardData
                 stats_reply wa)))
    = false
  ∧ Pages_Invoices.loading
      (component (snd (Pages_Invoices.fetchInvoices list_reply wp))) = false
  ∧ Pages_Dashboard.loading
      (component
         (snd (Pages_Dashboard.fetchDashboardData overview_first
                 overview_reply insights_reply wd)))
    = false.
Proof.
  split_and!.
  - destruct (blank (Components_Dashboard.inputMessage (component wc)))
      eqn:Hblank;
      [now rewrite handleSendMessage_stopped by now left|].
    destruct (Components_Dashboard.loading (component wc)) eqn:Hidle.
    + rewrite handleSendMessage_stopped by now right. exact Hidle.
    + destruct (handleSendMessage_accepted now later chat_reply wc
                  Hblank Hidle) as (answer & logs & ok & _ & ->).
      reflexivity.
  - destruct (blank (Components_GSTCompliance.gstin (component wg)))
      eqn:Hblank; [now rewrite handleVerify_blank|].
    destruct (fails_cases gst_reply) as [Hfail|[r [-> [Hok _]]]].
    + now rewrite handleVerify_rejected.
    + now rewrite handleVerify_fulfilled.
  - destruct (fails_cases list_reply) as [Hfail|[r [-> [Hok _]]]].
    + now rewrite loadInvoices_rejected.
    + now rewrite loadInvoices_fulfilled.
  - destruct (fails_cases stats_reply) as [Hfail|[r [-> [Hok _]]]].
    + now rewrite Analytics_fetch_rejected.
    + now rewrite Analytics_fetch_fulfilled.
  - destruct (fails_cases list_reply) as [Hfail|[r [-> [Hok _]]]].
    + destruct (fetchInvoices_rejected list_reply wp Hfail)
        as (_ & -> & _). reflexivity.
    + now rewrite fetchInvoices_fulfilled.
  - rewrite Pages_fetchDashboardData_state.
    destruct overview_reply as [ro|], insights_reply as [ri|];
      try reflexivity.
    now destruct (validateStatus (res_status ro) && validateStatus (res_status ri)).
Qed.

(** X6. The dashboard of the router front end updates all or nothing: the
    overview and the insights are both replaced when both calls succeed,
    and both stay as they were when either fails, even if the other
    answered. *)
Theorem fetchDashboardData_updates_all_or_nothing (overview_first : bool)
    (overview_reply : HttpReply Pages_Dashboard.Overview)
    (insights_reply : HttpReply Pages_Dashboard.Insights)
    (w : World Pages_Dashboard.State) :
  let st' := component
               (snd (Pages_Dashboard.fetchDashboardData overview_first
                       overview_reply insights_reply w)) in
  if fails overview_reply || fails insights_reply
  then Pages_Dashboard.overview st' = Pages_Dashboard.overview (component w)
       ∧ Pages_Dashboard.insights st'
         = Pages_Dashboard.insights (component w)
  else ∃ ro ri,
         overview_reply = Response ro ∧ insights_reply = Response ri
         ∧ Pages_Dashboard.overview st' = Some (res_data ro)
         ∧ Pages_Dashboard.insights st'
           = default [] (Pages_Dashboard.insights_member (res_data ri)).
Proof.
  intros st'. subst st'. rewrite Pages_fetchDashboardData_state.
  destruct overview_reply as [ro|mo], insights_reply as [ri|mi];
    cbn [fails orb]; rewrite ?orb_true_r; try (now split).
  destruct (validateStatus (res_status ro)),
    (validateStatus (res_status ri)); cbn; try (now split).
  now exists ro, ri.
Qed.

(** X7. After a fetch of [DashboardAnalytics] the panel with the Retry
    button is drawn exactly when the fetch failed. A success stores the
    body as the statistics and clears an earlier error; a failure sets an
    error that is not empty and keeps the statistics of before. *)
Theorem fetchDashboardData_offers_retry_iff_failed
    (reply : HttpReply Components_DashboardAnalytics.DashboardStats)
    (w : World Components_DashboardAnalytics.State) :
  let st' := component
               (snd (Components_DashboardAnalytics.fetchDashboardData
                       reply w)) in
  Components_DashboardAnalytics.shows_error_panel st' = fails reply
  ∧ truthy_opt (Components_DashboardAnalytics.error st') = fails reply
  ∧ (fails reply = false → Components_DashboardAnalytics.error st' = None)
  ∧ Components_DashboardAnalytics.stats st'
    = match reply with
      | Response r =>
          if validateStatus (res_status r) then Some (res_data r)
          else Components_DashboardAnalytics.stats (component w)
      | NoResponse _ => Components_DashboardAnalytics.stats (component w)
      end.
Proof.
  intros st'. subst st'.
  destruct (fails_cases reply) as [Hfail|[r [-> [Hok Hfail]]]].
  - rewrite Analytics_fetch_rejected by exact Hfail. rewrite Hfail.
    unfold Components_DashboardAnalytics.shows_error_panel.
    cbn [snd advance component Components_DashboardAnalytics.loading
         Components_DashboardAnalytics.error
         Components_DashboardAnalytics.stats negb andb truthy_opt].
    split; [now apply or_else_truthy|].
    split; [now apply or_else_truthy|]. split; [discriminate|].
    destruct reply as [r|message]; cbn in Hfail; [|reflexivity].
    apply negb_true_iff in Hfail. now rewrite Hfail.
  - rewrite Analytics_fetch_fulfilled by exact Hok. rewrite Hfail, Hok.
    now split_and!.
Qed.

(** ** What goes out with a request *)

Lemma authorizations_signed {S} (storage : gmap string string)
    (cfg : AxiosRequestConfig) (st : S) (ok : bool) :
  cfg_headers cfg !! "Authorization" = None →
  authorizations [Sent (signed storage cfg) st; Settled ok]
  = [match storage !! "token" with
     | Some t => if truthy t then Some ("Bearer " +:+ t) else None
     | None => None
     end].
Proof.
  intros Hnone. unfold authorizations, signed. cbn.
  destruct (storage !! "token") as [t|]; [|now rewrite Hnone].
  destruct (truthy t); [|now rewrite Hnone].
  cbn. now rewrite lookup_insert_eq.
Qed.

(** X8. [DashboardAnalytics] writes its own [Authorization] header, and
    writes it always: with no token stored the request goes out with
    [Bearer null], where a request through [api] (here the list of
    invoices) goes out without the header. *)
Theorem analytics_request_is_always_signed
    (stats_reply : HttpReply Components_DashboardAnalytics.DashboardStats)
    (list_reply : HttpReply Types.InvoiceList)
    (wa : World Components_DashboardAnalytics.State)
    (wi : World Components_Invoices.State) :
  authorizations
    (wire_of (Components_DashboardAnalytics.fetchDashboardData stats_reply)
             wa)
  = [Some ("Bearer " +:+ default "null" (localStorage wa !! "token"))]
  ∧ authorizations (wire_of (Components_Invoices.loadInvoices list_reply) wi)
    = [match localStorage wi !! "token" with
       | Some t => if truthy t then Some ("Bearer " +:+ t) else None
       | None => None
       end].
Proof.
  split.
  - unfold wire_of.
    destruct (fails_cases stats_reply) as [Hfail|[r [-> [Hok _]]]].
    + rewrite Analytics_fetch_rejected by exact Hfail.
      cbn [snd advance network]. rewrite new_since_app.
      unfold authorizations. cbn. now rewrite lookup_insert_eq.
    + rewrite Analytics_fetch_fulfilled by exact Hok.
      cbn [snd advance network]. rewrite new_since_app.
      unfold authorizations. cbn. now rewrite lookup_insert_eq.
  - unfold wire_of.
    destruct (fails_cases list_reply) as [Hfail|[r [-> [Hok _]]]].
    + rewrite loadInvoices_rejected by exact Hfail.
      cbn [snd advance network]. rewrite new_since_app.
      now apply authorizations_signed.
    + rewrite loadInvoices_fulfilled by exact Hok.
      cbn [snd advance network]. rewrite new_since_app.
      now apply authorizations_signed.
Qed.

(** X9. [handleDownload] of [Invoices] offers one file when the call
    succeeds and none when it fails; the file is named after the id of the
    invoice, and the invoice number the row passes along plays no part.
    The list, the spinner and the error stay as they were. *)
Theorem handleDownload_names_the_file_by_id (invoiceId number other : string)
    (reply : HttpReply unit) (w : World Components_Invoices.State) :
  let w' := snd (Components_Invoices.handleDownload invoiceId number reply w)
  in
  new_since (downloads w) (downloads w')
  = (if succeeds reply then ["invoice_" +:+ invoiceId +:+ ".pdf"] else [])
  ∧ component w' = component w
  ∧ Components_Invoices.handleDownload invoiceId number reply w
    = Components_Invoices.handleDownload invoiceId other reply w.
Proof.
  intros w'. subst w'. unfold succeeds.
  destruct (fails_cases reply) as [Hfail|[r [-> [Hok Hfail]]]]; rewrite Hfail.
  - rewrite !handleDownload_rejected by exact Hfail.
    cbn [snd advance downloads component negb].
    now rewrite app_nil_r, new_since_same.
  - rewrite !handleDownload_fulfilled by exact Hok.
    cbn [snd advance downloads component negb].
    now rewrite new_since_app.
Qed.

(** X10. [loadInvoices] replaces the list by the one in the body, or by
    the empty list when the body has no [invoices] member, and leaves the
    error message as it was; on failure it keeps the list and sets an
    error that is not empty. *)
Theorem loadInvoices_replaces_or_keeps (reply : HttpReply Types.InvoiceList)
    (w : World Components_Invoices.State) :
  let st' := component (snd (Components_Invoices.loadInvoices reply w)) in
  match reply with
  | Response r =>
      if validateStatus (res_status r)
      then Components_Invoices.invoices st'
           = default [] (Types.invoices_member (res_data r))
           ∧ Components_Invoices.error st'
             = Components_Invoices.error (component w)
      else Components_Invoices.invoices st'
           = Components_Invoices.invoices (component w)
           ∧ Components_Invoices.shows_error_panel st' = true
  | NoResponse _ =>
      Components_Invoices.invoices st'
      = Components_Invoices.invoices (component w)
      ∧ Components_Invoices.shows_error_panel st' = true
  end.
Proof.
  intros st'. subst st'.
  destruct (fails_cases reply) as [Hfail|[r [-> [Hok Hfail]]]].
  - rewrite loadInvoices_rejected by exact Hfail.
    unfold Components_Invoices.shows_error_panel.
    cbn [snd advance component Components_Invoices.invoices
         Components_Invoices.error].
    destruct reply as [r|message]; cbn in Hfail.
    + apply negb_true_iff in Hfail. rewrite Hfail.
      split; [reflexivity | now apply or_else_truthy].
    + split; [reflexivity | now apply or_else_truthy].
  - rewrite loadInvoices_fulfilled by exact Hok. rewrite Hok. now split.
Qed.

(** ** The colours of the status badge *)

(** Membership in a list that is written out. *)
Ltac listed :=
  rewrite ?elem_of_cons, ?elem_of_nil in *;
  intuition (try congruence; try discriminate).

Lemma lower_unit_idempotent (c : ascii) :
  lower_unit (lower_unit c) = lower_unit c.
Proof. destruct c as [[] [] [] [] [] [] [] []]; reflexivity. Qed.

Lemma toLowerCase_idempotent (s : string) :
  toLowerCase (toLowerCase s) = toLowerCase s.
Proof.
  induction s as [|c rest IH]; [reflexivity|].
  cbn [toLowerCase]. now rewrite lower_unit_idempotent, IH.
Qed.

Lemma toLowerCase_length (s : string) :
  String.length (toLowerCase s) = String.length s.
Proof. induction s as [|c rest IH]; cbn; [reflexivity | now rewrite IH]. Qed.

(** X11. [getStatusColor] does not look at the case of the letters of the
    status: a status and its lower-case form get the same colours. The
    badge is green exactly for the statuses that read [paid] once in lower
    case, and gray exactly for those that read neither [paid], [pending]
    nor [overdue]. *)
Theorem getStatusColor_ignores_case (status : string) :
  Components_Invoices.getStatusColor (toLowerCase status)
  = Components_Invoices.getStatusColor status
  ∧ (Components_Invoices.getStatusColor status = "bg-green-100 text-green-800"
     ↔ toLowerCase status = "paid")
  ∧ (Components_Invoices.getStatusColor status = "bg-gray-100 text-gray-800"
     ↔ toLowerCase status ∉ ["paid"; "pending"; "overdue"]).
Proof.
  unfold Components_Invoices.getStatusColor. rewrite toLowerCase_idempotent.
  split; [reflexivity|]. cbv zeta.
  destruct (String.eqb_spec (toLowerCase status) "paid") as [Hpaid|Hpaid].
  { rewrite Hpaid. split; [easy|]. split; [discriminate|].
    intros Hnot. exfalso. apply Hnot. listed. }
  destruct (String.eqb_spec (toLowerCase status) "pending") as [Hpen|Hpen].
  { rewrite Hpen. split; [split; discriminate|]. split; [discriminate|].
    intros Hnot. exfalso. apply Hnot. listed. }
  destruct (String.eqb_spec (toLowerCase status) "overdue") as [Hover|Hover].
  { rewrite Hover. split; [split; discriminate|]. split; [discriminate|].
    intros Hnot. exfalso. apply Hnot. listed. }
  split; [split; [discriminate | intros ?; contradiction]|].
  split; [intros _ | reflexivity]. listed.
Qed.

(** X12. The two invoice pages colour the same status differently when it
    is not written in lower case: a status that reads [paid] only once its
    capitals are lowered is green in the component front end and yellow,
    the colour of a pending invoice, on the page of the router front end,
    which compares the status as it stands. *)
Theorem status_badges_disagree_on_capitals (status : string) :
  toLowerCase status = "paid" → status ≠ "paid" →
  Components_Invoices.getStatusColor status = "bg-green-100 text-green-800"
  ∧ Pages_Invoices.statusClass status = "bg-yellow-100 text-yellow-800".
Proof.
  intros Hlower Hexact. split.
  - unfold Components_Invoices.getStatusColor. now rewrite Hlower.
  - unfold Pages_Invoices.statusClass.
    destruct (String.eqb_spec status "paid") as [Hpaid|_]; [contradiction|].
    destruct (String.eqb_spec status "overdue") as [Hover|_]; [|reflexivity].
    rewrite Hover in Hlower. discriminate.
Qed.

(** A back end that answers [Paid]. *)
Lemma status_badges_disagree_on_Paid :
  Components_Invoices.getStatusColor "Paid" = "bg-green-100 text-green-800"
  ∧ Pages_Invoices.statusClass "Paid" = "bg-yellow-100 text-yellow-800".
Proof.
  apply status_badges_disagree_on_capitals; [reflexivity | discriminate].
Defined.

(** ** The routes and the session of the router front end *)

Lemma Router_mount_after_reload {S} (w : World S) :
  component (snd (Router_App.mount (reload Router_App.initial w)))
  = truthy_opt (localStorage w !! "token").
Proof.
  unfold Router_App.mount. now rewrite Router_App_checkAuth_run.
Qed.



(** X14. A 401 received through [apiClient] signs the user out for good:
    the page is sent to [/login], where the login form is drawn; the [App]
    that mounts there finds no token, so that every guarded route
    redirects, and the requests that follow carry no [Authorization]
    header. *)
Theorem a_401_signs_the_router_user_out {S D} (cfg : AxiosRequestConfig)
    (data : D) (detail : option string) (w : World S) :
  let w1 := snd (Services_apiClient.request cfg
                   (Response (mkResponse 401 data detail)) w) in
  let flag := component (snd (Router_App.mount
                                (reload Router_App.initial w1))) in
  href w1 = "/login"
  ∧ localStorage w1 !! "token" = None
  ∧ flag = false
  ∧ Router_App.route flag (href w1) = Router_App.Login
  ∧ (∀ path, Router_App.behind_login (Router_App.route flag path) = false)
  ∧ (∀ next, signed (localStorage w1) next = next).
Proof.
  intros w1 flag. subst flag. rewrite Router_mount_after_reload. subst w1.
  rewrite apiClient_request_split, apiClient_dispatch_run. cbn [snd].
  match goal with
  | |- context [Services_apiClient.settled ?reply ?w0] =>
      pose proof (apiClient_settled_storage reply w0) as Hout
  end.
  cbv zeta in Hout. cbn [res_status] in Hout.
  destruct (decide (401 = 401)) as [_|Hne]; [|contradiction].
  cbn [localStorage href] in Hout. destruct Hout as [Hstore Hhref].
  rewrite Hstore, Hhref, lookup_delete_eq. cbn [truthy_opt].
  split; [reflexivity|]. split; [reflexivity|]. split; [reflexivity|].
  split; [reflexivity|].
  split; [|intros next; apply signed_without_token, lookup_delete_eq].
  intros path. destruct (Router_App.behind_login (Router_App.route false path))
    eqn:Hbehind; [|reflexivity].
  now apply route_behind_login in Hbehind.
Qed.

(** ** [authService] *)

Lemma remember_run {S U} (stringify : U → string)
    (data : Services_apiClient.AuthData U) (w : World S) :
  Services_apiClient.remember stringify data w =
  (Return tt,
   mkWorld (component w)
     (match Services_apiClient.auth_access_token data with
      | Some t =>
          if truthy t
          then <["user" := stringify (Services_apiClient.auth_user data)]>
                 (<["token" := t]> (localStorage w))
          else localStorage w
      | None => localStorage w
      end)
     (href w) (console w) (dialogs w) (downloads w) (network w)).
Proof.
  unfold Services_apiClient.remember. destruct w.
  destruct (Services_apiClient.auth_access_token data) as [t|];
    [destruct (truthy t)|]; now js_step.
Qed.

(** What [authService.login] returns and leaves in the storage. *)
Lemma authService_login_run {S U} (stringify : U → string)
    (email password : string)
    (reply : HttpReply (Services_apiClient.AuthData U)) (w : World S) :
  let run := Services_apiClient.authService_login stringify email password
               reply w in
  match reply with
  | Response r =>
      if validateStatus (res_status r)
      then fst run = Return (res_data r)
           ∧ localStorage (snd run)
             = match Services_apiClient.auth_access_token (res_data r) with
               | Some t =>
                   if truthy t
                   then <["user" := stringify
                                      (Services_apiClient.auth_user
                                         (res_data r))]>
                          (<["token" := t]> (localStorage w))
                   else localStorage w
               | None => localStorage w
               end
           ∧ href (snd run) = href w
      else fst run = Throw (rejection reply)
           ∧ localStorage (snd run)
             = (if decide (res_status r = 401)
                then delete "token" (localStorage w) else localStorage w)
  | NoResponse _ =>
      fst run = Throw (rejection reply)
      ∧ localStorage (snd run) = localStorage w
  end.
Proof.
  intros run. subst run. unfold Services_apiClient.authService_login.
  rewrite run_bind.
  destruct (fails_cases reply) as [Hfail|[r [-> [Hok Hfail]]]].
  - rewrite apiClient_request_rejected by exact Hfail.
    unfold after_rejection, error_status.
    destruct reply as [r|message]; cbn in Hfail.
    + apply negb_true_iff in Hfail. rewrite Hfail. cbn [rejection err_response
        err_status fmap option_fmap option_map].
      destruct (decide (res_status r = 401)) as [H401|Hother].
      * rewrite decide_True by congruence. now split.
      * rewrite decide_False by congruence. now split.
    + cbn [rejection err_response fmap option_fmap option_map].
      rewrite decide_False by discriminate. now split.
  - rewrite apiClient_request_fulfilled by exact Hok. rewrite Hok.
    rewrite run_bind, remember_run. now split_and!.
Qed.

(** X15. [authService.login] stores the token and the user when the call
    succeeds with an [access_token] that is not empty, and stores nothing
    otherwise; it catches nothing, so a failure reaches the caller as the
    error of axios. A login refused with 401 goes through the response
    interceptor like any call: a token stored earlier is removed.
    [authService.register] leaves the same storage for the same reply. *)
Theorem authService_login_stores_a_nonempty_token {S U}
    (stringify : U → string) (email password full_name : string)
    (reply : HttpReply (Services_apiClient.AuthData U)) (w : World S) :
  let run := Services_apiClient.authService_login stringify email password
               reply w in
  let registered := Services_apiClient.authService_register stringify email
                      password full_name reply w in
  match reply with
  | Response r =>
      if validateStatus (res_status r)
      then fst run = Return (res_data r)
           ∧ localStorage (snd run)
             = match Services_apiClient.auth_access_token (res_data r) with
               | Some t =>
                   if truthy t
                   then <["user" := stringify
                                      (Services_apiClient.auth_user
                                         (res_data r))]>
                          (<["token" := t]> (localStorage w))
                   else localStorage w
               | None => localStorage w
               end
      else fst run = Throw (rejection reply)
           ∧ localStorage (snd run)
             = (if decide (res_status r = 401)
                then delete "token" (localStorage w) else localStorage w)
  | NoResponse _ =>
      fst run = Throw (rejection reply)
      ∧ localStorage (snd run) = localStorage w
  end
  ∧ fst registered = fst run
  ∧ localStorage (snd registered) = localStorage (snd run).
Proof.
  intros run registered. split.
  - pose proof (authService_login_run stringify email password reply w)
      as Hrun.
    cbv zeta in Hrun. subst run.
    destruct reply as [r|message]; [|exact Hrun].
    destruct (validateStatus (res_status r)); [|exact Hrun].
    destruct Hrun as (Hret & Hstore & _). now split.
  - subst run registered.
    unfold Services_apiClient.authService_login,
      Services_apiClient.authService_register.
    rewrite !run_bind.
    destruct (fails_cases reply) as [Hfail|[r [-> [Hok Hfail]]]].
    + rewrite !apiClient_request_rejected by exact Hfail.
      unfold after_rejection. now case_decide.
    + rewrite !apiClient_request_fulfilled by exact Hok.
      rewrite !run_bind, !remember_run. now split.
Qed.

(** X16. A login that succeeded outlives the reload: with the token [t]
    in the body, the router [App] that mounts next is authenticated and
    the requests that follow carry [Bearer t]. The [user] entry holds the
    text written for the [user] member, and [getCurrentUser] parses it:
    it returns the value when the text is JSON, [null] when the text is
    empty, and throws the [SyntaxError] of [JSON.parse] when it is not
    JSON, as for a body without a [user] member, whose text is
    [undefined]. *)
Theorem authService_login_then_reload {S U V} (stringify : U → string)
    (parse : string → Services_apiClient.Parsed V)
    (email password t : string)
    (r : HttpResponse (Services_apiClient.AuthData U)) (w : World S) :
  validateStatus (res_status r) = true →
  Services_apiClient.auth_access_token (res_data r) = Some t →
  truthy t = true →
  let w1 := snd (Services_apiClient.authService_login stringify email
                   password (Response r) w) in
  let text := stringify (Services_apiClient.auth_user (res_data r)) in
  component (snd (Router_App.mount (reload Router_App.initial w1))) = true
  ∧ (∀ cfg, signed (localStorage w1) cfg
            = set_Authorization ("Bearer " +:+ t) cfg)
  ∧ localStorage w1 !! "user" = Some text
  ∧ fst (Services_apiClient.authService_getCurrentUser parse w1)
    = (if truthy text
       then match parse text with
            | Services_apiClient.Value u => Return (Some u)
            | Services_apiClient.SyntaxError message =>
                Throw (mkError message None)
            end
       else Return None).
Proof.
  intros Hok Htoken Ht w1 text.
  pose proof (authService_login_run stringify email password (Response r) w)
    as Hrun.
  cbv beta iota zeta in Hrun. rewrite Hok, Htoken, Ht in Hrun.
  destruct Hrun as (_ & Hstore & _). subst w1.
  rewrite Router_mount_after_reload.
  unfold Services_apiClient.authService_getCurrentUser. rewrite run_bind.
  unfold localStorage_getItem. rewrite Hstore.
  rewrite lookup_insert_eq, lookup_insert_ne by discriminate.
  rewrite lookup_insert_eq. cbn [truthy_opt]. fold text.
  split; [exact Ht|]. split; [|split; [reflexivity|]].
  - intros cfg. apply signed_with_token; [|exact Ht].
    rewrite lookup_insert_ne by discriminate. apply lookup_insert_eq.
  - destruct (truthy text); [|reflexivity].
    rewrite run_bind. unfold Services_apiClient.JSON_parse.
    now destruct (parse text).
Qed.

(** A login answered with a token and no [user] member: the session is
    there after the reload, and [getCurrentUser] throws. *)
Lemma authService_login_then_reload_example :
  let stringify := λ user : option Z, from_option pretty "undefined" user in
  let parse := λ text : string,
    if String.eqb text "7" then Services_apiClient.Value 7
    else Services_apiClient.SyntaxError
           "Unexpected token u in JSON at position 0" in
  let r := mkResponse 200 (Services_apiClient.mkAuthData (Some "abc") None)
                      None in
  let w := page tt ∅ "http://localhost:3000/login" in
  let w1 := snd (Services_apiClient.authService_login stringify
                   "asha@example.com" "secret" (Response r) w) in
  component (snd (Router_App.mount (reload Router_App.initial w1))) = true
  ∧ localStorage w1 !! "user" = Some "undefined"
  ∧ fst (Services_apiClient.authService_getCurrentUser parse w1)
    = Throw (mkError "Unexpected token u in JSON at position 0" None).
Proof.
  cbv zeta.
  destruct (authService_login_then_reload
              (λ user : option Z, from_option pretty "undefined" user)
              (λ text : string,
                 if String.eqb text "7" then Services_apiClient.Value 7
                 else Services_apiClient.SyntaxError
                        "Unexpected token u in JSON at position 0")
              "asha@example.com" "secret" "abc"
              (mkResponse 200
                 (Services_apiClient.mkAuthData (Some "abc") None) None)
              (page tt ∅ "http://localhost:3000/login")
              eq_refl eq_refl eq_refl)
    as (Hmount & _ & Huser & Hcurrent).
  split; [exact Hmount|]. split; [exact Huser | exact Hcurrent].
Defined.

(** X17. [authService.logout] removes the token and the user and no other
    key, and sends the page to [/login]: afterwards [getCurrentUser] is
    [null], the [App] that mounts is not authenticated, and requests carry
    no [Authorization] header. *)
Theorem authService_logout_forgets_the_session {S U}
    (parse : string → Services_apiClient.Parsed U) (w : World S) :
  let w1 := snd (Services_apiClient.authService_logout w) in
  href w1 = "/login"
  ∧ localStorage w1 !! "token" = None
  ∧ localStorage w1 !! "user" = None
  ∧ (∀ key, key ≠ "token" → key ≠ "user" →
            localStorage w1 !! key = localStorage w !! key)
  ∧ fst (Services_apiClient.authService_getCurrentUser parse w1) = Return None
  ∧ component (snd (Router_App.mount (reload Router_App.initial w1))) = false
  ∧ (∀ cfg, signed (localStorage w1) cfg = cfg).
Proof.
  intros w1. subst w1. rewrite Router_mount_after_reload.
  unfold Services_apiClient.authService_logout,
    Services_apiClient.authService_getCurrentUser.
  js_step.
  rewrite lookup_delete_ne by discriminate. rewrite !lookup_delete_eq.
  cbn [truthy_opt]. split_and!; try reflexivity.
  - intros key Htoken Huser. now rewrite !lookup_delete_ne.
  - intros cfg. apply signed_without_token.
    rewrite lookup_delete_ne by discriminate. apply lookup_delete_eq.
Qed.

(** ** [authAPI] and the service calls *)

Lemma axios_post_run {S D} (cfg : AxiosRequestConfig) (reply : HttpReply D)
    (w : World S) :
  axios_post cfg reply w = axios_get cfg reply w.
Proof. reflexivity. Qed.

(** X18. The login and the registration of the component front end go out
    with the global [axios], past the interceptor of [api]: whatever token
    is stored, the request carries no [Authorization] header, the storage
    is neither read nor written, and a failure reaches the caller as the
    error of axios. The login is a form under [username] and [password];
    the registration leaves a missing business name out of its body. *)
Theorem authAPI_goes_past_the_interceptor {S} (email password : string)
    (businessName : option string) (reply : HttpReply Types.LoginResponse)
    (w : World S) :
  let login := Services_api.authAPI_login email password reply w in
  let register := Services_api.authAPI_register email password businessName
                    reply w in
  authorizations (new_since (network w) (network (snd login))) = [None]
  ∧ authorizations (new_since (network w) (network (snd register))) = [None]
  ∧ cfg_data <$> requests (new_since (network w) (network (snd login)))
    = [[("username", email); ("password", password)]]
  ∧ cfg_data <$> requests (new_since (network w) (network (snd register)))
    = [[("email", email); ("password", password)]
       ++ match businessName with
          | Some name => [("business_name", name)]
          | None => []
          end]
  ∧ localStorage (snd login) = localStorage w
  ∧ localStorage (snd register) = localStorage w
  ∧ fst login = (match reply with
                 | Response r =>
                     if validateStatus (res_status r)
                     then Return (res_data r) else Throw (rejection reply)
                 | NoResponse _ => Throw (rejection reply)
                 end)
  ∧ fst register = fst login.
Proof.
  intros login register. subst login register.
  unfold Services_api.authAPI_login, Services_api.authAPI_register.
  rewrite !run_bind, !axios_post_run.
  destruct (fails_cases reply) as [Hfail|[r [-> [Hok Hfail]]]].
  - rewrite !axios_get_rejected by exact Hfail.
    cbn [fst snd advance network localStorage]. rewrite !new_since_app.
    split_and!; try reflexivity.
    + unfold Services_api.authAPI_register_config, with_member. cbn.
      now destruct businessName.
    + destruct reply as [r|message]; [|reflexivity]. cbn in Hfail.
      apply negb_true_iff in Hfail. now rewrite Hfail.
  - rewrite !axios_get_fulfilled by exact Hok. unfold mret, Js_ret.
    cbn [fst snd advance network localStorage]. rewrite !new_since_app.
    rewrite Hok. split_and!; try reflexivity.
    unfold Services_api.authAPI_register_config, with_member. cbn.
    now destruct businessName.
Qed.

(** A service call that returns the body of its one exchange. *)
Lemma api_body_run {S D} (cfg : AxiosRequestConfig) (reply : HttpReply D)
    (w : World S) :
  let run := (response ← Services_api.request cfg reply;
              mret (res_data response)) w in
  caught (fst run) = succeeds reply
  ∧ requests (new_since (network w) (network (snd run)))
    = [signed (localStorage w) cfg]
  ∧ localStorage (snd run) = localStorage w ∧ href (snd run) = href w.
Proof.
  intros run. subst run. rewrite run_bind. unfold succeeds.
  destruct (fails_cases reply) as [Hfail|[r [-> [Hok Hfail]]]]; rewrite Hfail.
  - rewrite api_request_rejected by exact Hfail.
    cbn [fst snd advance network]. now rewrite new_since_app.
  - rewrite api_request_fulfilled by exact Hok. unfold mret, Js_ret.
    cbn [fst snd advance network]. now rewrite new_since_app.
Qed.

Lemma apiClient_body_run {S D} (cfg : AxiosRequestConfig)
    (reply : HttpReply D) (w : World S) :
  let run := (response ← Services_apiClient.request cfg reply;
              mret (res_data response)) w in
  caught (fst run) = succeeds reply
  ∧ requests (new_since (network w) (network (snd run)))
    = [signed (localStorage w) cfg].
Proof.
  intros run. subst run. rewrite run_bind. unfold succeeds.
  destruct (fails_cases reply) as [Hfail|[r [-> [Hok Hfail]]]]; rewrite Hfail.
  - rewrite apiClient_request_rejected by exact Hfail.
    cbn [fst snd]. rewrite network_after_rejection.
    cbn [advance network]. now rewrite new_since_app.
  - rewrite apiClient_request_fulfilled by exact Hok. unfold mret, Js_ret.
    cbn [fst snd advance network]. now rewrite new_since_app.
Qed.

(** X19. The service functions catch nothing and retry nothing: each one
    sends a single request, signed by the interceptor of its client, and
    completes normally exactly when that exchange succeeds; otherwise the
    error is thrown to the caller. Those of [api] leave the storage and
    the location as they were. *)
Theorem service_calls_throw_what_the_exchange_rejects {S D}
    (any_reply : HttpReply D)
    (query invoiceId : string) (id : Z) (fields : list (string * string))
    (status : option string)
    (chat_reply : HttpReply Types.ChatQueryResponse)
    (list_reply : HttpReply Types.InvoiceList)
    (invoice_reply : HttpReply Types.Invoice)
    (customers_reply : HttpReply (list Types.Customer))
    (customer_reply : HttpReply Types.Customer)
    (w : World S) :
  let sent {A} (run : Completion A * World S) :=
    requests (new_since (network w) (network (snd run))) in
  let kept {A} (run : Completion A * World S) :=
    localStorage (snd run) = localStorage w ∧ href (snd run) = href w in
  (let run := Services_api.chatAPI_sendQuery query chat_reply w in
   caught (fst run) = succeeds chat_reply ∧ length (sent run) = 1%nat
   ∧ kept run)
  ∧ (let run := Services_api.invoiceAPI_list list_reply w in
     caught (fst run) = succeeds list_reply ∧ length (sent run) = 1%nat
     ∧ kept run)
  ∧ (let run := Services_api.invoiceAPI_get id invoice_reply w in
     caught (fst run) = succeeds invoice_reply ∧ length (sent run) = 1%nat
     ∧ kept run)
  ∧ (let run := Services_api.invoiceAPI_create fields invoice_reply w in
     caught (fst run) = succeeds invoice_reply ∧ length (sent run) = 1%nat
     ∧ kept run)
  ∧ (let run := Services_api.customerAPI_list customers_reply w in
     caught (fst run) = succeeds customers_reply ∧ length (sent run) = 1%nat
     ∧ kept run)
  ∧ (let run := Services_api.customerAPI_create fields customer_reply w in
     caught (fst run) = succeeds customer_reply ∧ length (sent run) = 1%nat
     ∧ kept run)
  ∧ (let run := Services_api.dashboardAPI_getStats any_reply w in
     caught (fst run) = succeeds any_reply ∧ length (sent run) = 1%nat
     ∧ kept run)
  ∧ (let run := Services_apiClient.invoiceService_getInvoices status
                  list_reply w in
     caught (fst run) = succeeds list_reply ∧ length (sent run) = 1%nat)
  ∧ (let run := Services_apiClient.invoiceService_getInvoice invoiceId
                  invoice_reply w in
     caught (fst run) = succeeds invoice_reply ∧ length (sent run) = 1%nat)
  ∧ (let run := Services_apiClient.invoiceService_createInvoice fields
                  invoice_reply w in
     caught (fst run) = succeeds invoice_reply ∧ length (sent run) = 1%nat)
  ∧ (let run := Services_apiClient.chatService_sendQuery query chat_reply w in
     caught (fst run) = succeeds chat_reply ∧ length (sent run) = 1%nat)
  ∧ (let run := Services_apiClient.chatService_getSuggestions any_reply w in
     caught (fst run) = succeeds any_reply ∧ length (sent run) = 1%nat)
  ∧ (let run := Services_apiClient.dashboardService_getOverview any_reply w
     in caught (fst run) = succeeds any_reply ∧ length (sent run) = 1%nat)
  ∧ (let run := Services_apiClient.dashboardService_getInsights any_reply w
     in caught (fst run) = succeeds any_reply ∧ length (sent run) = 1%nat).
Proof.
  cbv zeta.
  assert (Hapi : ∀ D' (cfg : AxiosRequestConfig) (reply : HttpReply D'),
            let run := (response ← Services_api.request cfg reply;
                        mret (res_data response)) w in
            caught (fst run) = succeeds reply
            ∧ length (requests (new_since (network w) (network (snd run))))
              = 1%nat
            ∧ localStorage (snd run) = localStorage w
              ∧ href (snd run) = href w).
  { intros D' cfg reply.
    destruct (api_body_run cfg reply w) as (Hc & Hs & Hk).
    cbv zeta. split; [exact Hc|]. split; [now rewrite Hs | exact Hk]. }
  assert (Hclient : ∀ D' (cfg : AxiosRequestConfig) (reply : HttpReply D'),
            let run := (response ← Services_apiClient.request cfg reply;
                        mret (res_data response)) w in
            caught (fst run) = succeeds reply
            ∧ length (requests (new_since (network w) (network (snd run))))
              = 1%nat).
  { intros D' cfg reply.
    destruct (apiClient_body_run cfg reply w) as (Hc & Hs).
    cbv zeta. split; [exact Hc | now rewrite Hs]. }
  split; [exact (Hapi _ _ chat_reply)|].
  split; [exact (Hapi _ _ list_reply)|].
  split; [exact (Hapi _ _ invoice_reply)|].
  split; [exact (Hapi _ _ invoice_reply)|].
  split; [exact (Hapi _ _ customers_reply)|].
  split; [exact (Hapi _ _ customer_reply)|].
  split; [exact (Hapi _ _ any_reply)|].
  split; [exact (Hclient _ _ list_reply)|].
  split; [exact (Hclient _ _ invoice_reply)|].
  split; [exact (Hclient _ _ invoice_reply)|].
  split; [exact (Hclient _ _ chat_reply)|].
  split; [exact (Hclient _ _ any_reply)|].
  split; [exact (Hclient _ _ any_reply)|].
  exact (Hclient _ _ any_reply).
Qed.

(** ** Deleting one invoice after another *)

Lemma handleDelete_accepted (id : string) (r : HttpResponse unit)
    (w : World Components_Invoices.State) :
  validateStatus (res_status r) = true →
  ∃ w',
    Components_Invoices.handleDelete id true (Response r) w = (Return tt, w')
    ∧ component w'
      = Components_Invoices.setInvoices
          (filter (λ inv, Types.id inv ≠ id)
                  (Components_Invoices.invoices (component w)))
          (component w).
Proof.
  intros Hok. rewrite handleDelete_fulfilled by exact Hok.
  now eexists.
Qed.

(** X20. Deletions that succeed one after the other compose as filters:
    the rendered list ends without the invoices of either id, in the order
    it had, whichever of the two was deleted first; and deleting an id a
    second time changes nothing more. *)
Theorem deletions_commute_and_repeat_harmlessly (a b : string)
    (ra rb : HttpResponse unit) (w : World Components_Invoices.State) :
  validateStatus (res_status ra) = true →
  validateStatus (res_status rb) = true →
  let delete id r := Components_Invoices.handleDelete id true (Response r) in
  let list_after (run : Js Components_Invoices.State unit) :=
    Components_Invoices.invoices (component (snd (run w))) in
  list_after (delete a ra ;; delete b rb)
  = filter (λ inv, Types.id inv ≠ a ∧ Types.id inv ≠ b)
           (Components_Invoices.invoices (component w))
  ∧ list_after (delete a ra ;; delete b rb)
    = list_after (delete b rb ;; delete a ra)
  ∧ list_after (delete a ra ;; delete a rb) = list_after (delete a ra).
Proof.
  intros Ha Hb delete list_after. subst list_after delete. cbv beta.
  rewrite !run_bind.
  destruct (handleDelete_accepted a ra w Ha) as (wa & -> & Hwa).
  destruct (handleDelete_accepted b rb w Hb) as (wb & -> & Hwb).
  destruct (handleDelete_accepted b rb wa Hb) as (wab & -> & Hwab).
  destruct (handleDelete_accepted a ra wb Ha) as (wba & -> & Hwba).
  destruct (handleDelete_accepted a rb wa Hb) as (waa & -> & Hwaa).
  cbn [snd]. rewrite Hwab, Hwba, Hwaa, Hwa, Hwb.
  cbn [Components_Invoices.setInvoices Components_Invoices.invoices].
  rewrite !list_filter_filter. split_and!.
  - apply list_filter_iff. intros inv. tauto.
  - apply list_filter_iff. intros inv. tauto.
  - apply list_filter_iff. intros inv. tauto.
Qed.

(** Two of three invoices deleted, in both orders. *)
Lemma deletions_commute_example :
  let inv n := Types.mkInvoice n ("INV-" +:+ n) "c1" None "2025-01-05"
                               "2025-02-05" 100 "pending" in
  let w := page (Components_Invoices.mkState [inv "1"; inv "2"; inv "3"]
                   false "")
                ∅ "http://localhost:3000/" in
  let ok := Response (mkResponse 204 tt None) in
  Components_Invoices.invoices
    (component
       (snd ((Components_Invoices.handleDelete "1" true ok ;;
              Components_Invoices.handleDelete "3" true ok) w)))
  = Components_Invoices.invoices
      (component
         (snd ((Components_Invoices.handleDelete "3" true ok ;;
                Components_Invoices.handleDelete "1" true ok) w))).
Proof.
  cbv zeta.
  apply (deletions_commute_and_repeat_harmlessly "1" "3"
           (mkResponse 204 tt None) (mkResponse 204 tt None)); reflexivity.
Defined.
